(** * Meeting scheduler: a shallow embedding of cweb.c and its properties

    The scheduler places recurring meetings and every-week reservations on a
    grid of 4 weeks x 4 days x 14 half-hour slots.  This file embeds the
    scheduling core of [cweb.c]: the slot calendar, [init_scheduler],
    [reserve_slot], [is_valid_slot] and [add_meeting].  The repository holds
    an earlier copy of the program, scheduler_web.c, with the same calendar
    and reservations and an [add_meeting] without fortnight pairs; that
    function is embedded in the module [Legacy].  After the core come
    [compute_end_time], the page of [generate_schedule_html], the calendar
    file of [generate_ics] and the request that the handler of /addMeeting
    builds.

    Modelling conventions.
    - C [int] values are [Z]; every index that the program computes stays far
      from the limits of a 32-bit integer, so no wrap-around occurs.
    - C [double] values are rationals [Q].  Every double the core computes is
      a multiple of 0.5 of small magnitude (a sum of at most four equal such
      values, divided by their count 1, 2 or 4, or by 4), so the floating
      point operations are exact and agree with the rational ones.
    - C strings are [string]; [strcmp (a, b) == 0] is [String.eqb a b].
    - The arrays [schedule] and [reservations] with their element counts are
      lists (the count is the length).  A write past the capacity of the array
      is undefined behaviour in C: the model then has no result ([None]).
    - The flags [assigned_weeks] (an [int] array of zeros and ones) are
      booleans.
    - [rand ()] is modelled by the function that gives the value of its k-th
      call within [add_meeting], a natural number (the C function never
      returns a negative).
    - The scheduler state is passed explicitly: a function that mutates
      [*scheduler] returns the new state with its result.
    - The buffers of 16384 bytes of the page and of the calendar file are
      strings with their length checked at each [strcat]: a text that does
      not fit is written past the end of the buffer, and the model has no
      result.
    - What the C library and the machine decide is a parameter: [atoi] for
      the duration of a request, and the text [strftime] prints for a date
      after [mktime], which depends on the time zone. *)

From Stdlib Require Import ZArith QArith Lqa Lia String Ascii Bool.
From Stdlib Require Import DecimalString.
From stdpp Require Import base list list_numbers.

Local Open Scope string_scope.
Local Open Scope list_scope.
Local Open Scope Z_scope.

(** ** Constants and tables *)

Definition MAX_DAYS : Z := 4.
Definition MAX_WEEKS : Z := 4.
Definition MAX_SLOTS : Z := 14.
Definition MAX_MEETINGS : Z := 100.
Definition MAX_RESERVATIONS : Z := 50.

Definition DAYS : list string := ["Monday"; "Tuesday"; "Wednesday"; "Thursday"].

Definition TIME_SLOTS : list string :=
  ["09:00"; "09:30"; "10:00"; "10:30"; "11:00"; "11:30";
   "13:00"; "13:30"; "14:00"; "14:30"; "15:00"; "15:30";
   "16:00"; "16:30"].

Definition BREAK_SLOTS : list string := ["12:00"; "12:30"].

Definition FREQUENCIES : list string :=
  ["weekly"; "fortnightly"; "third_week"; "monthly"].

(** ** Data *)

Record Meeting := {
  m_name : string;
  m_type : string;
  m_duration : Z;
  m_preferred_hours : list Z;   (* int [8], a negative entry ends the list *)
  m_fixed_day : string;         (* the empty string when there is none *)
  m_fixed_time : string;
  m_frequency : string
}.

Record Reservation := {
  r_day : string;
  r_start_time : string;
  r_duration : Z
}.

Record ScheduleEntry := {
  e_week : Z;
  e_day : Z;
  e_start_time : Z;
  e_name : string;
  e_type : string;
  e_duration : Z;
  e_frequency : string
}.

(** [blocked_slots [week][day][slot]] *)
Abbreviation grid := (list (list (list bool))).

Record MeetingScheduler := {
  schedule : list ScheduleEntry;
  reservations : list Reservation;
  total_hours : list Q;
  meeting_hours : list Q;
  blocked_slots : grid
}.

Definition schedule_count (s : MeetingScheduler) : Z :=
  Z.of_nat (length (schedule s)).

Definition reservation_count (s : MeetingScheduler) : Z :=
  Z.of_nat (length (reservations s)).

(** ** Array access *)

(** The program reads and writes an array at an index it has checked to be
    within bounds, and never at a negative one.  Outside the bounds, where C
    leaves the behaviour undefined, a read of the model gives a default and a
    write does nothing. *)

(** [TIME_SLOTS [i]] and the like. *)
Definition str_at (tbl : list string) (i : Z) : string :=
  default "" (tbl !! Z.to_nat i).

(** [total_hours [i]] and [meeting_hours [i]] *)
Definition hours_at (a : list Q) (i : Z) : Q :=
  default 0%Q (a !! Z.to_nat i).

(** [a [i] += h] *)
Definition add_hours (a : list Q) (i : Z) (h : Q) : list Q :=
  <[Z.to_nat i := (hours_at a i + h)%Q]> a.

(** [day_order [i]], [weeks [i]], [preferred_hours [i]] *)
Definition int_at (a : list Z) (i : Z) : Z :=
  default (-1) (a !! Z.to_nat i).

(** [assigned_weeks [i]] *)
Definition flag_at (a : list bool) (i : Z) : bool :=
  default false (a !! Z.to_nat i).

(** [blocked_slots [week][day_idx][slot_idx]] *)
Definition cell (g : grid) (week day_idx slot_idx : Z) : bool :=
  match g !! Z.to_nat week with
  | Some plane =>
      match plane !! Z.to_nat day_idx with
      | Some row => default false (row !! Z.to_nat slot_idx)
      | None => false
      end
  | None => false
  end.

(** [blocked_slots [week][day_idx][slot_idx] = true] *)
Definition book (g : grid) (week day_idx slot_idx : Z) : grid :=
  alter (alter (<[Z.to_nat slot_idx := true]>) (Z.to_nat day_idx))
        (Z.to_nat week) g.

(** Comparison of doubles: [x < y]. *)
Definition Qltb (x y : Q) : bool :=
  Qnum x * Zpos (Qden y) <? Qnum y * Zpos (Qden x).

(** ** Slot calendar *)

Fixpoint find_index (tbl : list string) (x : string) (i : Z) : Z :=
  match tbl with
  | [] => -1
  | l :: tbl' => if String.eqb l x then i else find_index tbl' x (i + 1)
  end.

Definition find_slot_index (time : string) : Z := find_index TIME_SLOTS time 0.

Definition find_day_index (day : string) : Z := find_index DAYS day 0.

Definition is_break_slot (time : string) : bool :=
  String.eqb time (str_at BREAK_SLOTS 0) || String.eqb time (str_at BREAK_SLOTS 1).

Definition slot_to_hour (slot_idx : Z) : Q :=
  let hour := Z.quot slot_idx 2 + 9 in
  let minute := Z.rem slot_idx 2 * 30 in
  let hour := if slot_idx >=? 6 then hour + 1 else hour in
  (inject_Z hour + inject_Z minute / 60)%Q.

(** ** Scheduler *)

Definition init_scheduler : MeetingScheduler :=
  {| schedule := [];
     reservations := [];
     total_hours := replicate (Z.to_nat MAX_DAYS) 0%Q;
     meeting_hours := replicate (Z.to_nat MAX_DAYS) 0%Q;
     blocked_slots :=
       replicate (Z.to_nat MAX_WEEKS)
         (replicate (Z.to_nat MAX_DAYS) (replicate (Z.to_nat MAX_SLOTS) false)) |}.

(** The inner loop of the booking pass of [reserve_slot], over [i]: a blocked
    cell ends the whole function with [false]; a free cell is booked at once. *)
Fixpoint reserve_week (g : grid) (week day_idx start_idx : Z) (offs : list Z)
  : bool * grid :=
  match offs with
  | [] => (true, g)
  | i :: offs' =>
      let slot_idx := start_idx + i in
      if cell g week day_idx slot_idx then (false, g)
      else reserve_week (book g week day_idx slot_idx) week day_idx start_idx offs'
  end.

(** The outer loop of the same pass, over [week]. *)
Fixpoint reserve_weeks (g : grid) (weeks : list Z) (day_idx start_idx : Z)
    (offs : list Z) : bool * grid :=
  match weeks with
  | [] => (true, g)
  | week :: weeks' =>
      match reserve_week g week day_idx start_idx offs with
      | (false, g') => (false, g')
      | (true, g') => reserve_weeks g' weeks' day_idx start_idx offs
      end
  end.

Definition with_blocked (s : MeetingScheduler) (g : grid) : MeetingScheduler :=
  {| schedule := schedule s;
     reservations := reservations s;
     total_hours := total_hours s;
     meeting_hours := meeting_hours s;
     blocked_slots := g |}.

Definition reserve_slot (s : MeetingScheduler) (day start_time : string)
    (duration_minutes : Z) : option (bool * MeetingScheduler) :=
  let day_idx := find_day_index day in
  let start_idx := find_slot_index start_time in
  if (day_idx =? -1) || (start_idx =? -1)
     || negb (Z.rem duration_minutes 30 =? 0)
     || (duration_minutes <? 30) || (duration_minutes >? 90)
  then Some (false, s)
  else
    let duration_slots := Z.quot duration_minutes 30 in
    let start_hour := slot_to_hour start_idx in
    let end_hour := (start_hour + inject_Z duration_slots * (1 # 2))%Q in
    if Qltb 17 end_hour || is_break_slot start_time then Some (false, s)
    else if existsb
              (fun i => let slot_idx := start_idx + i in
                 (slot_idx >=? MAX_SLOTS) || is_break_slot (str_at TIME_SLOTS slot_idx))
              (seqZ 0 duration_slots)
    then Some (false, s)
    else
      match reserve_weeks (blocked_slots s) (seqZ 0 MAX_WEEKS) day_idx start_idx
              (seqZ 0 duration_slots) with
      | (false, g) => Some (false, with_blocked s g)
      | (true, g) =>
          if reservation_count s <? MAX_RESERVATIONS then
            Some (true,
                  {| schedule := schedule s;
                     reservations :=
                       reservations s ++
                       [{| r_day := day; r_start_time := start_time;
                           r_duration := duration_slots |}];
                     total_hours :=
                       add_hours (total_hours s) day_idx
                         (inject_Z duration_slots * (1 # 2) * inject_Z MAX_WEEKS)%Q;
                     meeting_hours := meeting_hours s;
                     blocked_slots := g |})
          else None
      end.

Definition is_valid_slot (s : MeetingScheduler)
    (week day_idx start_idx duration_slots : Z) : bool :=
  if (start_idx <? 0) || (start_idx >=? MAX_SLOTS)
     || is_break_slot (str_at TIME_SLOTS start_idx)
  then false
  else
    let start_hour := slot_to_hour start_idx in
    let end_hour := (start_hour + inject_Z duration_slots * (1 # 2))%Q in
    if Qltb 17 end_hour then false
    else
      forallb
        (fun i => let slot_idx := start_idx + i in
           negb ((slot_idx >=? MAX_SLOTS)
                 || is_break_slot (str_at TIME_SLOTS slot_idx)
                 || cell (blocked_slots s) week day_idx slot_idx))
        (seqZ 0 duration_slots).

(** ** Meeting placement *)

Definition is_fortnightly (m : Meeting) : bool :=
  String.eqb (m_frequency m) "fortnightly".

Definition occurrences_of (m : Meeting) : Z :=
  if String.eqb (m_frequency m) "weekly" then 4
  else if String.eqb (m_frequency m) "fortnightly" then 2
  else if String.eqb (m_frequency m) "third_week" then 1
  else 1.

(** [meeting->fixed_day [0] ? find_day_index (meeting->fixed_day) : -1] *)
Definition fixed_day_idx_of (m : Meeting) : Z :=
  match m_fixed_day m with
  | EmptyString => -1
  | _ => find_day_index (m_fixed_day m)
  end.

Definition fixed_time_idx_of (m : Meeting) : Z :=
  match m_fixed_time m with
  | EmptyString => -1
  | _ => find_slot_index (m_fixed_time m)
  end.

(** One comparison of the bubble sort of [day_order], with its swap. *)
Definition bubble_step (th : list Q) (day_order : list Z) (j : Z) : list Z :=
  if Qltb (hours_at th (int_at day_order (j + 1))) (hours_at th (int_at day_order j))
  then
    let temp := int_at day_order j in
    let day_order := <[Z.to_nat j := int_at day_order (j + 1)]> day_order in
    <[Z.to_nat (j + 1) := temp]> day_order
  else day_order.

(** The days sorted by [total_hours], the less busy first. *)
Definition sort_days (th : list Q) : list Z :=
  fold_left
    (fun day_order i =>
       fold_left (bubble_step th) (seqZ 0 (MAX_DAYS - i - 1)) day_order)
    (seqZ 0 (MAX_DAYS - 1))
    (seqZ 0 MAX_DAYS).

(** [fortnight_pairs [p][i]] *)
Definition fortnight_pairs (p i : Z) : Z :=
  int_at (default [] ([[0; 2]; [1; 3]] !! Z.to_nat p)) i.

Definition max_pairs_of (m : Meeting) : Z :=
  if String.eqb (m_frequency m) "fortnightly" then 2 else 1.

(** The variables [min_hours], [chosen_day] and [chosen_time] of the search. *)
Record best := {
  min_hours : Q;
  chosen_day : Z;
  chosen_time : Z
}.

(** The loop over the weeks [w] of a candidate of a request that is not
    fortnightly: it counts the valid weeks that are not assigned, and stops
    when [occurrences] of them are found. *)
Fixpoint count_weeks (s : MeetingScheduler) (assigned_weeks : list bool)
    (day_idx time_idx duration_slots occurrences : Z) (ws : list Z)
    (valid_weeks : Z) (avg_hours : Q) : Z * Q :=
  match ws with
  | [] => (valid_weeks, avg_hours)
  | w :: ws' =>
      if flag_at assigned_weeks w then
        count_weeks s assigned_weeks day_idx time_idx duration_slots occurrences
          ws' valid_weeks avg_hours
      else
        let '(valid_weeks, avg_hours) :=
          if is_valid_slot s w day_idx time_idx duration_slots then
            (valid_weeks + 1,
             (avg_hours + (hours_at (total_hours s) day_idx
                           + inject_Z duration_slots * (1 # 2)))%Q)
          else (valid_weeks, avg_hours) in
        if valid_weeks >=? occurrences then (valid_weeks, avg_hours)
        else
          count_weeks s assigned_weeks day_idx time_idx duration_slots occurrences
            ws' valid_weeks avg_hours
  end.

(** [while (meeting->preferred_hours [time_end] >= 0 && time_end < 8) time_end++]:
    at most 8 increments; after the eighth the test [time_end < 8] fails
    whatever is read. *)
Fixpoint preferred_end (ph : list Z) (fuel : nat) (time_end : Z) : Z :=
  match fuel with
  | O => time_end
  | S fuel' =>
      if (int_at ph time_end >=? 0) && (time_end <? 8)
      then preferred_end ph fuel' (time_end + 1)
      else time_end
  end.

(** The body of the loop over [t]. *)
Definition try_time (s : MeetingScheduler) (m : Meeting)
    (assigned_weeks : list bool) (p day_idx : Z) (b : best) (t : Z) : best :=
  let duration_slots := m_duration m in
  let occurrences := occurrences_of m in
  let fixed_time_idx := fixed_time_idx_of m in
  let time_idx :=
    if fixed_time_idx >=? 0 then fixed_time_idx
    else if int_at (m_preferred_hours m) 0 >=? 0
         then int_at (m_preferred_hours m) t else t in
  if (time_idx <? 0) || (time_idx >=? MAX_SLOTS) then b
  else
    let '(valid_weeks, avg_hours) :=
      if String.eqb (m_frequency m) "fortnightly" then
        let week1 := fortnight_pairs p 0 in
        let week2 := fortnight_pairs p 1 in
        if is_valid_slot s week1 day_idx time_idx duration_slots
           && is_valid_slot s week2 day_idx time_idx duration_slots
        then (2, (hours_at (total_hours s) day_idx
                  + inject_Z duration_slots * (1 # 2))%Q)
        else (0, 0%Q)
      else
        count_weeks s assigned_weeks day_idx time_idx duration_slots occurrences
          (seqZ 0 MAX_WEEKS) 0 0%Q in
    if (valid_weeks >=? occurrences)
       && Qltb (avg_hours / inject_Z valid_weeks) (min_hours b)
    then {| min_hours := (avg_hours / inject_Z valid_weeks)%Q;
            chosen_day := day_idx;
            chosen_time := time_idx |}
    else b.

(** The body of the loop over [d]. *)
Definition try_day (s : MeetingScheduler) (m : Meeting)
    (assigned_weeks : list bool) (day_order : list Z) (p : Z) (b : best) (d : Z)
  : best :=
  let fixed_day_idx := fixed_day_idx_of m in
  let fixed_time_idx := fixed_time_idx_of m in
  let day_idx := if fixed_day_idx >=? 0 then fixed_day_idx else int_at day_order d in
  if Qltb (5 # 2) (hours_at (meeting_hours s) day_idx / 4) then b
  else
    let time_start := if fixed_time_idx >=? 0 then fixed_time_idx else 0 in
    let time_end := if fixed_time_idx >=? 0 then fixed_time_idx + 1 else MAX_SLOTS in
    let time_end :=
      if (int_at (m_preferred_hours m) 0 >=? 0) && (fixed_time_idx <? 0)
      then preferred_end (m_preferred_hours m) 8 0
      else time_end in
    fold_left (try_time s m assigned_weeks p day_idx)
      (seqZ time_start (Z.min time_end MAX_SLOTS - time_start)) b.

(** The body of the loop over the fortnight pairs [p]. *)
Definition try_pair (s : MeetingScheduler) (m : Meeting)
    (assigned_weeks : list bool) (day_order : list Z) (b : best) (p : Z) : best :=
  let fixed_day_idx := fixed_day_idx_of m in
  let day_start := if fixed_day_idx >=? 0 then fixed_day_idx else 0 in
  let day_end := if fixed_day_idx >=? 0 then fixed_day_idx + 1 else MAX_DAYS in
  fold_left (try_day s m assigned_weeks day_order p)
    (seqZ day_start (day_end - day_start)) b.

(** The search phase of [add_meeting]: the day and the time chosen, or -1. *)
Definition search (s : MeetingScheduler) (m : Meeting) : best :=
  let assigned_weeks := replicate (Z.to_nat MAX_WEEKS) false in
  let day_order := sort_days (total_hours s) in
  fold_left (try_pair s m assigned_weeks day_order)
    (seqZ 0 (max_pairs_of m))
    {| min_hours := 1000000000; chosen_day := -1; chosen_time := -1 |}.

(** The loop that marks the slots of one occurrence. *)
Definition mark_slots (g : grid) (week chosen_day chosen_time : Z)
    (offs : list Z) : grid :=
  fold_left (fun g j => book g week chosen_day (chosen_time + j)) offs g.

Definition entry_of (m : Meeting) (week chosen_day chosen_time : Z)
  : ScheduleEntry :=
  {| e_week := week;
     e_day := chosen_day;
     e_start_time := chosen_time;
     e_name := m_name m;
     e_type := m_type m;
     e_duration := m_duration m;
     e_frequency := m_frequency m |}.

(** One occurrence committed: the entry written at [schedule [schedule_count++]],
    the hours of the day, the slots of the week. *)
Definition commit_entry (s : MeetingScheduler) (m : Meeting)
    (week chosen_day chosen_time : Z) : option MeetingScheduler :=
  let duration_slots := m_duration m in
  if schedule_count s <? MAX_MEETINGS * MAX_WEEKS then
    Some {| schedule := schedule s ++ [entry_of m week chosen_day chosen_time];
            reservations := reservations s;
            total_hours :=
              add_hours (total_hours s) chosen_day (inject_Z duration_slots * (1 # 2));
            meeting_hours :=
              add_hours (meeting_hours s) chosen_day (inject_Z duration_slots * (1 # 2));
            blocked_slots :=
              mark_slots (blocked_slots s) week chosen_day chosen_time
                (seqZ 0 duration_slots) |}
  else None.

(** The loop that finds the first valid fortnight pair, -1 if there is none. *)
Fixpoint find_pair (s : MeetingScheduler) (chosen_day chosen_time duration_slots : Z)
    (ps : list Z) : Z :=
  match ps with
  | [] => -1
  | p :: ps' =>
      let week1 := fortnight_pairs p 0 in
      let week2 := fortnight_pairs p 1 in
      if is_valid_slot s week1 chosen_day chosen_time duration_slots
         && is_valid_slot s week2 chosen_day chosen_time duration_slots
      then p
      else find_pair s chosen_day chosen_time duration_slots ps'
  end.

(** The loop that adds the meeting to both weeks of the chosen pair. *)
Fixpoint commit_pair (s : MeetingScheduler) (m : Meeting)
    (chosen_pair chosen_day chosen_time : Z) (ixs : list Z)
  : option MeetingScheduler :=
  match ixs with
  | [] => Some s
  | i :: ixs' =>
      match commit_entry s m (fortnight_pairs chosen_pair i) chosen_day chosen_time with
      | Some s' => commit_pair s' m chosen_pair chosen_day chosen_time ixs'
      | None => None
      end
  end.

(** The shuffle of [weeks]: [rand k] is the value of the k-th call of [rand ()]. *)
Fixpoint shuffle (weeks : list Z) (ixs : list Z) (rand : nat -> nat) (k : nat)
  : list Z :=
  match ixs with
  | [] => weeks
  | i :: ixs' =>
      let j := Z.rem (Z.of_nat (rand k)) (i + 1) in
      let temp := int_at weeks i in
      let weeks := <[Z.to_nat i := int_at weeks j]> weeks in
      let weeks := <[Z.to_nat j := temp]> weeks in
      shuffle weeks ixs' rand (S k)
  end.

(** The loop over [w] that looks for a week of one occurrence: the flag
    [found] and the variable [week] when the loop ends. *)
Fixpoint scan_weeks (s : MeetingScheduler) (assigned_weeks : list bool)
    (weeks : list Z) (chosen_day chosen_time duration_slots : Z)
    (ws : list Z) (week : Z) : bool * Z :=
  match ws with
  | [] => (false, week)
  | w :: ws' =>
      let week := int_at weeks w in
      if flag_at assigned_weeks week then
        scan_weeks s assigned_weeks weeks chosen_day chosen_time duration_slots ws' week
      else if is_valid_slot s week chosen_day chosen_time duration_slots then
        (true, week)
      else
        scan_weeks s assigned_weeks weeks chosen_day chosen_time duration_slots ws' week
  end.

(** The loop over the occurrences [occ] of a request that is not fortnightly. *)
Fixpoint commit_occurrences (s : MeetingScheduler) (m : Meeting)
    (assigned_weeks : list bool) (weeks : list Z) (chosen_day chosen_time : Z)
    (occs : list Z) : option (bool * MeetingScheduler) :=
  match occs with
  | [] => Some (true, s)
  | _ :: occs' =>
      match scan_weeks s assigned_weeks weeks chosen_day chosen_time (m_duration m)
              (seqZ 0 MAX_WEEKS) (-1) with
      | (false, _) => Some (false, s)
      | (true, week) =>
          match commit_entry s m week chosen_day chosen_time with
          | None => None
          | Some s' =>
              commit_occurrences s' m (<[Z.to_nat week := true]> assigned_weeks)
                weeks chosen_day chosen_time occs'
          end
      end
  end.

Definition add_meeting (s : MeetingScheduler) (m : Meeting) (rand : nat -> nat)
  : option (bool * MeetingScheduler) :=
  let duration_slots := m_duration m in
  let occurrences := occurrences_of m in
  let assigned_weeks := replicate (Z.to_nat MAX_WEEKS) false in
  let b := search s m in
  let chosen_day := chosen_day b in
  let chosen_time := chosen_time b in
  if (chosen_day =? -1) || (chosen_time =? -1) then Some (false, s)
  else if String.eqb (m_frequency m) "fortnightly" then
    let chosen_pair := find_pair s chosen_day chosen_time duration_slots (seqZ 0 2) in
    if chosen_pair =? -1 then Some (false, s)
    else
      match commit_pair s m chosen_pair chosen_day chosen_time (seqZ 0 2) with
      | Some s' => Some (true, s')
      | None => None
      end
  else
    let weeks :=
      shuffle (seqZ 0 MAX_WEEKS) (reverse (seqZ 1 (MAX_WEEKS - 1))) rand 0 in
    commit_occurrences s m assigned_weeks weeks chosen_day chosen_time
      (seqZ 0 occurrences).

(** ** Well-formed states: the dimensions of the arrays *)

Definition grid_wf (g : grid) : Prop :=
  length g = Z.to_nat MAX_WEEKS /\
  Forall (fun plane : list (list bool) =>
            length plane = Z.to_nat MAX_DAYS /\
            Forall (fun row : list bool => length row = Z.to_nat MAX_SLOTS) plane) g.

Definition sched_wf (s : MeetingScheduler) : Prop :=
  grid_wf (blocked_slots s) /\
  length (total_hours s) = Z.to_nat MAX_DAYS /\
  length (meeting_hours s) = Z.to_nat MAX_DAYS.

(** ** The wall-clock reading of a label "HH:MM", for the calendar laws *)

Definition digit (c : ascii) : Z := Z.of_nat (nat_of_ascii c) - 48.

Definition clock_hour (label : string) : option Q :=
  match label with
  | String h1 (String h0 (String ":" (String m1 (String m0 EmptyString)))) =>
      Some (inject_Z (10 * digit h1 + digit h0)
            + inject_Z (10 * digit m1 + digit m0) / 60)%Q
  | _ => None
  end.

(** ** The grid and the states, for the properties *)

(** The grid after [mark_slots] in each of the [weeks]. *)
Definition mark_weeks (g : grid) (weeks : list Z) (d t : Z) (offs : list Z) : grid :=
  fold_left (fun g w => mark_slots g w d t offs) weeks g.

(** The states that a run of the program can reach. *)
Inductive reachable : MeetingScheduler -> Prop :=
| reach_init : reachable init_scheduler
| reach_reserve s day start_time duration_minutes b s' :
    reachable s ->
    reserve_slot s day start_time duration_minutes = Some (b, s') ->
    reachable s'
| reach_add s m rand b s' :
    reachable s ->
    add_meeting s m rand = Some (b, s') ->
    reachable s'.

(** ** The order of the days and of the weeks *)

(** [l] lists the days 0..3, by ascending hours, equal hours in day order. *)
Definition stable_sorted (th : list Q) (l : list Z) : Prop :=
  exists a b c d,
    l = [a; b; c; d] /\
    l ≡ₚ [0; 1; 2; 3] /\
    Forall (fun xy : Z * Z =>
              (hours_at th (fst xy) <= hours_at th (snd xy))%Q /\
              ((hours_at th (fst xy) == hours_at th (snd xy))%Q -> fst xy < snd xy))
           [(a, b); (b, c); (c, d)].

(** [weeks] lists the weeks 0..3, each once. *)
Definition week_order (weeks : list Z) : Prop :=
  weeks ≡ₚ [0; 1; 2; 3].

(** The weeks in the order of the shuffle. *)
Definition shuffled_weeks (rand : nat -> nat) : list Z :=
  shuffle (seqZ 0 MAX_WEEKS) (reverse (seqZ 1 (MAX_WEEKS - 1))) rand 0.

(** ** The candidates of the search and the selection *)

(** The day is left out of the search: [meeting_hours [day] / 4 > 2.5]. *)
Definition overloaded (s : MeetingScheduler) (day_idx : Z) : bool :=
  Qltb (5 # 2) (hours_at (meeting_hours s) day_idx / 4).

(** The projected hours of a day: its total hours and the meeting's own. *)
Definition score (s : MeetingScheduler) (m : Meeting) (day_idx : Z) : Q :=
  (hours_at (total_hours s) day_idx + inject_Z (m_duration m) * (1 # 2))%Q.

(** The quantity the search compares: the score, halved for a fortnightly
    request (the code divides the score, not a sum of two, by 2). *)
Definition metric (s : MeetingScheduler) (m : Meeting) (day_idx : Z) : Q :=
  if is_fortnightly m then (score s m day_idx / inject_Z 2)%Q else score s m day_idx.

(** The number of weeks in which the slot is valid. *)
Definition count_valid (s : MeetingScheduler) (m : Meeting) (day_idx time_idx : Z) : Z :=
  Z.of_nat (length (List.filter
                      (fun w => is_valid_slot s w day_idx time_idx (m_duration m))
                      (seqZ 0 MAX_WEEKS))).

(** Both weeks of the fortnight pair [p] are valid. *)
Definition pair_valid (s : MeetingScheduler) (m : Meeting) (p day_idx time_idx : Z) : bool :=
  is_valid_slot s (fortnight_pairs p 0) day_idx time_idx (m_duration m)
  && is_valid_slot s (fortnight_pairs p 1) day_idx time_idx (m_duration m).

(** A day and a time can take the request: both weeks of the pair [p] are
    valid (fortnightly), or enough weeks are valid (otherwise). *)
Definition qualifies (s : MeetingScheduler) (m : Meeting) (p day_idx time_idx : Z) : bool :=
  if is_fortnightly m then pair_valid s m p day_idx time_idx
  else occurrences_of m <=? count_valid s m day_idx time_idx.

(** The days in the order of the search. *)
Definition day_list (s : MeetingScheduler) (m : Meeting) : list Z :=
  if fixed_day_idx_of m >=? 0 then [fixed_day_idx_of m]
  else sort_days (total_hours s).

(** The entries of a list before its first negative entry. *)
Fixpoint leading_nonneg (l : list Z) : list Z :=
  match l with
  | [] => []
  | x :: l' => if x >=? 0 then x :: leading_nonneg l' else []
  end.

(** The times in the order of the search: the fixed time, or the preferred
    times, or every slot. *)
Definition time_list (m : Meeting) : list Z :=
  if fixed_time_idx_of m >=? 0 then [fixed_time_idx_of m]
  else if int_at (m_preferred_hours m) 0 >=? 0
       then leading_nonneg (take 8 (m_preferred_hours m))
       else seqZ 0 MAX_SLOTS.

(** The time tried at the iteration [t] of the loop over the times. *)
Definition time_idx_of (m : Meeting) (t : Z) : Z :=
  if fixed_time_idx_of m >=? 0 then fixed_time_idx_of m
  else if int_at (m_preferred_hours m) 0 >=? 0
       then int_at (m_preferred_hours m) t else t.

(** The day tried at the iteration [d] of the loop over the days. *)
Definition day_idx_of (m : Meeting) (day_order : list Z) (d : Z) : Z :=
  if fixed_day_idx_of m >=? 0 then fixed_day_idx_of m else int_at day_order d.

(** A candidate: the pass [p] over the fortnight pairs, the day, the time. *)
Definition cand : Type := Z * Z * Z.
Definition cand_pair (c : cand) : Z := fst (fst c).
Definition cand_day (c : cand) : Z := snd (fst c).
Definition cand_time (c : cand) : Z := snd c.

Definition cands_time (s : MeetingScheduler) (m : Meeting) (p day_idx time_idx : Z)
  : list cand :=
  if negb ((time_idx <? 0) || (time_idx >=? MAX_SLOTS))
     && qualifies s m p day_idx time_idx
  then [(p, day_idx, time_idx)] else [].

Definition cands_day (s : MeetingScheduler) (m : Meeting) (p day_idx : Z) : list cand :=
  if overloaded s day_idx then []
  else flat_map (cands_time s m p day_idx) (time_list m).

Definition cands_pair (s : MeetingScheduler) (m : Meeting) (p : Z) : list cand :=
  flat_map (cands_day s m p) (day_list s m).

(** The candidates in the order in which the search meets them: pair by
    pair, then day by day, then time by time. *)
Definition candidates (s : MeetingScheduler) (m : Meeting) : list cand :=
  flat_map (cands_pair s m) (seqZ 0 (max_pairs_of m)).

(** [b] holds the first candidate of [cs] of least metric, among those with
    a metric below 1e9; or no choice when there is none. *)
Definition selects (s : MeetingScheduler) (m : Meeting) (cs : list cand) (b : best)
  : Prop :=
  (chosen_day b = -1 /\ chosen_time b = -1 /\
   (min_hours b == 1000000000)%Q /\
   Forall (fun c => (1000000000 <= metric s m (cand_day c))%Q) cs)
  \/
  (exists pre c post,
     cs = pre ++ c :: post /\
     chosen_day b = cand_day c /\ chosen_time b = cand_time c /\
     (min_hours b == metric s m (cand_day c))%Q /\
     (metric s m (cand_day c) < 1000000000)%Q /\
     Forall (fun c' => (metric s m (cand_day c) < metric s m (cand_day c'))%Q) pre /\
     Forall (fun c' => (metric s m (cand_day c) <= metric s m (cand_day c'))%Q) post).

(** The candidates as the selection rule words them: the days in their
    order, for each day the times in their order, kept when the count of
    valid weeks reaches the count of occurrences. *)
Definition claim_candidates (s : MeetingScheduler) (m : Meeting) : list (Z * Z) :=
  flat_map
    (fun d =>
       if overloaded s d then []
       else flat_map
              (fun t =>
                 if negb ((t <? 0) || (t >=? MAX_SLOTS))
                    && (occurrences_of m <=? count_valid s m d t)
                 then [(d, t)] else [])
              (time_list m))
    (day_list s m).

(** ** The weeks of the commit loop *)

(** A week that the commit loop can still take: not assigned, and valid. *)
Definition avail (s : MeetingScheduler) (assigned_weeks : list bool)
    (d t dur : Z) (w : Z) : bool :=
  negb (flag_at assigned_weeks w) && is_valid_slot s w d t dur.

(** ** Frequency labels *)

(** The request [m] under another frequency label. *)
Definition with_frequency (m : Meeting) (f : string) : Meeting :=
  {| m_name := m_name m; m_type := m_type m; m_duration := m_duration m;
     m_preferred_hours := m_preferred_hours m;
     m_fixed_day := m_fixed_day m; m_fixed_time := m_fixed_time m;
     m_frequency := f |}.

(** The entry [e] under another frequency label. *)
Definition relabel (f : string) (e : ScheduleEntry) : ScheduleEntry :=
  {| e_week := e_week e; e_day := e_day e; e_start_time := e_start_time e;
     e_name := e_name e; e_type := e_type e; e_duration := e_duration e;
     e_frequency := f |}.

(** Two states that differ at most in the frequency labels of their entries. *)
Definition same_but_labels (s1 s2 : MeetingScheduler) : Prop :=
  map (relabel "") (schedule s1) = map (relabel "") (schedule s2) /\
  reservations s1 = reservations s2 /\
  total_hours s1 = total_hours s2 /\
  meeting_hours s1 = meeting_hours s2 /\
  blocked_slots s1 = blocked_slots s2.

(** ** Requests and states of the scenarios *)

(** A weekly request of one slot, free in day and time. *)
Definition weekly_example : Meeting :=
  {| m_name := "Standup"; m_type := "Team"; m_duration := 1;
     m_preferred_hours := replicate 8 (-1);
     m_fixed_day := ""; m_fixed_time := ""; m_frequency := "weekly" |}.

(** A fortnightly request of two slots, fixed on Monday 10:00. *)
Definition fortnightly_example : Meeting :=
  {| m_name := "Planning"; m_type := "Team"; m_duration := 2;
     m_preferred_hours := replicate 8 (-1);
     m_fixed_day := "Monday"; m_fixed_time := "10:00";
     m_frequency := "fortnightly" |}.

(** A monthly request of one slot, fixed on Monday 09:00. *)
Definition monthly_example : Meeting :=
  {| m_name := "Review"; m_type := "Team"; m_duration := 1;
     m_preferred_hours := replicate 8 (-1);
     m_fixed_day := "Monday"; m_fixed_time := "09:00";
     m_frequency := "monthly" |}.

(** A request whose frequency is none of the four labels. *)
Definition daily_example : Meeting :=
  {| m_name := "Check-in"; m_type := "One-to-one"; m_duration := 2;
     m_preferred_hours := replicate 8 (-1);
     m_fixed_day := ""; m_fixed_time := ""; m_frequency := "daily" |}.

(** The shuffle that leaves week 2 first: the values of [rand ()] are 3, 0, 1. *)
Definition rand_week2_first (k : nat) : nat :=
  match k with 0%nat => 3%nat | 1%nat => 0%nat | _ => 1%nat end.

(** The state with one monthly occurrence, in week 2 on Monday 09:00. *)
Definition monday_week2_taken : MeetingScheduler :=
  default init_scheduler
    (snd <$> add_meeting init_scheduler monthly_example rand_week2_first).

(** A weekly request of three slots, fixed on Monday at [start_time]. *)
Definition monday_block (start_time : string) : Meeting :=
  {| m_name := "Workshop"; m_type := "Team"; m_duration := 3;
     m_preferred_hours := replicate 8 (-1);
     m_fixed_day := "Monday"; m_fixed_time := start_time;
     m_frequency := "weekly" |}.

(** The state after two weekly 90-minute meetings on Monday, at 09:00 and at
    10:30: the meeting hours of Monday are 12. *)
Definition monday_once : MeetingScheduler :=
  default init_scheduler
    (snd <$> add_meeting init_scheduler (monday_block "09:00") (fun _ => 0%nat)).

Definition monday_loaded : MeetingScheduler :=
  default monday_once
    (snd <$> add_meeting monday_once (monday_block "10:30") (fun _ => 0%nat)).

(** A monthly request of one slot, fixed on Monday 13:00. *)
Definition monday_afternoon : Meeting :=
  {| m_name := "Sync"; m_type := "One-to-one"; m_duration := 1;
     m_preferred_hours := replicate 8 (-1);
     m_fixed_day := "Monday"; m_fixed_time := "13:00";
     m_frequency := "monthly" |}.

(** A fortnightly request of one slot, fixed on Monday 09:00. *)
Definition fortnightly_0900 : Meeting :=
  {| m_name := "Planning"; m_type := "Team"; m_duration := 1;
     m_preferred_hours := replicate 8 (-1);
     m_fixed_day := "Monday"; m_fixed_time := "09:00";
     m_frequency := "fortnightly" |}.

(** A fortnightly request of one slot, fixed on Monday, free in time. *)
Definition fortnightly_monday : Meeting :=
  {| m_name := "Retro"; m_type := "Team"; m_duration := 1;
     m_preferred_hours := replicate 8 (-1);
     m_fixed_day := "Monday"; m_fixed_time := "";
     m_frequency := "fortnightly" |}.

(** The state with one fortnightly meeting, on Monday 09:00 in the weeks 0
    and 2. *)
Definition monday_0900_taken : MeetingScheduler :=
  default init_scheduler
    (snd <$> add_meeting init_scheduler fortnightly_0900 (fun _ => 0%nat)).

(** ** The earlier copy of the placement *)

Module Legacy.

(** The body of the loop over [t] in the earlier copy of [add_meeting]
    (scheduler_web.c): every frequency counts the valid weeks; there are no
    fortnight pairs. *)
Definition try_time (s : MeetingScheduler) (m : Meeting)
    (assigned_weeks : list bool) (day_idx : Z) (b : best) (t : Z) : best :=
  let duration_slots := m_duration m in
  let occurrences := occurrences_of m in
  let fixed_time_idx := fixed_time_idx_of m in
  let time_idx :=
    if fixed_time_idx >=? 0 then fixed_time_idx
    else if int_at (m_preferred_hours m) 0 >=? 0
         then int_at (m_preferred_hours m) t else t in
  if (time_idx <? 0) || (time_idx >=? MAX_SLOTS) then b
  else
    let '(valid_weeks, avg_hours) :=
      count_weeks s assigned_weeks day_idx time_idx duration_slots occurrences
        (seqZ 0 MAX_WEEKS) 0 0%Q in
    if (valid_weeks >=? occurrences)
       && Qltb (avg_hours / inject_Z valid_weeks) (min_hours b)
    then {| min_hours := (avg_hours / inject_Z valid_weeks)%Q;
            chosen_day := day_idx;
            chosen_time := time_idx |}
    else b.

Definition try_day (s : MeetingScheduler) (m : Meeting)
    (assigned_weeks : list bool) (day_order : list Z) (b : best) (d : Z) : best :=
  let fixed_day_idx := fixed_day_idx_of m in
  let fixed_time_idx := fixed_time_idx_of m in
  let day_idx := if fixed_day_idx >=? 0 then fixed_day_idx else int_at day_order d in
  if Qltb (5 # 2) (hours_at (meeting_hours s) day_idx / 4) then b
  else
    let time_start := if fixed_time_idx >=? 0 then fixed_time_idx else 0 in
    let time_end := if fixed_time_idx >=? 0 then fixed_time_idx + 1 else MAX_SLOTS in
    let time_end :=
      if (int_at (m_preferred_hours m) 0 >=? 0) && (fixed_time_idx <? 0)
      then preferred_end (m_preferred_hours m) 8 0
      else time_end in
    fold_left (try_time s m assigned_weeks day_idx)
      (seqZ time_start (Z.min time_end MAX_SLOTS - time_start)) b.

(** The search, repeated by the loop over [w] for each of the four weeks. *)
Definition search (s : MeetingScheduler) (m : Meeting) : best :=
  let assigned_weeks := replicate (Z.to_nat MAX_WEEKS) false in
  let day_order := sort_days (total_hours s) in
  let fixed_day_idx := fixed_day_idx_of m in
  let day_start := if fixed_day_idx >=? 0 then fixed_day_idx else 0 in
  let day_end := if fixed_day_idx >=? 0 then fixed_day_idx + 1 else MAX_DAYS in
  fold_left
    (fun b _ =>
       fold_left (try_day s m assigned_weeks day_order)
         (seqZ 0 (day_end - day_start)) b)
    (seqZ 0 MAX_WEEKS)
    {| min_hours := 1000000000; chosen_day := -1; chosen_time := -1 |}.

Definition add_meeting (s : MeetingScheduler) (m : Meeting) (rand : nat -> nat)
  : option (bool * MeetingScheduler) :=
  let occurrences := occurrences_of m in
  let assigned_weeks := replicate (Z.to_nat MAX_WEEKS) false in
  let weeks :=
    shuffle (seqZ 0 MAX_WEEKS) (reverse (seqZ 1 (MAX_WEEKS - 1))) rand 0 in
  let b := search s m in
  if (chosen_day b =? -1) || (chosen_time b =? -1) then Some (false, s)
  else
    commit_occurrences s m assigned_weeks weeks (chosen_day b) (chosen_time b)
      (seqZ 0 occurrences).


End Legacy.

(** * Display, export and the request for a meeting *)

(** ** The end time of an entry, as the pages show it *)

(** [(int) x] for a [double x]: the fraction is dropped. *)
Definition trunc (x : Q) : Z := Z.quot (Qnum x) (Z.pos (Qden x)).

(** [%d] *)
Definition decimal (n : Z) : string := NilZero.string_of_int (Z.to_int n).

(** [%02d]: at least two characters, with a zero on the left of a single digit. *)
Definition decimal2 (n : Z) : string :=
  let s := decimal n in
  if (String.length s <? 2)%nat then String.append "0" s else s.

(** [snprintf (end_time, 8, "%02d:%02d", end_h, end_m)] keeps at most seven
    characters. *)
Definition compute_end_time (start_idx duration_slots : Z) : string :=
  let start_hour := slot_to_hour start_idx in
  let end_hour := (start_hour + inject_Z duration_slots * (1 # 2))%Q in
  let end_h := trunc end_hour in
  let end_m := trunc ((end_hour - inject_Z end_h) * 60)%Q in
  substring 0 7 (String.append (decimal2 end_h) (String.append ":" (decimal2 end_m))).

(** ** The page of the schedule *)

(** The text that a format prints, piece by piece. *)
Definition printed (pieces : list string) : string :=
  fold_right String.append "" pieces.

(** [snprintf (temp, sizeof (temp), ...)] with [char temp [512]] keeps at
    most 511 characters. *)
Definition in_temp (text : string) : string := substring 0 511 text.

(** [strcat (buffer, piece)] on the buffer of 16384 bytes that holds the
    page: the text and its final zero byte have to fit; a longer text is
    written past the end of the buffer (no result). *)
Definition strcat (buffer : option string) (piece : string) : option string :=
  match buffer with
  | Some b =>
      if Z.of_nat (String.length b) + Z.of_nat (String.length piece) <? 16384
      then Some (String.append b piece) else None
  | None => None
  end.

(** [(day % 2 == 0) ? "#ffffff" : "#f2f2f2"] *)
Definition day_color (day : Z) : string :=
  if Z.rem day 2 =? 0 then "#ffffff" else "#f2f2f2".

(** The row of an entry of the schedule. *)
Definition entry_row (day : Z) (e : ScheduleEntry) : string :=
  in_temp
    (printed
       ["<tr style='background-color:"; day_color day; ";'><td>"; str_at DAYS day;
        "</td><td>"; str_at TIME_SLOTS (e_start_time e);
        "</td><td>"; compute_end_time (e_start_time e) (e_duration e);
        "</td><td>"; e_name e; "</td><td>"; e_type e; "</td>";
        "<td>"; decimal (e_duration e * 30); "</td><td>"; e_frequency e;
        "</td></tr>"]).

(** The row of a reservation. *)
Definition reservation_row (day : Z) (r : Reservation) : string :=
  let start_idx := find_slot_index (r_start_time r) in
  in_temp
    (printed
       ["<tr style='background-color:"; day_color day; ";'><td>"; str_at DAYS day;
        "</td><td>"; r_start_time r;
        "</td><td>"; compute_end_time start_idx (r_duration r);
        "</td><td>Reserved (External)</td>";
        "<td>Reserved</td><td>"; decimal (r_duration r * 30);
        "</td><td>Weekly</td></tr>"]).

(** The loop over the entries, for one week and one day. *)
Definition entry_rows (s : MeetingScheduler) (week day : Z) (buffer : option string)
  : option string :=
  fold_left
    (fun buffer e =>
       if (e_week e =? week) && (e_day e =? day)
       then strcat buffer (entry_row day e) else buffer)
    (schedule s) buffer.

(** The loop over the reservations, for one day. *)
Definition reservation_rows (s : MeetingScheduler) (day : Z) (buffer : option string)
  : option string :=
  fold_left
    (fun buffer r =>
       if String.eqb (r_day r) (str_at DAYS day)
       then strcat buffer (reservation_row day r) else buffer)
    (reservations s) buffer.

(** The body of the loop over the weeks: the table of one week. *)
Definition week_table (s : MeetingScheduler) (buffer : option string) (week : Z)
  : option string :=
  let buffer := strcat buffer (in_temp (printed ["<h3>Week "; decimal (week + 1); "</h3>"])) in
  let buffer := strcat buffer "<table class='table table-bordered'><thead><tr>" in
  let buffer := strcat buffer "<th>Day</th><th>Start Time</th><th>End Time</th><th>Name</th><th>Type</th><th>Duration (min)</th><th>Frequency</th>" in
  let buffer := strcat buffer "</tr></thead><tbody>" in
  let buffer :=
    fold_left
      (fun buffer day => reservation_rows s day (entry_rows s week day buffer))
      (seqZ 0 MAX_DAYS) buffer in
  strcat buffer "</tbody></table>".

(** The page, or no result when it does not fit the buffer.  ([malloc] is
    taken to succeed.) *)
Definition generate_schedule_html (s : MeetingScheduler) : option string :=
  let buffer := Some ""%string in
  let buffer := strcat buffer "<!DOCTYPE html><html><head><meta charset='utf-8'><title>Schedule</title>" in
  let buffer := strcat buffer "<link rel='stylesheet' href='https://stackpath.bootstrapcdn.com/bootstrap/4.5.2/css/bootstrap.min.css'>" in
  let buffer := strcat buffer "<style>@media print { .no-print { display: none; } }</style>" in
  let buffer := strcat buffer "</head><body><div class='container'><h1>Weekly Meeting Schedule</h1>" in
  let buffer := fold_left (week_table s) (seqZ 0 MAX_WEEKS) buffer in
  let buffer := strcat buffer "<div class='no-print mt-4'><button class='btn btn-info' onclick='window.print()'>Print to PDF</button></div>" in
  let buffer := strcat buffer "<p class='mt-2'><a href='/'>Return to Main Page</a></p>" in
  strcat buffer "</div></body></html>".

(** ** The request for a meeting, as the handler builds it *)

(** The parameters of a request to /addMeeting, as
    [MHD_lookup_connection_value] returns them: [None] for NULL. *)
Record MeetingQuery := {
  q_name : option string;
  q_type : option string;
  q_duration : option string;
  q_preferred_times : option string;
  q_fixed_day : option string;
  q_fixed_time : option string;
  q_frequency : option string
}.

(** [strtok (temp, ",")] and the calls [strtok (NULL, ",")] after it: the
    runs of characters other than the comma, the empty runs left out.
    [token] is the run being read. *)
Fixpoint strtok_commas (temp : string) (token : string) : list string :=
  match temp with
  | EmptyString => if String.eqb token "" then [] else [token]
  | String c temp' =>
      if Ascii.eqb c ","
      then if String.eqb token "" then strtok_commas temp' ""
           else token :: strtok_commas temp' ""
      else strtok_commas temp' (String.append token (String c ""))
  end.

(** [while (token && idx < 8)]: the slots of the known labels, in the order
    of the tokens. *)
Fixpoint fill_preferred (preferred_hours : list Z) (idx : Z) (tokens : list string)
  : list Z * Z :=
  match tokens with
  | [] => (preferred_hours, idx)
  | token :: tokens' =>
      if idx <? 8 then
        let slot := find_slot_index token in
        if negb (slot =? -1)
        then fill_preferred (<[Z.to_nat idx := slot]> preferred_hours) (idx + 1) tokens'
        else fill_preferred preferred_hours idx tokens'
      else (preferred_hours, idx)
  end.

(** The preferred hours of the request: eight times -1, then the slots of
    the parameter. *)
Definition parse_preferred (pref_times : option string) : list Z :=
  let preferred_hours := replicate 8 (-1) in
  match pref_times with
  | Some p =>
      if (0 <? String.length p)%nat then
        let '(preferred_hours, idx) :=
          fill_preferred preferred_hours 0 (strtok_commas p "") in
        if idx <? 8 then <[Z.to_nat idx := -1]> preferred_hours else preferred_hours
      else preferred_hours
  | None => preferred_hours
  end.

(** The duration of the request in slots: zero (the struct is cleared) when
    the parameter is absent. *)
Definition parse_duration (atoi : string -> Z) (duration_str : option string) : Z :=
  match duration_str with
  | Some d =>
      let dur := atoi d in
      if dur =? 30 then 1
      else if dur =? 60 then 2
      else if dur =? 90 then 3
      else 1
  | None => 0
  end.

(** [strncpy (dst, src, n)] into an array [dst] of [n] zero bytes: the
    first [n] characters of [src]. *)
Definition strncpy (src : string) (n : nat) : string := substring 0 n src.

(** [strncpy (dst, src, n)] leaves [dst] without its final zero byte when
    [src] has [n] characters or more. *)
Definition terminated (n : nat) (src : option string) : bool :=
  match src with
  | Some v => (String.length v <? n)%nat
  | None => true
  end.

(** The request that the handler of /addMeeting passes to [add_meeting];
    [atoi] is the function of the C library.  A name, a type, a day, a time
    or a frequency of 64 characters or more fills its array of 64 bytes,
    which [add_meeting] compares with its short labels and copies
    with the same bound.  There is no result when the preferred times have
    256 characters or more: [temp] then has no final zero byte and [strtok]
    reads past its end. *)
Definition build_meeting (atoi : string -> Z) (q : MeetingQuery) : option Meeting :=
  if terminated 256 (q_preferred_times q)
  then
    Some {| m_name := strncpy (default "" (q_name q)) 64;
            m_type := strncpy (default "" (q_type q)) 64;
            m_duration := parse_duration atoi (q_duration q);
            m_preferred_hours := parse_preferred (q_preferred_times q);
            m_fixed_day := strncpy (default "" (q_fixed_day q)) 64;
            m_fixed_time := strncpy (default "" (q_fixed_time q)) 64;
            m_frequency := strncpy (default "" (q_frequency q)) 64 |}
  else None.

(** ** The calendar file *)

(** The end of a line of the file: carriage return, line feed. *)
Definition crlf : string := String "013"%char (String "010"%char "").

(** The hour and the minute at which an event starts: [tm_hour] and [tm_min]
    as the loops over the entries and over the reservations set them. *)
Definition event_hour (start_idx : Z) : Z :=
  let hour := Z.quot start_idx 2 + 9 in
  if start_idx >=? 6 then hour + 1 else hour.

Definition event_min (start_idx : Z) : Z := Z.rem start_idx 2 * 30.

(** The event of an entry of the schedule.  [strftime_at mday hour min] is
    the text that [strftime] gives, with the format of the date and the
    time, after [mktime] for the base date (14 April 2025) with [tm_mday],
    [tm_hour] and [tm_min] set to these values; it depends on the time zone
    of the machine. *)
Definition meeting_event (strftime_at : Z -> Z -> Z -> string) (e : ScheduleEntry)
  : string :=
  let mday := 14 + (e_day e + e_week e * 7) in
  let dtstart_str :=
    strftime_at mday (event_hour (e_start_time e)) (event_min (e_start_time e)) in
  in_temp
    (printed
       ["BEGIN:VEVENT"; crlf; "SUMMARY:"; e_name e; " ("; e_type e; ")"; crlf;
        "DTSTART:"; dtstart_str; crlf;
        "DURATION:PT"; decimal (e_duration e * 30); "M"; crlf;
        "RRULE:FREQ=WEEKLY"; crlf;
        "DESCRIPTION:Type: "; e_type e; ", Duration: "; decimal (e_duration e * 30);
        " min, Frequency: "; e_frequency e; crlf; "END:VEVENT"; crlf]).

(** The event of a reservation. *)
Definition reservation_event (strftime_at : Z -> Z -> Z -> string) (r : Reservation)
  : string :=
  let day_idx := find_day_index (r_day r) in
  let mday := 14 + day_idx in
  let start_idx := find_slot_index (r_start_time r) in
  let dtstart_str := strftime_at mday (event_hour start_idx) (event_min start_idx) in
  in_temp
    (printed
       ["BEGIN:VEVENT"; crlf; "SUMMARY:Reserved (External)"; crlf;
        "DTSTART:"; dtstart_str; crlf;
        "DURATION:PT"; decimal (r_duration r * 30); "M"; crlf;
        "RRULE:FREQ=WEEKLY"; crlf;
        "DESCRIPTION:External commitment, Duration: "; decimal (r_duration r * 30);
        " min"; crlf; "END:VEVENT"; crlf]).

(** The calendar file, or no result when it does not fit its buffer of 16384
    bytes.  ([malloc] is taken to succeed.) *)
Definition generate_ics (strftime_at : Z -> Z -> Z -> string) (s : MeetingScheduler)
  : option string :=
  let ics := Some ""%string in
  let ics := strcat ics (printed ["BEGIN:VCALENDAR"; crlf]) in
  let ics := strcat ics (printed ["PRODID:-//Meeting Scheduler//xAI//EN"; crlf]) in
  let ics := strcat ics (printed ["VERSION:2.0"; crlf]) in
  let ics :=
    fold_left (fun ics e => strcat ics (meeting_event strftime_at e)) (schedule s) ics in
  let ics :=
    fold_left (fun ics r => strcat ics (reservation_event strftime_at r))
      (reservations s) ics in
  strcat ics (printed ["END:VCALENDAR"; crlf]).

(** * Notions for the properties of the program as a whole *)

(** ** The state as a whole *)

(** An entry lies on the grid and ends within the slots of its day. *)
Definition entry_ok (e : ScheduleEntry) : Prop :=
  0 <= e_week e < MAX_WEEKS /\ 0 <= e_day e < MAX_DAYS /\
  0 <= e_start_time e < MAX_SLOTS /\
  e_start_time e + e_duration e <= MAX_SLOTS.

(** The cells of an entry are occupied. *)
Definition entry_booked (g : grid) (e : ScheduleEntry) : Prop :=
  forall i, 0 <= i < e_duration e ->
            cell g (e_week e) (e_day e) (e_start_time e + i) = true.

(** A reservation has a known day and start label, lasts one to three slots
    and ends within the slots of its day. *)
Definition res_ok (r : Reservation) : Prop :=
  0 <= find_day_index (r_day r) < MAX_DAYS /\
  0 <= find_slot_index (r_start_time r) /\
  1 <= r_duration r <= 3 /\
  find_slot_index (r_start_time r) + r_duration r <= MAX_SLOTS.

(** The cells of a reservation are occupied in each of the four weeks. *)
Definition res_booked (g : grid) (r : Reservation) : Prop :=
  forall w i, 0 <= w < MAX_WEEKS -> 0 <= i < r_duration r ->
              cell g w (find_day_index (r_day r))
                   (find_slot_index (r_start_time r) + i) = true.

(** The hours of the entries of the day [d]: half an hour per slot. *)
Fixpoint meeting_sum (sch : list ScheduleEntry) (d : Z) : Q :=
  match sch with
  | [] => 0
  | e :: sch' =>
      ((if e_day e =? d then inject_Z (e_duration e) * (1 # 2) else 0)
       + meeting_sum sch' d)%Q
  end.

(** The hours of the reservations of the day [d], over the four weeks. *)
Fixpoint reserved_sum (rs : list Reservation) (d : Z) : Q :=
  match rs with
  | [] => 0
  | r :: rs' =>
      ((if find_day_index (r_day r) =? d
        then inject_Z (r_duration r) * (1 # 2) * inject_Z MAX_WEEKS else 0)
       + reserved_sum rs' d)%Q
  end.

(** The hours kept per day are those of the entries and the reservations. *)
Definition hours_ok (s : MeetingScheduler) : Prop :=
  forall d, 0 <= d < MAX_DAYS ->
    (hours_at (total_hours s) d
     == meeting_sum (schedule s) d + reserved_sum (reservations s) d)%Q /\
    (hours_at (meeting_hours s) d == meeting_sum (schedule s) d)%Q.

Definition consistent (s : MeetingScheduler) : Prop :=
  sched_wf s /\
  Forall entry_ok (schedule s) /\
  Forall (entry_booked (blocked_slots s)) (schedule s) /\
  Forall res_ok (reservations s) /\
  Forall (res_booked (blocked_slots s)) (reservations s) /\
  hours_ok s.

(** The state after a reservation of Tuesday 14:00 for an hour, a weekly
    meeting and a fortnightly one. *)
Definition sample_reserved : MeetingScheduler :=
  default init_scheduler (snd <$> reserve_slot init_scheduler "Tuesday" "14:00" 60).

Definition sample_weekly : MeetingScheduler :=
  default sample_reserved
    (snd <$> add_meeting sample_reserved weekly_example (fun _ => 5%nat)).

Definition sample_state : MeetingScheduler :=
  default sample_weekly
    (snd <$> add_meeting sample_weekly fortnightly_example (fun _ => 0%nat)).


(** ** Requests and their outcome *)

(** The entries that a call has appended to the schedule. *)
Definition new_entries (s s' : MeetingScheduler) : list ScheduleEntry :=
  drop (length (schedule s)) (schedule s').

(** The request [m] with other labels for its fixed day and fixed time. *)
Definition with_fixed (m : Meeting) (day time : string) : Meeting :=
  {| m_name := m_name m; m_type := m_type m; m_duration := m_duration m;
     m_preferred_hours := m_preferred_hours m;
     m_fixed_day := day; m_fixed_time := time; m_frequency := m_frequency m |}.

(** A request of two slots with three preferred times and no fixed day or time. *)
Definition preferred_example : Meeting :=
  {| m_name := "Design review"; m_type := "Design"; m_duration := 2;
     m_preferred_hours := [0; 9; 4; -1; -1; -1; -1; -1];
     m_fixed_day := ""; m_fixed_time := ""; m_frequency := "monthly" |}.

(** A request without duration, as the handler builds it when the parameter
    is absent. *)
Definition zero_example : Meeting :=
  {| m_name := "Ping"; m_type := "Client"; m_duration := 0;
     m_preferred_hours := replicate 8 (-1);
     m_fixed_day := ""; m_fixed_time := ""; m_frequency := "weekly" |}.

(** The values of [rand ()] are [a], [b], then [c] for ever. *)
Definition rand3 (a b c : nat) (k : nat) : nat :=
  match k with 0%nat => a | 1%nat => b | _ => c end.

(** ** States at the capacity of the arrays *)

(** The state after a run of half-hour reservations, each on a day and at a
    start time of [reqs]. *)
Definition reserve_all (reqs : list (string * string)) (s : MeetingScheduler)
  : MeetingScheduler :=
  fold_left (fun s r => default s (snd <$> reserve_slot s (fst r) (snd r) 30)) reqs s.

(** The state after the same request [m] made [n] times. *)
Fixpoint add_times (n : nat) (m : Meeting) (rand : nat -> nat) (s : MeetingScheduler)
  : MeetingScheduler :=
  match n with
  | O => s
  | S n' => add_times n' m rand (default s (snd <$> add_meeting s m rand))
  end.

(** Every slot of every day, day by day. *)
Definition half_hours : list (string * string) :=
  d ← DAYS; t ← TIME_SLOTS; [(d, t)].

(** Fifty half-hour reservations: every slot from Monday to Wednesday, and
    the first eight of Thursday. *)
Definition fifty_reservations : MeetingScheduler :=
  reserve_all (take 50 half_hours) init_scheduler.

(** A hundred weekly requests without duration: four hundred entries. *)
Definition four_hundred_entries : MeetingScheduler :=
  add_times 100 zero_example (fun _ => 0%nat) init_scheduler.

(** The states that a run reaches when every request for a meeting has
    the property [ok]. *)
Inductive reachable_with (ok : Meeting -> Prop) : MeetingScheduler -> Prop :=
| reach_with_init : reachable_with ok init_scheduler
| reach_with_reserve s day start_time duration_minutes b s' :
    reachable_with ok s ->
    reserve_slot s day start_time duration_minutes = Some (b, s') ->
    reachable_with ok s'
| reach_with_add s m rand b s' :
    reachable_with ok s -> ok m ->
    add_meeting s m rand = Some (b, s') ->
    reachable_with ok s'.

(** The request lasts one slot at least, as every request does that carries
    a duration parameter. *)
Definition has_duration (m : Meeting) : Prop := 1 <= m_duration m.

(** The entries last one slot at least and no day holds more than 38 hours
    of meetings. *)
Definition loaded_within (s : MeetingScheduler) : Prop :=
  consistent s /\
  Forall (fun e => 1 <= e_duration e) (schedule s) /\
  forall d, 0 <= d < MAX_DAYS -> (hours_at (meeting_hours s) d <= 38)%Q.

(** Twenty-four half-hour reservations: every slot of Monday and the first
    ten of Tuesday. *)
Definition twenty_four_reservations : MeetingScheduler :=
  reserve_all (take 24 half_hours) init_scheduler.

(** The length of the rows of the reservations of [rs] that the page shows
    for the day. *)
Fixpoint rows_length (day : Z) (rs : list Reservation) : nat :=
  match rs with
  | [] => 0
  | r :: rs' =>
      ((if String.eqb (r_day r) (str_at DAYS day)
        then String.length (reservation_row day r) else 0)
       + rows_length day rs')%nat
  end.

(** The slots of the known labels among the tokens. *)
Definition known_slots (tokens : list string) : list Z :=
  List.filter (fun slot => negb (slot =? -1)) (map find_slot_index tokens).

(** A request as the form sends it, with preferred times of which three are
    slot labels. *)
Definition sample_query : MeetingQuery :=
  {| q_name := Some "Design review"; q_type := Some "Design";
     q_duration := Some "60";
     q_preferred_times := Some "09:30,12:00,,14:00,9:00,16:30";
     q_fixed_day := Some ""; q_fixed_time := Some "";
     q_frequency := Some "monthly" |}.

(** A request whose name has 69 characters and whose frequency has 64. *)
Definition long_query : MeetingQuery :=
  {| q_name :=
       Some "Quarterly review of the design of the scheduling engine, second part.";
     q_type := Some "Design";
     q_duration := None;
     q_preferred_times := Some "16:30,09:00";
     q_fixed_day := Some "Thursday"; q_fixed_time := None;
     q_frequency :=
       Some "weekly, but on the first and on the third week of the month only" |}.

(** ** Who holds a cell *)

(** The entry covers the slot [t] of the day [d] in the week [w]. *)
Definition covers_entry (e : ScheduleEntry) (w d t : Z) : Prop :=
  e_week e = w /\ e_day e = d /\
  e_start_time e <= t < e_start_time e + e_duration e.

(** The reservation covers the slot [t] of the day [d], in each of the four
    weeks. *)
Definition covers_reservation (r : Reservation) (w d t : Z) : Prop :=
  0 <= w < MAX_WEEKS /\ find_day_index (r_day r) = d /\
  find_slot_index (r_start_time r) <= t
  < find_slot_index (r_start_time r) + r_duration r.

(** No cell is covered twice: not by two entries, not by an entry and a
    reservation, not by two reservations. *)
Definition no_overlap (s : MeetingScheduler) : Prop :=
  (forall i j e1 e2 w d t,
      (i < j)%nat -> schedule s !! i = Some e1 -> schedule s !! j = Some e2 ->
      covers_entry e1 w d t -> covers_entry e2 w d t -> False) /\
  (forall e r w d t,
      In e (schedule s) -> In r (reservations s) ->
      covers_entry e w d t -> covers_reservation r w d t -> False) /\
  (forall i j r1 r2 w d t,
      (i < j)%nat -> reservations s !! i = Some r1 -> reservations s !! j = Some r2 ->
      covers_reservation r1 w d t -> covers_reservation r2 w d t -> False).

(** The length of the rows of the entries of [sch] that the page shows in
    the table of the week, for the day. *)
Fixpoint entry_rows_length (week day : Z) (sch : list ScheduleEntry) : nat :=
  match sch with
  | [] => 0
  | e :: sch' =>
      Nat.add
        (if (e_week e =? week) && (e_day e =? day)
         then String.length (entry_row day e) else 0%nat)
        (entry_rows_length week day sch')
  end.

(** Twenty-four weekly meetings of half an hour, six a day, and then seven
    half-hour reservations. *)
Definition busy_month : MeetingScheduler :=
  reserve_all (take 7 (drop 6 half_hours))
    (add_times 24 weekly_example (fun _ => 0%nat) init_scheduler).

(** Twenty-four weekly meetings of half an hour, six a day in the morning,
    and thirty half-hour reservations in the afternoons. *)
Definition busy_quarter : MeetingScheduler :=
  reserve_all (take 30 (d ← DAYS; t ← drop 6 TIME_SLOTS; [(d, t)]))
    (add_times 24 weekly_example (fun _ => 0%nat) init_scheduler).

(** ** The pieces of the page *)

(** The rows of one day in the table of one week, in the order in which
    they are appended. *)
Definition day_pieces (s : MeetingScheduler) (week day : Z) : list string :=
  map (entry_row day)
    (List.filter (fun e => (e_week e =? week) && (e_day e =? day)) (schedule s))
  ++ map (reservation_row day)
       (List.filter (fun r => String.eqb (r_day r) (str_at DAYS day)) (reservations s)).

(** The total length of the pieces. *)
Definition lengths (pieces : list string) : nat :=
  fold_right (fun p n => (String.length p + n)%nat) 0%nat pieces.

(** * Properties *)

(** ** Comparisons *)

Lemma Qltb_lt (x y : Q) : Qltb x y = true <-> (x < y)%Q.
Proof. unfold Qltb, Qlt. apply Z.ltb_lt. Qed.

Lemma Qltb_ge (x y : Q) : Qltb x y = false <-> (y <= x)%Q.
Proof. unfold Qltb, Qle. rewrite Z.ltb_ge. reflexivity. Qed.

(** ** Slot calendar *)

Lemma find_index_range (tbl : list string) (x : string) (i : Z) :
  find_index tbl x i = -1 \/
  i <= find_index tbl x i < i + Z.of_nat (length tbl).
Proof.
  revert i. induction tbl as [|l tbl IH]; intros i; simpl.
  - now left.
  - destruct (String.eqb l x).
    + right. lia.
    + destruct (IH (i + 1)) as [H|H]; [now left | right; lia].
Qed.

Lemma find_index_sound (tbl : list string) (x : string) (i : Z) :
  0 <= i -> find_index tbl x i <> -1 ->
  tbl !! Z.to_nat (find_index tbl x i - i) = Some x.
Proof.
  revert i. induction tbl as [|l tbl IH]; intros i Hi; simpl.
  - congruence.
  - destruct (String.eqb l x) eqn:E.
    + intros _. apply String.eqb_eq in E. subst l.
      now replace (i - i) with 0 by lia.
    + intros Hne. specialize (IH (i + 1) ltac:(lia) Hne).
      destruct (find_index_range tbl x (i + 1)) as [H|H]; [congruence|].
      replace (Z.to_nat (find_index tbl x (i + 1) - i))
        with (S (Z.to_nat (find_index tbl x (i + 1) - (i + 1)))) by lia.
      exact IH.
Qed.

Lemma find_slot_index_range (time : string) :
  find_slot_index time = -1 \/ 0 <= find_slot_index time < MAX_SLOTS.
Proof.
  unfold find_slot_index.
  destruct (find_index_range TIME_SLOTS time 0) as [H|H]; [now left|right].
  change (Z.of_nat (length TIME_SLOTS)) with 14 in H. unfold MAX_SLOTS. lia.
Qed.

Lemma find_day_index_range (day : string) :
  find_day_index day = -1 \/ 0 <= find_day_index day < MAX_DAYS.
Proof.
  unfold find_day_index.
  destruct (find_index_range DAYS day 0) as [H|H]; [now left|right].
  change (Z.of_nat (length DAYS)) with 4 in H. unfold MAX_DAYS. lia.
Qed.

Lemma find_slot_index_label (time : string) :
  find_slot_index time <> -1 -> str_at TIME_SLOTS (find_slot_index time) = time.
Proof.
  intros H. unfold str_at, find_slot_index in *.
  pose proof (find_index_sound TIME_SLOTS time 0 ltac:(lia) H) as E.
  rewrite Z.sub_0_r in E. now rewrite E.
Qed.

(** C9. The calendar conversions are exact inverses over the fourteen labels:
    for an index [i] in 0..13, [slot_to_hour i] is the wall-clock hour of the
    label [TIME_SLOTS [i]] (index 6 is 13:00, the break hour being skipped) and
    [find_slot_index] maps that label back to [i]; a label that
    [find_slot_index] accepts is the label of the index it returns; the break
    labels 12:00 and 12:30 are recognised by [is_break_slot] and have no
    index. *)
Theorem C9_calendar_inverse (i : Z) (Hi : 0 <= i < MAX_SLOTS) :
  (exists h, clock_hour (str_at TIME_SLOTS i) = Some h /\ (slot_to_hour i == h)%Q) /\
  find_slot_index (str_at TIME_SLOTS i) = i /\
  is_break_slot (str_at TIME_SLOTS i) = false /\
  (forall label, find_slot_index label = i -> str_at TIME_SLOTS i = label) /\
  (slot_to_hour 6 == 13)%Q /\
  is_break_slot "12:00" = true /\ is_break_slot "12:30" = true /\
  find_slot_index "12:00" = -1 /\ find_slot_index "12:30" = -1.
Proof.
  assert (Hlabel : forall label, find_slot_index label = i -> str_at TIME_SLOTS i = label).
  { intros label E. rewrite <- E. apply find_slot_index_label. lia. }
  assert (C : i = 0 \/ i = 1 \/ i = 2 \/ i = 3 \/ i = 4 \/ i = 5 \/ i = 6 \/
              i = 7 \/ i = 8 \/ i = 9 \/ i = 10 \/ i = 11 \/ i = 12 \/ i = 13)
    by (unfold MAX_SLOTS in Hi; lia).
  repeat (destruct C as [C|C]);
    subst i;
    (split; [eexists; split; reflexivity|]);
    (split; [reflexivity|]); (split; [reflexivity|]);
    (split; [exact Hlabel|]); repeat split; reflexivity.
Qed.

Lemma C9_calendar_inverse_witness :
  (exists h, clock_hour (str_at TIME_SLOTS 6) = Some h /\ (slot_to_hour 6 == h)%Q) /\
  find_slot_index (str_at TIME_SLOTS 6) = 6 /\
  is_break_slot (str_at TIME_SLOTS 6) = false /\
  (forall label, find_slot_index label = 6 -> str_at TIME_SLOTS 6 = label) /\
  (slot_to_hour 6 == 13)%Q /\
  is_break_slot "12:00" = true /\ is_break_slot "12:30" = true /\
  find_slot_index "12:00" = -1 /\ find_slot_index "12:30" = -1.
Proof. apply (C9_calendar_inverse 6). unfold MAX_SLOTS. lia. Defined.

(** ** The blocking grid *)

Lemma cell_book_same (g : grid) (w d t : Z) :
  grid_wf g ->
  0 <= w < MAX_WEEKS -> 0 <= d < MAX_DAYS -> 0 <= t < MAX_SLOTS ->
  cell (book g w d t) w d t = true.
Proof.
  intros [Hl Hg] Hw Hd Ht. unfold cell, book.
  rewrite list_lookup_alter_eq.
  destruct (lookup_lt_is_Some_2 g (Z.to_nat w)) as [plane Hp]; [lia|].
  rewrite Hp. simpl.
  rewrite Forall_lookup in Hg. destruct (Hg _ _ Hp) as [Hlp Hrows].
  rewrite list_lookup_alter_eq.
  destruct (lookup_lt_is_Some_2 plane (Z.to_nat d)) as [row Hr]; [lia|].
  rewrite Hr. simpl.
  rewrite Forall_lookup in Hrows. pose proof (Hrows _ _ Hr) as Hlr.
  rewrite list_lookup_insert_eq by lia. reflexivity.
Qed.

Lemma cell_book_other (g : grid) (w d t w' d' t' : Z) :
  (Z.to_nat w', Z.to_nat d', Z.to_nat t') <> (Z.to_nat w, Z.to_nat d, Z.to_nat t) ->
  cell (book g w d t) w' d' t' = cell g w' d' t'.
Proof.
  intros Hne. unfold cell, book.
  destruct (decide (Z.to_nat w = Z.to_nat w')) as [Ew|Nw].
  - rewrite <- Ew. rewrite list_lookup_alter_eq.
    destruct (g !! Z.to_nat w) as [plane|]; simpl; [|reflexivity].
    destruct (decide (Z.to_nat d = Z.to_nat d')) as [Ed|Nd].
    + rewrite <- Ed. rewrite list_lookup_alter_eq.
      destruct (plane !! Z.to_nat d) as [row|]; simpl; [|reflexivity].
      rewrite list_lookup_insert_ne; [reflexivity|].
      intros Et. apply Hne. congruence.
    + rewrite list_lookup_alter_ne by exact Nd. reflexivity.
  - rewrite list_lookup_alter_ne by exact Nw. reflexivity.
Qed.

Lemma cell_book_mono (g : grid) (w d t w' d' t' : Z) :
  cell g w' d' t' = true -> cell (book g w d t) w' d' t' = true.
Proof.
  intros H.
  destruct (decide ((Z.to_nat w', Z.to_nat d', Z.to_nat t')
                    = (Z.to_nat w, Z.to_nat d, Z.to_nat t))) as [E|N].
  - injection E as Ew Ed Et. revert H. unfold cell, book.
    rewrite Ew, Ed, Et. rewrite list_lookup_alter_eq.
    destruct (g !! Z.to_nat w) as [plane|]; simpl; [|discriminate].
    rewrite list_lookup_alter_eq.
    destruct (plane !! Z.to_nat d) as [row|]; simpl; [|discriminate].
    destruct (row !! Z.to_nat t) as [b|] eqn:Hb; simpl; [|discriminate].
    intros _. rewrite list_lookup_insert_eq; [reflexivity|].
    eapply lookup_lt_Some; eassumption.
  - rewrite cell_book_other by exact N. exact H.
Qed.

Lemma grid_wf_book (g : grid) (w d t : Z) : grid_wf g -> grid_wf (book g w d t).
Proof.
  intros [Hl Hg]. unfold book. split.
  - now rewrite length_alter.
  - apply Forall_alter; [exact Hg|].
    intros plane _ [Hlp Hrows]. split.
    + now rewrite length_alter.
    + apply Forall_alter; [exact Hrows|].
      intros row _ Hlr. now rewrite length_insert.
Qed.

Lemma grid_wf_mark_slots (offs : list Z) (g : grid) (w d t : Z) :
  grid_wf g -> grid_wf (mark_slots g w d t offs).
Proof.
  unfold mark_slots. revert g.
  induction offs as [|j offs IH]; intros g Hg; simpl; [exact Hg|].
  apply IH. now apply grid_wf_book.
Qed.

(** A cell is occupied after [mark_slots] exactly when it was occupied
    before or is one of the marked cells. *)
Lemma cell_mark_slots (offs : list Z) (g : grid) (w d t w' d' t' : Z) :
  grid_wf g ->
  0 <= w < MAX_WEEKS -> 0 <= d < MAX_DAYS ->
  Forall (fun j => 0 <= t + j < MAX_SLOTS) offs ->
  0 <= w' -> 0 <= d' -> 0 <= t' ->
  cell (mark_slots g w d t offs) w' d' t'
  = cell g w' d' t'
    || ((w' =? w) && (d' =? d) && existsb (fun j => t' =? t + j) offs).
Proof.
  intros Hg Hw Hd Hoffs Hw' Hd' Ht'. unfold mark_slots. revert g Hg.
  induction Hoffs as [|j offs Hj Hoffs IH]; intros g Hg; simpl.
  - now rewrite andb_false_r, orb_false_r.
  - rewrite IH by now apply grid_wf_book.
    destruct (decide ((w', d', t') = (w, d, t + j))) as [E|N].
    + injection E as -> -> ->.
      rewrite cell_book_same by assumption.
      rewrite !Z.eqb_refl. simpl. now rewrite orb_true_r.
    + rewrite cell_book_other.
      2:{ intros E. apply N. injection E as Ew Ed Et.
          f_equal; [f_equal|]; lia. }
      destruct (t' =? t + j) eqn:Et; simpl; [|reflexivity].
      apply Z.eqb_eq in Et.
      destruct (w' =? w) eqn:Ew; simpl; [|reflexivity].
      destruct (d' =? d) eqn:Ed; simpl; [|reflexivity].
      apply Z.eqb_eq in Ew, Ed. exfalso. apply N. congruence.
Qed.

(** Marking the slots of one week leaves the cells of the other weeks as
    they are. *)
Lemma cell_mark_slots_other_week (offs : list Z) (g : grid) (w d t w' d' t' : Z) :
  Z.to_nat w' <> Z.to_nat w ->
  cell (mark_slots g w d t offs) w' d' t' = cell g w' d' t'.
Proof.
  intros Hne. unfold mark_slots. revert g.
  induction offs as [|j offs IH]; intros g; simpl; [reflexivity|].
  rewrite IH. apply cell_book_other. congruence.
Qed.

Lemma cell_mark_slots_mono (offs : list Z) (g : grid) (w d t w' d' t' : Z) :
  cell g w' d' t' = true -> cell (mark_slots g w d t offs) w' d' t' = true.
Proof.
  unfold mark_slots. revert g.
  induction offs as [|j offs IH]; intros g H; simpl; [exact H|].
  apply IH. now apply cell_book_mono.
Qed.

Lemma cell_mark_weeks (weeks offs : list Z) (g : grid) (d t w' d' t' : Z) :
  grid_wf g ->
  Forall (fun w => 0 <= w < MAX_WEEKS) weeks -> 0 <= d < MAX_DAYS ->
  Forall (fun j => 0 <= t + j < MAX_SLOTS) offs ->
  0 <= w' -> 0 <= d' -> 0 <= t' ->
  cell (mark_weeks g weeks d t offs) w' d' t'
  = cell g w' d' t'
    || (existsb (fun w => w' =? w) weeks && (d' =? d)
        && existsb (fun j => t' =? t + j) offs).
Proof.
  intros Hg Hweeks Hd Hoffs Hw' Hd' Ht'. unfold mark_weeks. revert g Hg.
  induction Hweeks as [|w weeks Hw Hweeks IH]; intros g Hg; simpl.
  - now rewrite orb_false_r.
  - rewrite IH by now apply grid_wf_mark_slots.
    rewrite cell_mark_slots by assumption.
    destruct (cell g w' d' t'), (w' =? w), (d' =? d),
      (existsb (fun w0 => w' =? w0) weeks),
      (existsb (fun j => t' =? t + j) offs); reflexivity.
Qed.

Lemma grid_wf_mark_weeks (weeks offs : list Z) (g : grid) (d t : Z) :
  grid_wf g -> grid_wf (mark_weeks g weeks d t offs).
Proof.
  unfold mark_weeks. revert g.
  induction weeks as [|w weeks IH]; intros g Hg; simpl; [exact Hg|].
  apply IH. now apply grid_wf_mark_slots.
Qed.

(** ** Reservations *)

Lemma reserve_week_true (offs : list Z) (g g' : grid) (w d t : Z) :
  reserve_week g w d t offs = (true, g') -> g' = mark_slots g w d t offs.
Proof.
  unfold mark_slots. revert g.
  induction offs as [|j offs IH]; intros g; simpl.
  - congruence.
  - destruct (cell g w d (t + j)); [discriminate|]. apply IH.
Qed.

Lemma reserve_weeks_true (weeks offs : list Z) (g g' : grid) (d t : Z) :
  reserve_weeks g weeks d t offs = (true, g') -> g' = mark_weeks g weeks d t offs.
Proof.
  unfold mark_weeks. revert g.
  induction weeks as [|w weeks IH]; intros g; simpl.
  - congruence.
  - destruct (reserve_week g w d t offs) as [[|] g1] eqn:E; [|discriminate].
    apply reserve_week_true in E. subst g1. apply IH.
Qed.

(** A booking pass that meets no occupied cell books every cell. *)
Lemma reserve_week_free (offs : list Z) (g : grid) (w d t : Z) :
  grid_wf g -> 0 <= w < MAX_WEEKS -> 0 <= d < MAX_DAYS ->
  Forall (fun j => 0 <= t + j < MAX_SLOTS) offs -> NoDup offs ->
  Forall (fun j => cell g w d (t + j) = false) offs ->
  reserve_week g w d t offs = (true, mark_slots g w d t offs).
Proof.
  intros Hg Hw Hd Hr Hnd. unfold mark_slots. revert g Hg.
  induction Hnd as [|j offs Hj Hnd IH]; intros g Hg Hfree; simpl; [reflexivity|].
  inversion Hr as [|? ? Hj' Hr']; subst.
  inversion Hfree as [|? ? Hc Hfree']; subst.
  rewrite Hc. apply IH; [exact Hr'|now apply grid_wf_book|].
  rewrite Forall_forall in Hfree'. apply Forall_forall. intros k Hk.
  rewrite cell_book_other; [now apply Hfree'|].
  intros E. injection E as Et.
  rewrite Forall_forall in Hr'. pose proof (Hr' k Hk).
  assert (k = j) by lia. subst k. contradiction.
Qed.

Lemma reserve_weeks_free (weeks offs : list Z) (g : grid) (d t : Z) :
  grid_wf g -> Forall (fun w => 0 <= w < MAX_WEEKS) weeks -> NoDup weeks ->
  0 <= d < MAX_DAYS ->
  Forall (fun j => 0 <= t + j < MAX_SLOTS) offs -> NoDup offs ->
  Forall (fun w => Forall (fun j => cell g w d (t + j) = false) offs) weeks ->
  reserve_weeks g weeks d t offs = (true, mark_weeks g weeks d t offs).
Proof.
  intros Hg Hws Hnd Hd Hr Hndo. unfold mark_weeks. revert g Hg.
  induction Hnd as [|w weeks Hw Hnd IH]; intros g Hg Hfree; simpl; [reflexivity|].
  inversion Hws as [|? ? Hw' Hws']; subst.
  inversion Hfree as [|? ? Hc Hfree']; subst.
  rewrite reserve_week_free by assumption.
  apply IH; [exact Hws'|now apply grid_wf_mark_slots|].
  rewrite Forall_forall in Hfree'. apply Forall_forall. intros w2 Hw2.
  specialize (Hfree' w2 Hw2). rewrite Forall_forall in Hfree'.
  apply Forall_forall. intros j Hj.
  rewrite cell_mark_slots_other_week; [now apply Hfree'|].
  rewrite Forall_forall in Hws'. pose proof (Hws' w2 Hw2).
  intros E. assert (w2 = w) by lia. subst w2. contradiction.
Qed.

Lemma hours_at_add_hours (a : list Q) (i j : Z) (h : Q) :
  0 <= i -> 0 <= j -> (Z.to_nat i < length a)%nat ->
  hours_at (add_hours a i h) j
  = if j =? i then (hours_at a i + h)%Q else hours_at a j.
Proof.
  intros Hi Hj Hl. unfold add_hours, hours_at at 1.
  destruct (j =? i) eqn:E.
  - apply Z.eqb_eq in E. subst j. now rewrite list_lookup_insert_eq.
  - apply Z.eqb_neq in E. rewrite list_lookup_insert_ne by lia. reflexivity.
Qed.

Lemma length_add_hours (a : list Q) (i : Z) (h : Q) :
  length (add_hours a i h) = length a.
Proof. unfold add_hours. apply length_insert. Qed.

Lemma seqZ_weeks : seqZ 0 MAX_WEEKS = [0; 1; 2; 3].
Proof. reflexivity. Qed.

Lemma reserve_slot_inv (s s' : MeetingScheduler) (day start_time : string)
    (duration_minutes : Z) :
  reserve_slot s day start_time duration_minutes = Some (true, s') ->
  let day_idx := find_day_index day in
  let start_idx := find_slot_index start_time in
  let duration_slots := Z.quot duration_minutes 30 in
  (0 <= day_idx < MAX_DAYS /\ 0 <= start_idx /\
   start_idx + duration_slots <= MAX_SLOTS /\ 1 <= duration_slots <= 3) /\
  reservation_count s < MAX_RESERVATIONS /\
  s' = {| schedule := schedule s;
          reservations :=
            reservations s ++
            [{| r_day := day; r_start_time := start_time;
                r_duration := duration_slots |}];
          total_hours :=
            add_hours (total_hours s) day_idx
              (inject_Z duration_slots * (1 # 2) * inject_Z MAX_WEEKS)%Q;
          meeting_hours := meeting_hours s;
          blocked_slots :=
            mark_weeks (blocked_slots s) (seqZ 0 MAX_WEEKS) day_idx start_idx
              (seqZ 0 duration_slots) |}.
Proof.
  intros H day_idx start_idx duration_slots. unfold reserve_slot in H.
  fold day_idx start_idx duration_slots in H.
  destruct ((day_idx =? -1) || (start_idx =? -1)
            || negb (Z.rem duration_minutes 30 =? 0)
            || (duration_minutes <? 30) || (duration_minutes >? 90)) eqn:Hv;
    [discriminate|].
  destruct (Qltb 17 (slot_to_hour start_idx + inject_Z duration_slots * (1 # 2))
            || is_break_slot start_time); [discriminate|].
  destruct (existsb _ (seqZ 0 duration_slots)) eqn:Hx; [discriminate|].
  destruct (reserve_weeks _ _ _ _ _) as [[|] g] eqn:Hr; [|discriminate].
  destruct (reservation_count s <? MAX_RESERVATIONS) eqn:Hc; [|discriminate].
  injection H as <-.
  apply reserve_weeks_true in Hr. subst g.
  repeat (apply orb_false_iff in Hv; destruct Hv as [Hv ?]).
  assert (day_idx <> -1) by lia. assert (start_idx <> -1) by lia.
  assert (Hdm : 30 <= duration_minutes <= 90) by lia.
  assert (Hrem : Z.rem duration_minutes 30 = 0)
    by (destruct (Z.rem duration_minutes 30 =? 0) eqn:E; [lia|discriminate]).
  assert (Hn : 1 <= duration_slots <= 3).
  { unfold duration_slots.
    pose proof (Z.quot_rem' duration_minutes 30). nia. }
  assert (Hd : 0 <= day_idx < MAX_DAYS)
    by (destruct (find_day_index_range day); [contradiction|assumption]).
  assert (Hs : 0 <= start_idx < MAX_SLOTS)
    by (destruct (find_slot_index_range start_time); [contradiction|assumption]).
  split; [|split; [apply Z.ltb_lt; exact Hc|reflexivity]].
  repeat split; try lia.
  destruct (Z_lt_le_dec MAX_SLOTS (start_idx + duration_slots)) as [Hover|]; [|lia].
  exfalso.
  assert (Hin : In (duration_slots - 1) (seqZ 0 duration_slots))
    by (apply list_elem_of_In, elem_of_seqZ; lia).
  assert (Ht : existsb
            (fun i => (start_idx + i >=? MAX_SLOTS)
                      || is_break_slot (str_at TIME_SLOTS (start_idx + i)))
            (seqZ 0 duration_slots) = true).
  { apply existsb_exists. exists (duration_slots - 1). split; [exact Hin|].
    apply orb_true_iff. left. lia. }
  simpl in Hx. congruence.
Qed.

(** An accepted reservation marks every covered slot in all four
    week-planes and no other cell, appends exactly one [Reservation] record,
    adds [duration_slots * 0.5 * 4] hours to the total hours of its day only,
    and leaves the meeting hours and the schedule as they are. *)
Lemma reserve_slot_effects (s s' : MeetingScheduler)
    (day start_time : string) (duration_minutes : Z)
    (Hwf : sched_wf s)
    (Hacc : reserve_slot s day start_time duration_minutes = Some (true, s')) :
  let day_idx := find_day_index day in
  let start_idx := find_slot_index start_time in
  let duration_slots := Z.quot duration_minutes 30 in
  (0 <= day_idx < MAX_DAYS /\ 0 <= start_idx /\
   start_idx + duration_slots <= MAX_SLOTS /\ 1 <= duration_slots <= 3) /\
  (forall week i, 0 <= week < MAX_WEEKS -> 0 <= i < duration_slots ->
     cell (blocked_slots s') week day_idx (start_idx + i) = true) /\
  (forall week d t, 0 <= week -> 0 <= d -> 0 <= t ->
     cell (blocked_slots s') week d t = true ->
     cell (blocked_slots s) week d t = true \/
     (week < MAX_WEEKS /\ d = day_idx /\
      start_idx <= t < start_idx + duration_slots)) /\
  reservations s' =
    reservations s ++
    [{| r_day := day; r_start_time := start_time; r_duration := duration_slots |}] /\
  hours_at (total_hours s') day_idx
  = (hours_at (total_hours s) day_idx
     + inject_Z duration_slots * (1 # 2) * inject_Z MAX_WEEKS)%Q /\
  (forall d, 0 <= d -> d <> day_idx ->
     hours_at (total_hours s') d = hours_at (total_hours s) d) /\
  meeting_hours s' = meeting_hours s /\
  schedule s' = schedule s.
Proof.
  intros day_idx start_idx duration_slots.
  destruct (reserve_slot_inv _ _ _ _ _ Hacc) as [Hr [_ ->]].
  fold day_idx start_idx duration_slots in Hr |- *.
  destruct Hr as (Hd & Hs & He & Hn).
  destruct Hwf as (Hg & Hth & Hmh).
  cbn [blocked_slots reservations total_hours meeting_hours schedule].
  assert (Hweeks : Forall (fun w => 0 <= w < MAX_WEEKS) (seqZ 0 MAX_WEEKS))
    by (apply Forall_seqZ; intros; lia).
  assert (Hoffs : Forall (fun j => 0 <= start_idx + j < MAX_SLOTS)
                    (seqZ 0 duration_slots))
    by (apply Forall_seqZ; intros; lia).
  split; [repeat split; lia|].
  split; [|split; [|split; [reflexivity|split; [|split; [|split; reflexivity]]]]].
  - intros week i Hw Hi.
    rewrite cell_mark_weeks by (try assumption; try lia; now split).
    apply orb_true_iff. right.
    rewrite Z.eqb_refl, andb_true_r. apply andb_true_iff. split.
    + apply existsb_exists. exists week. split; [|lia].
      apply list_elem_of_In, elem_of_seqZ. lia.
    + apply existsb_exists. exists i. split; [|lia].
      apply list_elem_of_In, elem_of_seqZ. lia.
  - intros week d t Hw Hd' Ht.
    rewrite cell_mark_weeks by (try assumption; now split).
    intros H. apply orb_true_iff in H. destruct H as [H|H]; [now left|right].
    apply andb_true_iff in H. destruct H as [H Ht'].
    apply andb_true_iff in H. destruct H as [Hw' Hd''].
    apply existsb_exists in Hw'. destruct Hw' as (w & Hin & Ew).
    apply existsb_exists in Ht'. destruct Ht' as (j & Hjn & Ej).
    apply list_elem_of_In, elem_of_seqZ in Hin, Hjn. lia.
  - rewrite hours_at_add_hours by lia. now rewrite Z.eqb_refl.
  - intros d Hd' Hne. rewrite hours_at_add_hours by lia.
    destruct (d =? day_idx) eqn:E; [lia|reflexivity].
Qed.

Lemma sched_wf_init : sched_wf init_scheduler.
Proof.
  unfold sched_wf, grid_wf. simpl. repeat split.
  repeat constructor.
Qed.

(** C4, as the code has it.  On the empty scheduler, reserving Tuesday 14:00
    for 60 minutes is accepted and occupies the slots 8 and 9 of Tuesday (the
    labels 14:00 and 14:30: the break labels have no index) in each of the
    four weeks; reserving Tuesday 14:00 for 30 minutes afterwards is refused
    and leaves the whole state, the grid included, as it was. *)
Theorem C4_reserve_scenario :
  find_day_index "Tuesday" = 1 /\ find_slot_index "14:00" = 8 /\
  exists s1,
    reserve_slot init_scheduler "Tuesday" "14:00" 60 = Some (true, s1) /\
    Forall (fun w => cell (blocked_slots s1) w 1 8 = true /\
                     cell (blocked_slots s1) w 1 9 = true)
           (seqZ 0 MAX_WEEKS) /\
    reserve_slot s1 "Tuesday" "14:00" 30 = Some (false, s1).
Proof.
  split; [reflexivity|]. split; [reflexivity|].
  eexists. split; [reflexivity|]. split; [|reflexivity].
  rewrite seqZ_weeks. repeat constructor.
Qed.

(** C4 as stated fails: after the accepted reservation of Tuesday 14:00 for
    60 minutes the slots 10 and 11 of Tuesday (15:00 and 15:30) are free in
    every week. *)
Lemma C4_slots_10_11_stay_free :
  exists s1,
    reserve_slot init_scheduler "Tuesday" "14:00" 60 = Some (true, s1) /\
    Forall (fun w => cell (blocked_slots s1) w 1 10 = false /\
                     cell (blocked_slots s1) w 1 11 = false)
           (seqZ 0 MAX_WEEKS) /\
    ~ (forall w, 0 <= w < MAX_WEEKS ->
         cell (blocked_slots s1) w 1 10 = true /\
         cell (blocked_slots s1) w 1 11 = true).
Proof.
  eexists. split; [reflexivity|]. split.
  - rewrite seqZ_weeks. repeat constructor.
  - intros H. destruct (H 0 ltac:(unfold MAX_WEEKS; lia)) as [H0 _].
    discriminate H0.
Qed.

(** C1, evaluated on the code.  The booking pass of [reserve_slot] tests and
    books cell by cell, so a conflict met late leaves the cells booked before
    it.  (a) After a reservation of Tuesday 14:30, reserving Tuesday 14:00 for
    60 minutes is refused at slot 9 of week 0, but slot 8 of week 0 has
    been booked.  (b) With one monthly occurrence in week 2 only, on Monday
    09:00, reserving Monday 09:00 is refused in week 2, but the slot
    has been booked in the weeks 0 and 1.  The reservation list and the
    hours are unchanged in both cases. *)
Theorem C1_conflict_leaves_bookings :
  (exists s1 s2,
     reserve_slot init_scheduler "Tuesday" "14:30" 30 = Some (true, s1) /\
     cell (blocked_slots s1) 0 1 9 = true /\
     reserve_slot s1 "Tuesday" "14:00" 60 = Some (false, s2) /\
     cell (blocked_slots s1) 0 1 8 = false /\
     cell (blocked_slots s2) 0 1 8 = true /\
     reservations s2 = reservations s1 /\ total_hours s2 = total_hours s1) /\
  (exists s1 s2,
     add_meeting init_scheduler
       {| m_name := "Review"; m_type := "Team"; m_duration := 1;
          m_preferred_hours := replicate 8 (-1);
          m_fixed_day := "Monday"; m_fixed_time := "09:00";
          m_frequency := "monthly" |}
       (fun k => match k with 0%nat => 3%nat | 1%nat => 0%nat | _ => 1%nat end)
     = Some (true, s1) /\
     map e_week (schedule s1) = [2] /\
     cell (blocked_slots s1) 2 0 0 = true /\
     reserve_slot s1 "Monday" "09:00" 30 = Some (false, s2) /\
     map (fun w => cell (blocked_slots s1) w 0 0) [0; 1; 2; 3]
       = [false; false; true; false] /\
     map (fun w => cell (blocked_slots s2) w 0 0) [0; 1; 2; 3]
       = [true; true; true; false] /\
     reservations s2 = reservations s1 /\ total_hours s2 = total_hours s1).
Proof.
  split.
  - eexists. eexists. split; [reflexivity|]. split; [reflexivity|].
    split; [reflexivity|]. repeat split.
  - eexists. eexists. split; [vm_compute; reflexivity|]. split; [reflexivity|].
    split; [reflexivity|]. split; [reflexivity|]. repeat split.
Qed.

(** ** The order of the days and of the weeks *)

Lemma bubble_step_0 (th : list Q) (a b c d : Z) :
  bubble_step th [a; b; c; d] 0
  = if Qltb (hours_at th b) (hours_at th a) then [b; a; c; d] else [a; b; c; d].
Proof. reflexivity. Qed.

Lemma bubble_step_1 (th : list Q) (a b c d : Z) :
  bubble_step th [a; b; c; d] 1
  = if Qltb (hours_at th c) (hours_at th b) then [a; c; b; d] else [a; b; c; d].
Proof. reflexivity. Qed.

Lemma bubble_step_2 (th : list Q) (a b c d : Z) :
  bubble_step th [a; b; c; d] 2
  = if Qltb (hours_at th d) (hours_at th c) then [a; b; d; c] else [a; b; c; d].
Proof. reflexivity. Qed.

Lemma sort_days_unfold (th : list Q) :
  sort_days th
  = bubble_step th
      (bubble_step th
         (bubble_step th
            (bubble_step th
               (bubble_step th (bubble_step th [0; 1; 2; 3] 0) 1) 2) 0) 1) 0.
Proof. reflexivity. Qed.

Lemma sort_days_sorted (th : list Q) : stable_sorted th (sort_days th).
Proof.
  rewrite sort_days_unfold. unfold stable_sorted.
  repeat
    (rewrite ?bubble_step_0, ?bubble_step_1, ?bubble_step_2;
     match goal with
     | |- context [if Qltb ?x ?y then _ else _] =>
         let E := fresh "E" in
         destruct (Qltb x y) eqn:E;
         [apply Qltb_lt in E | apply Qltb_ge in E]
     end);
    (do 4 eexists; split; [reflexivity|]; split;
     [ apply (bool_decide_unpack _); vm_compute; reflexivity
     | repeat constructor; cbn [fst snd]; try lia; try lra ]).
Qed.

Lemma rem_cases (r : nat) (n : Z) :
  0 < n -> 0 <= Z.rem (Z.of_nat r) n < n.
Proof. intros Hn. apply Z.rem_bound_pos; lia. Qed.

Lemma shuffle_weeks (rand : nat -> nat) :
  week_order (shuffle (seqZ 0 MAX_WEEKS) (reverse (seqZ 1 (MAX_WEEKS - 1))) rand 0).
Proof.
  change (seqZ 0 MAX_WEEKS) with [0; 1; 2; 3].
  change (reverse (seqZ 1 (MAX_WEEKS - 1))) with [3; 2; 1].
  cbn [shuffle].
  change (3 + 1) with 4. change (2 + 1) with 3. change (1 + 1) with 2.
  pose proof (rem_cases (rand 0%nat) 4 ltac:(lia)) as H3.
  pose proof (rem_cases (rand 1%nat) 3 ltac:(lia)) as H2.
  pose proof (rem_cases (rand 2%nat) 2 ltac:(lia)) as H1.
  generalize dependent (Z.rem (Z.of_nat (rand 0%nat)) 4). intros j3 H3.
  generalize dependent (Z.rem (Z.of_nat (rand 1%nat)) 3). intros j2 H2.
  generalize dependent (Z.rem (Z.of_nat (rand 2%nat)) 2). intros j1 H1.
  assert (C3 : j3 = 0 \/ j3 = 1 \/ j3 = 2 \/ j3 = 3) by lia.
  assert (C2 : j2 = 0 \/ j2 = 1 \/ j2 = 2) by lia.
  assert (C1 : j1 = 0 \/ j1 = 1) by lia.
  unfold week_order.
  destruct C3 as [->|[->|[->| ->]]]; destruct C2 as [->|[->| ->]];
    destruct C1 as [->| ->];
    apply (bool_decide_unpack _); vm_compute; reflexivity.
Qed.

Lemma week_order_facts (weeks : list Z) :
  week_order weeks ->
  length weeks = 4%nat /\ NoDup weeks /\ Forall (fun w => 0 <= w < MAX_WEEKS) weeks.
Proof.
  unfold week_order. intros H. split; [|split].
  - now rewrite H.
  - rewrite H. apply (bool_decide_unpack _). vm_compute. reflexivity.
  - rewrite H. unfold MAX_WEEKS. repeat constructor; lia.
Qed.

(** ** The loops of the search against the lists of days and times *)

Lemma flag_at_unassigned (n : nat) (w : Z) : flag_at (replicate n false) w = false.
Proof.
  unfold flag_at. destruct (replicate n false !! Z.to_nat w) as [b|] eqn:E; [|reflexivity].
  apply lookup_replicate in E. destruct E as [-> _]. reflexivity.
Qed.

Lemma occurrences_of_cases (m : Meeting) :
  (m_frequency m = "weekly" /\ occurrences_of m = 4) \/
  (m_frequency m = "fortnightly" /\ occurrences_of m = 2) \/
  (m_frequency m <> "weekly" /\ m_frequency m <> "fortnightly" /\ occurrences_of m = 1).
Proof.
  unfold occurrences_of.
  destruct (String.eqb (m_frequency m) "weekly") eqn:E1.
  - apply String.eqb_eq in E1. now left.
  - destruct (String.eqb (m_frequency m) "fortnightly") eqn:E2.
    + apply String.eqb_eq in E2. right. now left.
    + apply String.eqb_neq in E1, E2. right. right.
      destruct (String.eqb (m_frequency m) "third_week"); auto.
Qed.

Lemma occurrences_of_pos (m : Meeting) : 1 <= occurrences_of m <= 4.
Proof. destruct (occurrences_of_cases m) as [[_ ->]|[[_ ->]|(_ & _ & ->)]]; lia. Qed.

Lemma fortnightly_occurrences (m : Meeting) :
  String.eqb (m_frequency m) "fortnightly" = true -> occurrences_of m = 2.
Proof.
  intros E. unfold occurrences_of. rewrite E.
  apply String.eqb_eq in E. rewrite E. reflexivity.
Qed.

Lemma flat_map_of_map {A B C : Type} (f : B -> list C) (g : A -> B) (l : list A) :
  flat_map f (map g l) = flat_map (fun x => f (g x)) l.
Proof. induction l as [|x l IH]; simpl; [reflexivity|]. now rewrite IH. Qed.

Lemma preferred_end_spec (ph : list Z) (fuel k : nat) :
  (k + fuel = 8)%nat ->
  let e := preferred_end ph fuel (Z.of_nat k) in
  Z.of_nat k <= e <= 8 /\
  map (int_at ph) (seqZ (Z.of_nat k) (e - Z.of_nat k))
  = leading_nonneg (take fuel (drop k ph)).
Proof.
  revert k. induction fuel as [|fuel IH]; intros k Hk; cbn [preferred_end].
  - cbv zeta. rewrite Z.sub_diag. split; [lia|]. reflexivity.
  - cbv zeta.
    assert (Hat : int_at ph (Z.of_nat k) = default (-1) (ph !! k))
      by (unfold int_at; now rewrite Nat2Z.id).
    rewrite Hat.
    destruct (ph !! k) as [x|] eqn:Ex; cbn [from_option id].
    + rewrite (drop_S _ _ _ Ex). cbn [take leading_nonneg].
      destruct (x >=? 0) eqn:Ege; cbn [andb].
      * assert (Hk8 : (Z.of_nat k <? 8) = true) by lia. rewrite Hk8.
        specialize (IH (S k) ltac:(lia)). cbv zeta in IH.
        replace (Z.of_nat (S k)) with (Z.of_nat k + 1) in IH by lia.
        destruct IH as [Hr Hm]. split; [lia|].
        rewrite seqZ_cons by lia. cbn [map].
        replace (Z.succ (Z.of_nat k)) with (Z.of_nat k + 1) by lia.
        replace (Z.pred (preferred_end ph fuel (Z.of_nat k + 1) - Z.of_nat k))
          with (preferred_end ph fuel (Z.of_nat k + 1) - (Z.of_nat k + 1)) by lia.
        rewrite Hm. f_equal. unfold int_at. rewrite Nat2Z.id, Ex. reflexivity.
      * rewrite Z.sub_diag. split; [lia|]. reflexivity.
    + change (-1 >=? 0) with false. cbn [andb]. rewrite Z.sub_diag.
      split; [lia|].
      rewrite drop_ge by (apply lookup_ge_None; exact Ex). reflexivity.
Qed.

Lemma fixed_time_idx_range (m : Meeting) :
  fixed_time_idx_of m = -1 \/ 0 <= fixed_time_idx_of m < MAX_SLOTS.
Proof.
  unfold fixed_time_idx_of. destruct (m_fixed_time m); [now left|].
  apply find_slot_index_range.
Qed.

Lemma fixed_day_idx_range (m : Meeting) :
  fixed_day_idx_of m = -1 \/ 0 <= fixed_day_idx_of m < MAX_DAYS.
Proof.
  unfold fixed_day_idx_of. destruct (m_fixed_day m); [now left|].
  apply find_day_index_range.
Qed.

(** The times met by the loop over [t] are those of [time_list]. *)
Lemma time_loop_list (m : Meeting) :
  let fixed_time_idx := fixed_time_idx_of m in
  let time_start := if fixed_time_idx >=? 0 then fixed_time_idx else 0 in
  let time_end := if fixed_time_idx >=? 0 then fixed_time_idx + 1 else MAX_SLOTS in
  let time_end :=
    if (int_at (m_preferred_hours m) 0 >=? 0) && (fixed_time_idx <? 0)
    then preferred_end (m_preferred_hours m) 8 0
    else time_end in
  map (time_idx_of m) (seqZ time_start (Z.min time_end MAX_SLOTS - time_start))
  = time_list m.
Proof.
  cbv zeta. unfold time_list, time_idx_of.
  destruct (fixed_time_idx_range m) as [Hf|Hf].
  - rewrite Hf. change (-1 >=? 0) with false. change (-1 <? 0) with true.
    rewrite andb_true_r.
    destruct (int_at (m_preferred_hours m) 0 >=? 0) eqn:Ep.
    + destruct (preferred_end_spec (m_preferred_hours m) 8 0 eq_refl) as [Hr Hm].
      change (Z.of_nat 0) with 0 in Hr, Hm. rewrite drop_0 in Hm.
      rewrite Z.min_l by (unfold MAX_SLOTS; lia). exact Hm.
    + rewrite Z.min_id, Z.sub_0_r. apply map_id.
  - assert (Hge : (fixed_time_idx_of m >=? 0) = true) by lia.
    assert (Hlt : (fixed_time_idx_of m <? 0) = false) by lia.
    rewrite Hge, Hlt, andb_false_r.
    rewrite Z.min_l by lia.
    replace (fixed_time_idx_of m + 1 - fixed_time_idx_of m) with 1 by lia.
    reflexivity.
Qed.

(** The days met by the loop over [d] are those of [day_list]. *)
Lemma day_loop_list (s : MeetingScheduler) (m : Meeting) :
  let fixed_day_idx := fixed_day_idx_of m in
  let day_start := if fixed_day_idx >=? 0 then fixed_day_idx else 0 in
  let day_end := if fixed_day_idx >=? 0 then fixed_day_idx + 1 else MAX_DAYS in
  map (day_idx_of m (sort_days (total_hours s))) (seqZ day_start (day_end - day_start))
  = day_list s m.
Proof.
  cbv zeta. unfold day_list, day_idx_of.
  destruct (fixed_day_idx_of m >=? 0) eqn:Ef.
  - replace (fixed_day_idx_of m + 1 - fixed_day_idx_of m) with 1 by lia.
    reflexivity.
  - destruct (sort_days_sorted (total_hours s)) as (a & b & c & d & -> & _).
    reflexivity.
Qed.

(** ** The search: candidates and selection *)

Section Selection.

Context (s : MeetingScheduler) (m : Meeting).

Lemma selects_step (cs : list cand)
    (b : best) (c : cand) (mh : Q) :
  (mh == metric s m (cand_day c))%Q ->
  selects s m cs b ->
  selects s m (cs ++ [c])
    (if Qltb mh (min_hours b)
     then {| min_hours := mh; chosen_day := cand_day c; chosen_time := cand_time c |}
     else b).
Proof.
  intros Hmh [(Hd & Ht & Hm & Hall)|(pre & c0 & post & -> & Hd & Ht & Hm & Hlt & Hpre & Hpost)].
  - destruct (Qltb mh (min_hours b)) eqn:E.
    + apply Qltb_lt in E. right. exists cs, c, []. cbn [chosen_day chosen_time min_hours].
      repeat split; try reflexivity; try assumption; [lra| |constructor].
      eapply Forall_impl; [exact Hall|]. cbn beta. intros c' Hc'. lra.
    + apply Qltb_ge in E. left. repeat split; try assumption.
      apply Forall_app. split; [exact Hall|]. constructor; [lra|constructor].
  - destruct (Qltb mh (min_hours b)) eqn:E.
    + apply Qltb_lt in E. right. exists (pre ++ c0 :: post), c, [].
      cbn [chosen_day chosen_time min_hours].
      repeat split; try reflexivity; try assumption; [lra| |constructor].
      apply Forall_app. split; [|constructor; [lra|]].
      * eapply Forall_impl; [exact Hpre|]. cbn beta. intros c' Hc'. lra.
      * eapply Forall_impl; [exact Hpost|]. cbn beta. intros c' Hc'. lra.
    + apply Qltb_ge in E. right. exists pre, c0, (post ++ [c]).
      repeat split; try assumption.
      * now rewrite <- app_assoc.
      * apply Forall_app. split; [exact Hpost|]. constructor; [lra|constructor].
Qed.

Lemma fold_selects {A : Type}
    (f : best -> A -> best) (g : A -> list cand) (xs : list A) :
  (forall cs b x, selects s m cs b -> selects s m (cs ++ g x) (f b x)) ->
  forall cs b, selects s m cs b ->
               selects s m (cs ++ flat_map g xs) (fold_left f xs b).
Proof.
  intros Hstep. induction xs as [|x xs IH]; intros cs b H; simpl.
  - now rewrite app_nil_r.
  - rewrite app_assoc. apply IH. now apply Hstep.
Qed.

(** The counting loop, with its early exit, against the plain count. *)
Lemma count_weeks_spec (n : nat)
    (day_idx time_idx occ : Z) (ws : list Z) :
  forall (v : Z) (a : Q),
    v < occ ->
    (a == inject_Z v * score s m day_idx)%Q ->
    let r := count_weeks s (replicate n false) day_idx time_idx (m_duration m)
               occ ws v a in
    (snd r == inject_Z (fst r) * score s m day_idx)%Q /\
    v <= fst r /\
    (fst r >=? occ)
    = (occ <=? v + Z.of_nat (length (List.filter
                 (fun w => is_valid_slot s w day_idx time_idx (m_duration m)) ws))).
Proof.
  induction ws as [|w ws IH]; intros v a Hv Ha; cbn [count_weeks List.filter].
  - cbn [fst snd length]. split; [exact Ha|]. split; [lia|].
    rewrite Z.add_0_r. destruct (v >=? occ) eqn:E1, (occ <=? v) eqn:E2; lia.
  - rewrite flag_at_unassigned.
    destruct (is_valid_slot s w day_idx time_idx (m_duration m)) eqn:Ev.
    + cbn [length]. destruct (v + 1 >=? occ) eqn:Eo.
      * cbn [fst snd]. split; [|split; [lia|]].
        -- rewrite Ha. unfold score. rewrite inject_Z_plus. ring.
        -- rewrite Eo. symmetry. apply Z.leb_le. lia.
      * assert (Hv1 : v + 1 < occ) by lia.
        assert (Ha1 : (a + (hours_at (total_hours s) day_idx
                            + inject_Z (m_duration m) * (1 # 2))
                       == inject_Z (v + 1) * score s m day_idx)%Q).
        { rewrite Ha. unfold score. rewrite inject_Z_plus. ring. }
        destruct (IH (v + 1) _ Hv1 Ha1) as (H1 & H2 & H3).
        split; [exact H1|]. split; [lia|]. rewrite H3. f_equal. lia.
    + destruct (v >=? occ) eqn:Eo; [lia|].
      destruct (IH v a Hv Ha) as (H1 & H2 & H3).
      split; [exact H1|]. split; [lia|]. exact H3.
Qed.

Lemma try_time_step (n : nat)
    (p day_idx : Z) (cs : list cand) (b : best) (t : Z) :
  selects s m cs b ->
  selects s m (cs ++ cands_time s m p day_idx (time_idx_of m t))
    (try_time s m (replicate n false) p day_idx b t).
Proof.
  intros Hsel. unfold try_time, cands_time. fold (time_idx_of m t).
  set (time_idx := time_idx_of m t).
  destruct ((time_idx <? 0) || (time_idx >=? MAX_SLOTS)) eqn:Er;
    cbn [negb andb]; [now rewrite app_nil_r|].
  unfold qualifies, is_fortnightly, metric.
  destruct (String.eqb (m_frequency m) "fortnightly") eqn:Ef.
  - rewrite (fortnightly_occurrences m Ef). fold (pair_valid s m p day_idx time_idx).
    destruct (pair_valid s m p day_idx time_idx) eqn:Ep.
    + change (2 >=? 2) with true. cbn [andb].
      apply (selects_step cs b (p, day_idx, time_idx)); [|exact Hsel].
      unfold metric, is_fortnightly. rewrite Ef. reflexivity.
    + change (0 >=? 2) with false. cbn [andb]. now rewrite app_nil_r.
  - pose proof (occurrences_of_pos m) as Hocc.
    assert (H0 : (0 == inject_Z 0 * score s m day_idx)%Q) by (cbn; ring).
    pose proof (count_weeks_spec n day_idx time_idx (occurrences_of m)
                  (seqZ 0 MAX_WEEKS) 0 0%Q ltac:(lia) H0) as Hc.
    cbv zeta in Hc.
    destruct (count_weeks s (replicate n false) day_idx time_idx (m_duration m)
                (occurrences_of m) (seqZ 0 MAX_WEEKS) 0 0%Q) as [vw avg].
    cbn [fst snd] in Hc. destruct Hc as (Havg & Hvw & Hge).
    rewrite Z.add_0_l in Hge. fold (count_valid s m day_idx time_idx) in Hge.
    rewrite Hge.
    destruct (occurrences_of m <=? count_valid s m day_idx time_idx) eqn:Eq;
      cbn [andb]; [|now rewrite app_nil_r].
    apply (selects_step cs b (p, day_idx, time_idx)); [|exact Hsel].
    unfold metric, is_fortnightly. rewrite Ef. cbn [cand_day fst snd].
    assert (Hpos : 1 <= vw) by lia.
    rewrite Havg. field. intros Hz.
    unfold Qeq in Hz. cbn [Qnum Qden inject_Z] in Hz. lia.
Qed.

Lemma try_day_step (n : nat)
    (day_order : list Z) (p : Z) (cs : list cand) (b : best) (d : Z) :
  selects s m cs b ->
  selects s m (cs ++ cands_day s m p (day_idx_of m day_order d))
    (try_day s m (replicate n false) day_order p b d).
Proof.
  intros Hsel. unfold try_day, cands_day. fold (day_idx_of m day_order d).
  set (day_idx := day_idx_of m day_order d).
  fold (overloaded s day_idx).
  destruct (overloaded s day_idx); [now rewrite app_nil_r|].
  rewrite <- time_loop_list. cbv zeta. rewrite flat_map_of_map.
  apply fold_selects; [|exact Hsel].
  intros cs' b' t H. now apply try_time_step.
Qed.

Lemma try_pair_step (n : nat)
    (cs : list cand) (b : best) (p : Z) :
  selects s m cs b ->
  selects s m (cs ++ cands_pair s m p)
    (try_pair s m (replicate n false) (sort_days (total_hours s)) b p).
Proof.
  intros Hsel. unfold try_pair, cands_pair.
  rewrite <- day_loop_list. cbv zeta. rewrite flat_map_of_map.
  apply fold_selects; [|exact Hsel].
  intros cs' b' d H. now apply try_day_step.
Qed.

(** The search holds the first candidate of least metric. *)
Lemma search_selects :
  selects s m (candidates s m) (search s m).
Proof.
  unfold search, candidates.
  refine (fold_selects _ (cands_pair s m) (seqZ 0 (max_pairs_of m)) _ [] _ _).
  - intros cs b p H. now apply try_pair_step.
  - left. cbn. repeat split. constructor.
Qed.

End Selection.

(** ** The commit phase *)

Lemma forallb_ext' {A : Type} (f g : A -> bool) (l : list A) :
  (forall x, f x = g x) -> forallb f l = forallb g l.
Proof. intros H. induction l as [|x l IH]; simpl; [reflexivity|]. now rewrite H, IH. Qed.

(** [is_valid_slot] reads the grid in the row of its week and day only. *)
Lemma is_valid_slot_ext (s s' : MeetingScheduler) (w d t dur : Z) :
  (forall t', cell (blocked_slots s) w d t' = cell (blocked_slots s') w d t') ->
  is_valid_slot s w d t dur = is_valid_slot s' w d t dur.
Proof.
  intros H. unfold is_valid_slot.
  destruct ((t <? 0) || (t >=? MAX_SLOTS) || is_break_slot (str_at TIME_SLOTS t));
    [reflexivity|].
  destruct (Qltb 17 (slot_to_hour t + inject_Z dur * (1 # 2))); [reflexivity|].
  apply forallb_ext'. intros i. cbv zeta. now rewrite H.
Qed.

Lemma commit_entry_inv (s s' : MeetingScheduler) (m : Meeting) (week d t : Z) :
  commit_entry s m week d t = Some s' ->
  schedule s' = schedule s ++ [entry_of m week d t] /\
  reservations s' = reservations s /\
  total_hours s' = add_hours (total_hours s) d (inject_Z (m_duration m) * (1 # 2)) /\
  meeting_hours s' = add_hours (meeting_hours s) d (inject_Z (m_duration m) * (1 # 2)) /\
  blocked_slots s' = mark_slots (blocked_slots s) week d t (seqZ 0 (m_duration m)).
Proof.
  unfold commit_entry.
  destruct (schedule_count s <? MAX_MEETINGS * MAX_WEEKS); [|discriminate].
  intros H. injection H as <-. repeat split.
Qed.

(** Committing an occurrence in one week leaves the validity of the slots of
    the other weeks as it is. *)
Lemma is_valid_slot_commit_other (s s' : MeetingScheduler) (m : Meeting)
    (week d t w d' t' dur : Z) :
  commit_entry s m week d t = Some s' ->
  Z.to_nat w <> Z.to_nat week ->
  is_valid_slot s' w d' t' dur = is_valid_slot s w d' t' dur.
Proof.
  intros Hc Hne. apply commit_entry_inv in Hc.
  destruct Hc as (_ & _ & _ & _ & Hg).
  apply is_valid_slot_ext. intros t''. rewrite Hg.
  now apply cell_mark_slots_other_week.
Qed.

Lemma scan_weeks_find (s : MeetingScheduler) (asg : list bool) (weeks : list Z)
    (d t dur : Z) (ws : list Z) (week0 : Z) :
  let r := scan_weeks s asg weeks d t dur ws week0 in
  List.find (avail s asg d t dur) (map (int_at weeks) ws)
  = if fst r then Some (snd r) else None.
Proof.
  revert week0. induction ws as [|w ws IH]; intros week0; cbn [scan_weeks map List.find].
  - reflexivity.
  - cbv zeta. unfold avail at 1.
    destruct (flag_at asg (int_at weeks w)); cbn [negb andb]; [apply IH|].
    destruct (is_valid_slot s (int_at weeks w) d t dur); [reflexivity|apply IH].
Qed.

Lemma find_head_filter {A : Type} (f : A -> bool) (l : list A) :
  List.find f l = head (List.filter f l).
Proof.
  induction l as [|x l IH]; simpl; [reflexivity|].
  destruct (f x); [reflexivity|exact IH].
Qed.

Lemma filter_without_head (f : Z -> bool) (w : Z) (l : list Z) :
  NoDup l -> head (List.filter f l) = Some w ->
  List.filter (fun x => f x && negb (x =? w)) l = tail (List.filter f l).
Proof.
  intros Hnd. induction Hnd as [|x l Hx Hnd IH]; simpl; [discriminate|].
  destruct (f x) eqn:Ef; cbn [andb].
  - simpl. intros E. injection E as ->. rewrite Z.eqb_refl. cbn [negb].
    apply filter_ext_in. intros y Hy.
    destruct (y =? w) eqn:Eq; [|now rewrite andb_true_r].
    apply Z.eqb_eq in Eq. subst y. exfalso. apply Hx.
    now apply list_elem_of_In.
  - exact IH.
Qed.

Lemma filter_length_perm {A : Type} (f : A -> bool) (l l' : list A) :
  l ≡ₚ l' -> length (List.filter f l) = length (List.filter f l').
Proof.
  induction 1 as [|x l l' _ IH|x y l|l l' l'' _ IH1 _ IH2]; simpl.
  - reflexivity.
  - destruct (f x); simpl; now rewrite IH.
  - destruct (f x), (f y); reflexivity.
  - now rewrite IH1.
Qed.

Lemma weeks_by_index (weeks : list Z) :
  length weeks = 4%nat -> map (int_at weeks) (seqZ 0 MAX_WEEKS) = weeks.
Proof.
  intros H.
  destruct weeks as [|a [|b [|c [|d [|e l]]]]]; try discriminate. reflexivity.
Qed.

Lemma flag_at_insert (asg : list bool) (w x : Z) :
  0 <= w -> 0 <= x -> (Z.to_nat w < length asg)%nat ->
  flag_at (<[Z.to_nat w := true]> asg) x
  = if x =? w then true else flag_at asg x.
Proof.
  intros Hw Hx Hl. unfold flag_at.
  destruct (x =? w) eqn:E.
  - apply Z.eqb_eq in E. subst x. now rewrite list_lookup_insert_eq.
  - apply Z.eqb_neq in E. rewrite list_lookup_insert_ne by lia. reflexivity.
Qed.

Section CommitLoop.

Context (m : Meeting) (weeks : list Z) (d t : Z).

Hypothesis weeks_length : length weeks = 4%nat.
Hypothesis weeks_nodup : NoDup weeks.
Hypothesis weeks_range : Forall (fun w => 0 <= w < MAX_WEEKS) weeks.

(** The scan for a week finds the first week that the loop can take. *)
Lemma scan_weeks_head (s : MeetingScheduler) (asg : list bool) :
  let r := scan_weeks s asg weeks d t (m_duration m) (seqZ 0 MAX_WEEKS) (-1) in
  head (List.filter (avail s asg d t (m_duration m)) weeks)
  = if fst r then Some (snd r) else None.
Proof using weeks_length.
  pose proof (scan_weeks_find s asg weeks d t (m_duration m)
                (seqZ 0 MAX_WEEKS) (-1)) as H.
  cbv zeta in H |- *.
  now rewrite (weeks_by_index weeks weeks_length), find_head_filter in H.
Qed.

Lemma in_weeks_range (w : Z) : In w weeks -> 0 <= w < MAX_WEEKS.
Proof using weeks_range.
  intros H. rewrite Forall_forall in weeks_range.
  apply weeks_range. now apply list_elem_of_In.
Qed.

(** Once the first of them is committed, the weeks that the loop can take
    are the others, in the same order. *)
Lemma avail_after_commit (s s1 : MeetingScheduler) (asg : list bool) (week : Z) :
  length asg = 4%nat ->
  head (List.filter (avail s asg d t (m_duration m)) weeks) = Some week ->
  commit_entry s m week d t = Some s1 ->
  List.filter (avail s1 (<[Z.to_nat week := true]> asg) d t (m_duration m)) weeks
  = tail (List.filter (avail s asg d t (m_duration m)) weeks).
Proof using weeks_length weeks_nodup weeks_range.
  intros Hasg Hhead Hc.
  assert (Hw : 0 <= week < MAX_WEEKS).
  { apply in_weeks_range.
    destruct (List.filter (avail s asg d t (m_duration m)) weeks) as [|x u] eqn:Eu;
      [discriminate|].
    injection Hhead as ->.
    assert (H : In week (List.filter (avail s asg d t (m_duration m)) weeks))
      by (rewrite Eu; now left).
    apply filter_In in H. tauto. }
  rewrite <- (filter_without_head _ week weeks weeks_nodup Hhead).
  apply filter_ext_in. intros x Hx. apply in_weeks_range in Hx.
  unfold MAX_WEEKS in Hw, Hx.
  unfold avail. rewrite flag_at_insert by lia.
  destruct (x =? week) eqn:E.
  - cbn [negb andb]. now rewrite andb_false_r.
  - apply Z.eqb_neq in E.
    rewrite (is_valid_slot_commit_other s s1 m week d t x d t (m_duration m) Hc)
      by lia.
    cbn [negb]. now rewrite andb_true_r.
Qed.

(** The commit loop of a request that is not fortnightly: with [u] the weeks
    it can take, in the order of [weeks], it succeeds when [u] has a week for
    each occurrence and then commits the first ones of [u]; otherwise it
    fails, and the whole of [u] stays committed. *)
Lemma commit_occurrences_spec (occs : list Z) :
  forall (s : MeetingScheduler) (asg : list bool) (r : bool * MeetingScheduler),
    length asg = 4%nat ->
    commit_occurrences s m asg weeks d t occs = Some r ->
    let u := List.filter (avail s asg d t (m_duration m)) weeks in
    if fst r
    then (length occs <= length u)%nat /\
         schedule (snd r)
         = schedule s ++ map (fun w => entry_of m w d t) (take (length occs) u)
    else (length u < length occs)%nat /\
         schedule (snd r) = schedule s ++ map (fun w => entry_of m w d t) u.
Proof using weeks_length weeks_nodup weeks_range.
  induction occs as [|occ occs IH]; intros s asg r Hasg; cbn [commit_occurrences].
  - intros H. injection H as <-. cbn [fst snd length take map].
    split; [lia|]. now rewrite app_nil_r.
  - pose proof (scan_weeks_head s asg) as Hhead. cbv zeta in Hhead.
    destruct (scan_weeks s asg weeks d t (m_duration m) (seqZ 0 MAX_WEEKS) (-1))
      as [[|] week]; cbn [fst snd] in Hhead.
    + destruct (commit_entry s m week d t) as [s1|] eqn:Hc; [|discriminate].
      intros Hr.
      specialize (IH s1 (<[Z.to_nat week := true]> asg) r
                    ltac:(now rewrite length_insert) Hr).
      cbv zeta in IH. rewrite (avail_after_commit s s1 asg week Hasg Hhead Hc) in IH.
      apply commit_entry_inv in Hc. destruct Hc as (Hs1 & _).
      destruct (List.filter (avail s asg d t (m_duration m)) weeks) as [|x u];
        [discriminate|].
      injection Hhead as ->. cbn [tail] in IH. cbv zeta.
      destruct (fst r); destruct IH as [IH1 IH2]; cbn [length take map];
        (split; [lia|]); rewrite IH2, Hs1, <- app_assoc; reflexivity.
    + intros H. injection H as <-. cbn [fst snd]. cbv zeta.
      destruct (List.filter (avail s asg d t (m_duration m)) weeks) as [|x u];
        [|discriminate].
      cbn [length map]. split; [lia|]. now rewrite app_nil_r.
Qed.

End CommitLoop.

(** ** What the search returns *)

Lemma in_candidates (s : MeetingScheduler) (m : Meeting) (p d t : Z) :
  In (p, d, t) (candidates s m) <->
  In p (seqZ 0 (max_pairs_of m)) /\ In d (day_list s m) /\ overloaded s d = false /\
  In t (time_list m) /\ 0 <= t < MAX_SLOTS /\ qualifies s m p d t = true.
Proof.
  unfold candidates, cands_pair, cands_day, cands_time.
  rewrite in_flat_map. split.
  - intros (p' & Hp & H). apply in_flat_map in H. destruct H as (d' & Hd & H).
    destruct (overloaded s d') eqn:Eo; [destruct H|].
    apply in_flat_map in H. destruct H as (t' & Ht & H).
    destruct ((t' <? 0) || (t' >=? MAX_SLOTS)) eqn:Er; cbn [negb andb] in H;
      [destruct H|].
    destruct (qualifies s m p' d' t') eqn:Eq; [|destruct H].
    destruct H as [H|[]]. injection H as -> -> ->.
    repeat split; try assumption; lia.
  - intros (Hp & Hd & Ho & Ht & Hr & Hq). exists p. split; [exact Hp|].
    apply in_flat_map. exists d. split; [exact Hd|]. rewrite Ho.
    apply in_flat_map. exists t. split; [exact Ht|].
    assert (Er : (t <? 0) || (t >=? MAX_SLOTS) = false) by lia.
    rewrite Er, Hq. now left.
Qed.

Lemma day_list_range (s : MeetingScheduler) (m : Meeting) (d : Z) :
  In d (day_list s m) -> 0 <= d < MAX_DAYS.
Proof.
  unfold day_list. destruct (fixed_day_idx_of m >=? 0) eqn:E.
  - intros [<-|[]]. destruct (fixed_day_idx_range m); lia.
  - destruct (sort_days_sorted (total_hours s)) as (a & b & c & e & -> & Hp & _).
    intros H. apply list_elem_of_In in H. rewrite Hp in H.
    apply list_elem_of_In in H. unfold MAX_DAYS. simpl in H. lia.
Qed.

(** The search either fails with -1 and -1, or returns the day and the time
    of one of its candidates. *)
Lemma search_chosen (s : MeetingScheduler) (m : Meeting) :
  (chosen_day (search s m) = -1 /\ chosen_time (search s m) = -1) \/
  (exists p, In (p, chosen_day (search s m), chosen_time (search s m))
               (candidates s m)).
Proof.
  destruct (search_selects s m)
    as [(Hd & Ht & _)|(pre & c & post & Hcs & Hd & Ht & _)].
  - now left.
  - right. exists (cand_pair c). rewrite Hd, Ht, Hcs.
    destruct c as [[p d] t]. apply in_or_app. right. now left.
Qed.

Lemma search_chosen_range (s : MeetingScheduler) (m : Meeting) (p : Z) :
  In (p, chosen_day (search s m), chosen_time (search s m)) (candidates s m) ->
  (chosen_day (search s m) =? -1) || (chosen_time (search s m) =? -1) = false.
Proof.
  intros H. apply in_candidates in H. destruct H as (_ & Hd & _ & _ & Ht & _).
  apply day_list_range in Hd. unfold MAX_DAYS in Hd. lia.
Qed.

Lemma avail_unassigned (s : MeetingScheduler) (n : nat) (d t dur w : Z) :
  avail s (replicate n false) d t dur w = is_valid_slot s w d t dur.
Proof. unfold avail. now rewrite flag_at_unassigned. Qed.

Lemma filter_all {A : Type} (f : A -> bool) (l : list A) :
  (length l <= length (List.filter f l))%nat -> List.filter f l = l.
Proof.
  induction l as [|x l IH]; simpl; [reflexivity|].
  destruct (f x); simpl; intros H.
  - f_equal. apply IH. lia.
  - pose proof (filter_length_le f l). lia.
Qed.

(** The outcome of [add_meeting] for a request that is not fortnightly: a
    failure is a failure of the search and changes nothing; a success commits
    the first [occurrences] valid weeks, in the order of the shuffle. *)
Lemma add_meeting_other (s : MeetingScheduler) (m : Meeting) (rand : nat -> nat)
    (r : bool * MeetingScheduler) :
  String.eqb (m_frequency m) "fortnightly" = false ->
  add_meeting s m rand = Some r ->
  let d := chosen_day (search s m) in
  let t := chosen_time (search s m) in
  let u := List.filter (fun w => is_valid_slot s w d t (m_duration m))
             (shuffled_weeks rand) in
  if fst r
  then (exists p, In (p, d, t) (candidates s m)) /\
       (Z.to_nat (occurrences_of m) <= length u)%nat /\
       schedule (snd r)
       = schedule s ++ map (fun w => entry_of m w d t)
                         (take (Z.to_nat (occurrences_of m)) u)
  else snd r = s /\ d = -1 /\ t = -1.
Proof.
  intros Ef. unfold add_meeting. cbv zeta. rewrite Ef.
  fold (shuffled_weeks rand).
  destruct (search_chosen s m) as [[Hd Ht]|[p Hin]].
  - rewrite Hd, Ht. cbn [Z.eqb orb]. intros H. injection H as <-. now cbn.
  - rewrite (search_chosen_range s m p Hin).
    destruct (week_order_facts _ (shuffle_weeks rand)) as (Hlen & Hnd & Hrange).
    fold (shuffled_weeks rand) in Hlen, Hnd, Hrange.
    intros Hc.
    pose proof (commit_occurrences_spec m (shuffled_weeks rand)
                  (chosen_day (search s m)) (chosen_time (search s m))
                  Hlen Hnd Hrange (seqZ 0 (occurrences_of m)) s
                  (replicate (Z.to_nat MAX_WEEKS) false) r eq_refl Hc) as Hspec.
    cbv zeta in Hspec.
    rewrite (filter_ext_in _ (fun w => is_valid_slot s w (chosen_day (search s m))
                                         (chosen_time (search s m)) (m_duration m)))
      in Hspec by (intros; apply avail_unassigned).
    rewrite length_seqZ in Hspec.
    destruct (fst r).
    + destruct Hspec as [H1 H2]. split; [now exists p|]. split; assumption.
    + exfalso. destruct Hspec as [H1 _].
      apply in_candidates in Hin. destruct Hin as (_ & _ & _ & _ & _ & Hq).
      unfold qualifies, is_fortnightly in Hq. rewrite Ef in Hq.
      unfold count_valid in Hq.
      rewrite (filter_length_perm _ _ _ (shuffle_weeks rand)) in H1.
      change (seqZ 0 MAX_WEEKS) with [0; 1; 2; 3] in Hq. lia.
Qed.

Lemma fortnight_pairs_values :
  fortnight_pairs 0 0 = 0 /\ fortnight_pairs 0 1 = 2 /\
  fortnight_pairs 1 0 = 1 /\ fortnight_pairs 1 1 = 3.
Proof. repeat split. Qed.

(** The outcome of [add_meeting] for a fortnightly request: a failure
    changes nothing; a success commits the two weeks of the first valid pair,
    in the order of the pairs 0 and 1. *)
Lemma add_meeting_fortnightly (s : MeetingScheduler) (m : Meeting)
    (rand : nat -> nat) (r : bool * MeetingScheduler) :
  String.eqb (m_frequency m) "fortnightly" = true ->
  add_meeting s m rand = Some r ->
  let d := chosen_day (search s m) in
  let t := chosen_time (search s m) in
  if fst r
  then (exists p', In (p', d, t) (candidates s m)) /\
       exists p, (p = 0 \/ p = 1) /\
         pair_valid s m p d t = true /\
         (p = 1 -> pair_valid s m 0 d t = false) /\
         schedule (snd r)
         = schedule s ++ [entry_of m (fortnight_pairs p 0) d t;
                          entry_of m (fortnight_pairs p 1) d t]
  else snd r = s.
Proof.
  intros Ef. unfold add_meeting. cbv zeta. rewrite Ef.
  destruct (search_chosen s m) as [[Hd Ht]|[p' Hin]].
  - rewrite Hd, Ht. cbn [Z.eqb orb]. intros H. injection H as <-. now cbn.
  - rewrite (search_chosen_range s m p' Hin).
    set (d := chosen_day (search s m)) in *.
    set (t := chosen_time (search s m)) in *.
    change (seqZ 0 2) with [0; 1]. cbn [find_pair].
    fold (pair_valid s m 0 d t). fold (pair_valid s m 1 d t).
    destruct (pair_valid s m 0 d t) eqn:E0.
    + change (0 =? -1) with false. cbn iota. cbn [commit_pair].
      destruct (commit_entry s m (fortnight_pairs 0 0) d t) as [s1|] eqn:H1;
        [|discriminate].
      destruct (commit_entry s1 m (fortnight_pairs 0 1) d t) as [s2|] eqn:H2;
        [|discriminate].
      intros H. injection H as <-. cbn [fst snd].
      split; [now exists p'|]. exists 0. split; [now left|]. split; [exact E0|].
      split; [intros; discriminate|].
      apply commit_entry_inv in H1, H2.
      destruct H1 as (H1 & _), H2 as (H2 & _).
      rewrite H2, H1, <- app_assoc. reflexivity.
    + destruct (pair_valid s m 1 d t) eqn:E1.
      * change (1 =? -1) with false. cbn iota. cbn [commit_pair].
        destruct (commit_entry s m (fortnight_pairs 1 0) d t) as [s1|] eqn:H1;
          [|discriminate].
        destruct (commit_entry s1 m (fortnight_pairs 1 1) d t) as [s2|] eqn:H2;
          [|discriminate].
        intros H. injection H as <-. cbn [fst snd].
        split; [now exists p'|]. exists 1. split; [now right|]. split; [exact E1|].
        split; [reflexivity|].
        apply commit_entry_inv in H1, H2.
        destruct H1 as (H1 & _), H2 as (H2 & _).
        rewrite H2, H1, <- app_assoc. reflexivity.
      * change (-1 =? -1) with true. cbn iota.
        intros H. injection H as <-. reflexivity.
Qed.

(** Whenever [add_meeting] returns [false], the state is as it was. *)
Lemma add_meeting_false_unchanged (s s' : MeetingScheduler) (m : Meeting)
    (rand : nat -> nat) :
  add_meeting s m rand = Some (false, s') -> s' = s.
Proof.
  intros H. destruct (String.eqb (m_frequency m) "fortnightly") eqn:Ef.
  - exact (add_meeting_fortnightly s m rand (false, s') Ef H).
  - exact (proj1 (add_meeting_other s m rand (false, s') Ef H)).
Qed.

(** A successful weekly placement appends exactly four entries, all on
    the day and start slot chosen by the search, whose weeks are a
    permutation of 0..3. *)
Lemma weekly_entries (s s' : MeetingScheduler) (m : Meeting)
    (rand : nat -> nat)
    (Hf : m_frequency m = "weekly")
    (Hr : add_meeting s m rand = Some (true, s')) :
  let d := chosen_day (search s m) in
  let t := chosen_time (search s m) in
  exists w0 w1 w2 w3,
    schedule s'
    = schedule s ++ [entry_of m w0 d t; entry_of m w1 d t;
                     entry_of m w2 d t; entry_of m w3 d t] /\
    [w0; w1; w2; w3] ≡ₚ [0; 1; 2; 3] /\
    0 <= d < MAX_DAYS /\ 0 <= t < MAX_SLOTS.
Proof.
  assert (Ef : String.eqb (m_frequency m) "fortnightly" = false)
    by (rewrite Hf; reflexivity).
  pose proof (add_meeting_other s m rand (true, s') Ef Hr) as H.
  cbv zeta in H. cbn [fst snd] in H. destruct H as ([p Hin] & Hlen & Hs).
  assert (Ho : occurrences_of m = 4)
    by (unfold occurrences_of; rewrite Hf; reflexivity).
  rewrite Ho in Hlen, Hs.
  pose proof (shuffle_weeks rand) as Hperm. fold (shuffled_weeks rand) in Hperm.
  destruct (week_order_facts _ Hperm) as (Hl4 & _ & _).
  rewrite filter_all in Hs by (rewrite Hl4; exact Hlen).
  unfold week_order in Hperm.
  destruct (shuffled_weeks rand) as [|w0 [|w1 [|w2 [|w3 [|w4 l]]]]];
    try discriminate.
  cbv zeta. exists w0, w1, w2, w3.
  split; [exact Hs|]. split; [exact Hperm|].
  apply in_candidates in Hin. destruct Hin as (_ & Hd & _ & _ & Ht & _).
  apply day_list_range in Hd. split; assumption.
Qed.

(** A successful fortnightly placement appends exactly two entries, on
    the chosen day and start slot, in the weeks 0 and 2 when both are valid
    there, and otherwise in the weeks 1 and 3, which are then both valid; a
    failed fortnightly placement leaves the state as it was. *)
Lemma fortnightly_entries (s : MeetingScheduler) (m : Meeting)
    (rand : nat -> nat) (r : bool * MeetingScheduler)
    (Hf : m_frequency m = "fortnightly")
    (Hr : add_meeting s m rand = Some r) :
  let d := chosen_day (search s m) in
  let t := chosen_time (search s m) in
  let valid w := is_valid_slot s w d t (m_duration m) in
  if fst r
  then exists w1 w2,
         schedule (snd r)
         = schedule s ++ [entry_of m w1 d t; entry_of m w2 d t] /\
         ((w1 = 0 /\ w2 = 2 /\ valid 0 && valid 2 = true) \/
          (w1 = 1 /\ w2 = 3 /\ valid 0 && valid 2 = false
           /\ valid 1 && valid 3 = true))
  else snd r = s.
Proof.
  assert (Ef : String.eqb (m_frequency m) "fortnightly" = true)
    by (rewrite Hf; reflexivity).
  pose proof (add_meeting_fortnightly s m rand r Ef Hr) as H.
  cbv zeta in H |- *. destruct (fst r); [|exact H].
  destruct H as (_ & p & Hp & Hv & Hfirst & Hs).
  destruct Hp as [-> | ->].
  - exists 0, 2. split; [exact Hs|]. left. repeat split. exact Hv.
  - exists 1, 3. split; [exact Hs|]. right. repeat split; [|exact Hv].
    exact (Hfirst eq_refl).
Qed.

(** C7 as stated fails: no call of [add_meeting] returns [false] with a
    changed state, from a reachable state or from any other. *)
Lemma C7_no_failure_changes_state :
  (exists s m rand s',
      reachable s /\ add_meeting s m rand = Some (false, s') /\ s' <> s)
  <-> False.
Proof.
  split; [|intros []].
  intros (s & m & rand & s' & _ & H & Hne).
  apply Hne. exact (add_meeting_false_unchanged s s' m rand H).
Qed.

(** C7, as the code has it.  The commit loop of a request that is not
    fortnightly has no rollback: when it fails, every week it could take has
    been committed and stays so (first part, and an instance of it: the loop
    run for four occurrences on Monday 09:00 with week 2 taken returns
    [false] and keeps three entries, their cells and their hours).  But [add_meeting] never runs the loop
    that way: the search only chooses a day and a time with enough valid
    weeks, so a call that returns [false] leaves the state as it was. *)
Theorem C7_commit_loop_no_rollback_but_unreached :
  (forall (m : Meeting) (weeks : list Z) (d t : Z) (occs : list Z)
          (s s' : MeetingScheduler) (asg : list bool),
      length weeks = 4%nat -> NoDup weeks ->
      Forall (fun w => 0 <= w < MAX_WEEKS) weeks -> length asg = 4%nat ->
      commit_occurrences s m asg weeks d t occs = Some (false, s') ->
      let u := List.filter (avail s asg d t (m_duration m)) weeks in
      (length u < length occs)%nat /\
      schedule s' = schedule s ++ map (fun w => entry_of m w d t) u) /\
  (exists s',
      commit_occurrences monday_week2_taken weekly_example
        (replicate 4 false) [0; 1; 2; 3] 0 0 (seqZ 0 4) = Some (false, s') /\
      map e_week (schedule s') = [2; 0; 1; 3] /\
      map e_week (schedule monday_week2_taken) = [2] /\
      map (fun w => cell (blocked_slots monday_week2_taken) w 0 0) [0; 1; 2; 3]
      = [false; false; true; false] /\
      map (fun w => cell (blocked_slots s') w 0 0) [0; 1; 2; 3]
      = [true; true; true; true] /\
      (hours_at (total_hours monday_week2_taken) 0 == 1 # 2)%Q /\
      (hours_at (total_hours s') 0 == 2)%Q /\
      (hours_at (meeting_hours s') 0 == 2)%Q) /\
  (forall (s s' : MeetingScheduler) (m : Meeting) (rand : nat -> nat),
      add_meeting s m rand = Some (false, s') -> s' = s).
Proof.
  split; [|split].
  - intros m weeks d t occs s s' asg Hl Hnd Hr Ha H.
    exact (commit_occurrences_spec m weeks d t Hl Hnd Hr occs s asg (false, s') Ha H).
  - eexists. split; [vm_compute; reflexivity|]. repeat split.
  - intros s s' m rand H. exact (add_meeting_false_unchanged s s' m rand H).
Qed.

(** ** The cap on the meeting hours of a day *)

Lemma selects_nil (s : MeetingScheduler) (m : Meeting) (b : best) :
  selects s m [] b -> chosen_day b = -1 /\ chosen_time b = -1.
Proof.
  intros [(Hd & Ht & _)|(pre & c & post & Hcs & _)]; [now split|].
  destruct pre; discriminate.
Qed.

Lemma flat_map_nil {A B : Type} (f : A -> list B) (l : list A) :
  (forall x, In x l -> f x = []) -> flat_map f l = [].
Proof.
  induction l as [|x l IH]; intros H; simpl; [reflexivity|].
  rewrite (H x (or_introl eq_refl)). apply IH. intros y Hy. apply H. now right.
Qed.

(** A day whose meeting hours divided by 4 exceed 2.5 is no candidate of
    the search, and a fixed day is no exception: a request that fixes such
    a day has no candidate at all, and [add_meeting] returns [false] and
    changes nothing. *)
Lemma overloaded_fixed_day (s : MeetingScheduler) (m : Meeting)
    (rand : nat -> nat)
    (Hfix : 0 <= fixed_day_idx_of m)
    (Hload : (5 # 2 < hours_at (meeting_hours s) (fixed_day_idx_of m) / 4)%Q) :
  (forall p d t, In (p, d, t) (candidates s m) ->
                 ~ (5 # 2 < hours_at (meeting_hours s) d / 4)%Q) /\
  candidates s m = [] /\
  add_meeting s m rand = Some (false, s).
Proof.
  split; [|split].
  - intros p d t Hin Hd. apply in_candidates in Hin.
    destruct Hin as (_ & _ & Ho & _). unfold overloaded in Ho.
    apply Qltb_ge in Ho. lra.
  - unfold candidates. apply flat_map_nil. intros p _.
    unfold cands_pair, day_list.
    assert (E : (fixed_day_idx_of m >=? 0) = true) by lia. rewrite E.
    cbn [flat_map]. rewrite app_nil_r. unfold cands_day, overloaded.
    apply Qltb_lt in Hload. now rewrite Hload.
  - assert (Hc : candidates s m = []).
    { unfold candidates. apply flat_map_nil. intros p _.
      unfold cands_pair, day_list.
      assert (E : (fixed_day_idx_of m >=? 0) = true) by lia. rewrite E.
      cbn [flat_map]. rewrite app_nil_r. unfold cands_day, overloaded.
      apply Qltb_lt in Hload. now rewrite Hload. }
    pose proof (search_selects s m) as Hsel. rewrite Hc in Hsel.
    apply selects_nil in Hsel. destruct Hsel as [Hd Ht].
    unfold add_meeting. cbv zeta. rewrite Hd. reflexivity.
Qed.

(** C3 as stated fails: with 12 meeting hours on Monday (12 / 4 > 2.5), a
    request that fixes Monday 13:00, a slot that is valid in all four weeks,
    is refused, and nothing is placed. *)
Lemma C3_fixed_day_is_not_exempt :
  reachable monday_loaded /\
  (hours_at (meeting_hours monday_loaded) 0 == 12)%Q /\
  fixed_day_idx_of monday_afternoon = 0 /\
  fixed_time_idx_of monday_afternoon = 6 /\
  Forall (fun w => is_valid_slot monday_loaded w 0 6 1 = true) (seqZ 0 MAX_WEEKS) /\
  add_meeting monday_loaded monday_afternoon (fun _ => 0%nat)
  = Some (false, monday_loaded).
Proof.
  split; [|split; [|split; [|split; [|split]]]].
  - apply (reach_add monday_once (monday_block "10:30") (fun _ => 0%nat) true).
    + apply (reach_add init_scheduler (monday_block "09:00") (fun _ => 0%nat) true).
      * apply reach_init.
      * vm_compute. reflexivity.
    + vm_compute. reflexivity.
  - vm_compute. reflexivity.
  - reflexivity.
  - reflexivity.
  - rewrite seqZ_weeks. repeat constructor.
  - vm_compute. reflexivity.
Qed.

(** ** Frequencies outside "weekly" and "fortnightly" *)

Lemma search_congr (s : MeetingScheduler) (m m' : Meeting) :
  m_duration m = m_duration m' ->
  m_preferred_hours m = m_preferred_hours m' ->
  m_fixed_day m = m_fixed_day m' ->
  m_fixed_time m = m_fixed_time m' ->
  occurrences_of m = occurrences_of m' ->
  String.eqb (m_frequency m) "fortnightly" = String.eqb (m_frequency m') "fortnightly" ->
  search s m = search s m'.
Proof.
  intros H1 H2 H3 H4 H5 H6.
  unfold search, try_pair, try_day, try_time, max_pairs_of,
    fixed_day_idx_of, fixed_time_idx_of.
  rewrite H1, H2, H3, H4, H5, H6. reflexivity.
Qed.

Lemma other_frequency (m : Meeting) :
  m_frequency m <> "weekly" -> m_frequency m <> "fortnightly" ->
  String.eqb (m_frequency m) "weekly" = false /\
  String.eqb (m_frequency m) "fortnightly" = false /\
  occurrences_of m = 1.
Proof.
  intros H1 H2. apply String.eqb_neq in H1, H2. repeat split; try assumption.
  unfold occurrences_of. rewrite H1, H2.
  now destruct (String.eqb (m_frequency m) "third_week").
Qed.

(** A request whose frequency is neither "weekly" nor "fortnightly",
    whatever the string, counts one occurrence and is not refused for its
    frequency: [add_meeting] does with it what it does with the same request
    labelled "monthly" (same result, same state but for the label copied in
    the entry), and a success appends exactly one entry. *)
Lemma other_frequency_as_monthly (s : MeetingScheduler) (m : Meeting)
    (rand : nat -> nat)
    (Hw : m_frequency m <> "weekly")
    (Hf : m_frequency m <> "fortnightly") :
  occurrences_of m = 1 /\
  match add_meeting s m rand, add_meeting s (with_frequency m "monthly") rand with
  | Some (b1, s1), Some (b2, s2) => b1 = b2 /\ same_but_labels s1 s2
  | None, None => True
  | _, _ => False
  end /\
  (forall r, add_meeting s m rand = Some r ->
     if fst r
     then exists w, 0 <= w < MAX_WEEKS /\
            schedule (snd r)
            = schedule s ++ [entry_of m w (chosen_day (search s m))
                                        (chosen_time (search s m))]
     else snd r = s).
Proof.
  destruct (other_frequency m Hw Hf) as (Ew & Ef & Ho).
  split; [exact Ho|]. split.
  - assert (Hs : search s m = search s (with_frequency m "monthly"))
      by (apply search_congr; try reflexivity; [now rewrite Ho|now rewrite Ef]).
    unfold add_meeting. cbv zeta. rewrite <- Hs, Ho, Ef.
    change (occurrences_of (with_frequency m "monthly")) with 1.
    change (String.eqb (m_frequency (with_frequency m "monthly")) "fortnightly")
      with false.
    destruct ((chosen_day (search s m) =? -1) || (chosen_time (search s m) =? -1)).
    + split; [reflexivity|]. repeat split.
    + change (seqZ 0 1) with [0]. cbn [commit_occurrences].
      change (m_duration (with_frequency m "monthly")) with (m_duration m).
      destruct (scan_weeks s _ _ _ _ (m_duration m) (seqZ 0 MAX_WEEKS) (-1))
        as [[|] week].
      * unfold commit_entry.
        destruct (schedule_count s <? MAX_MEETINGS * MAX_WEEKS); [|exact I].
        split; [reflexivity|]. unfold same_but_labels.
        cbn [schedule reservations total_hours meeting_hours blocked_slots].
        repeat split. now rewrite !map_app.
      * split; [reflexivity|]. repeat split.
  - intros r Hr. pose proof (add_meeting_other s m rand r Ef Hr) as H.
    cbv zeta in H. destruct (fst r); [|tauto].
    destruct H as (_ & Hlen & Hsch). rewrite Ho in Hlen, Hsch.
    change (Z.to_nat 1) with 1%nat in Hlen, Hsch.
    destruct (List.filter _ (shuffled_weeks rand)) as [|w u] eqn:Eu;
      [simpl in Hlen; lia|].
    exists w. split; [|exact Hsch].
    assert (Hin : In w (shuffled_weeks rand)).
    { assert (Hin' : In w (w :: u)) by now left.
      rewrite <- Eu in Hin'. apply filter_In in Hin'. tauto. }
    destruct (week_order_facts _ (shuffle_weeks rand)) as (_ & _ & Hrange).
    fold (shuffled_weeks rand) in Hrange. rewrite Forall_forall in Hrange.
    apply Hrange. now apply list_elem_of_In.
Qed.

Example daily_is_placed :
  exists s',
    add_meeting init_scheduler daily_example (fun _ => 0%nat) = Some (true, s') /\
    map e_frequency (schedule s') = ["daily"].
Proof. eexists. split; [vm_compute; reflexivity|reflexivity]. Qed.

(** ** The selection rule *)

Lemma map_flat_map {A B C : Type} (f : B -> C) (g : A -> list B) (l : list A) :
  map f (flat_map g l) = flat_map (fun x => map f (g x)) l.
Proof.
  induction l as [|x l IH]; simpl; [reflexivity|]. now rewrite map_app, IH.
Qed.

Lemma candidates_as_claimed (s : MeetingScheduler) (m : Meeting) :
  is_fortnightly m = false ->
  map (fun c => (cand_day c, cand_time c)) (candidates s m) = claim_candidates s m.
Proof.
  intros Ef. unfold candidates, max_pairs_of.
  unfold is_fortnightly in Ef. rewrite Ef.
  change (seqZ 0 1) with [0]. cbn [flat_map]. rewrite app_nil_r.
  unfold cands_pair, claim_candidates. rewrite map_flat_map.
  apply flat_map_ext. intros d. unfold cands_day.
  destruct (overloaded s d); [reflexivity|].
  rewrite map_flat_map. apply flat_map_ext. intros t.
  unfold cands_time, qualifies, is_fortnightly. rewrite Ef.
  destruct (negb ((t <? 0) || (t >=? MAX_SLOTS))
            && (occurrences_of m <=? count_valid s m d t)); reflexivity.
Qed.

Lemma metric_order (s : MeetingScheduler) (m : Meeting) (d d' : Z) :
  ((metric s m d < metric s m d')%Q <-> (score s m d < score s m d')%Q) /\
  ((metric s m d <= metric s m d')%Q <-> (score s m d <= score s m d')%Q).
Proof.
  unfold metric. destruct (is_fortnightly m); [|tauto].
  unfold Qdiv. change (/ inject_Z 2)%Q with (1 # 2)%Q. split; split; intros H; lra.
Qed.

(** C5, as the code has it.  The search returns the first candidate of least
    metric among those with a metric below 1e9, in the order in which it
    meets them: pair by pair (one pass unless the request is fortnightly),
    then day by day, then time by time.  The metric orders the days as their
    score does, the total hours of the day plus half an hour per slot of the
    meeting.  For a request that is not fortnightly the candidates are those
    of the rule as worded, in the same order.  The days are the fixed day
    alone, or else the four days by ascending total hours, equal hours in day
    order. *)
Theorem C5_search_selects_first_least (s : MeetingScheduler) (m : Meeting) :
  selects s m (candidates s m) (search s m) /\
  (forall d d',
      ((metric s m d < metric s m d')%Q <-> (score s m d < score s m d')%Q) /\
      ((metric s m d <= metric s m d')%Q <-> (score s m d <= score s m d')%Q)) /\
  (is_fortnightly m = false ->
   map (fun c => (cand_day c, cand_time c)) (candidates s m) = claim_candidates s m) /\
  (fixed_day_idx_of m < 0 ->
   day_list s m = sort_days (total_hours s) /\
   stable_sorted (total_hours s) (day_list s m)) /\
  (0 <= fixed_day_idx_of m -> day_list s m = [fixed_day_idx_of m]).
Proof.
  split; [apply search_selects|]. split; [intros; apply metric_order|].
  split; [apply candidates_as_claimed|]. split.
  - intros H. unfold day_list.
    assert (E : (fixed_day_idx_of m >=? 0) = false) by lia. rewrite E.
    split; [reflexivity|apply sort_days_sorted].
  - intros H. unfold day_list.
    assert (E : (fixed_day_idx_of m >=? 0) = true) by lia. now rewrite E.
Qed.

(** C5 as stated fails for a fortnightly request.  With Monday 09:00 taken
    in the weeks 0 and 2, a fortnightly request fixed on Monday has the
    candidates Monday 09:00 (valid in the weeks 1 and 3) and Monday 09:30, in
    this order and with the same score; the rule as worded selects the first,
    Monday 09:00, but the search returns Monday 09:30. *)
Lemma C5_fortnightly_tie_not_by_day_time :
  reachable monday_0900_taken /\
  map e_week (schedule monday_0900_taken) = [0; 2] /\
  (exists rest,
      claim_candidates monday_0900_taken fortnightly_monday
      = (0, 0) :: (0, 1) :: rest) /\
  map (fun w => is_valid_slot monday_0900_taken w 0 0 1) [0; 1; 2; 3]
  = [false; true; false; true] /\
  chosen_day (search monday_0900_taken fortnightly_monday) = 0 /\
  chosen_time (search monday_0900_taken fortnightly_monday) = 1.
Proof.
  split; [|split; [|split; [|split; [|split]]]].
  - apply (reach_add init_scheduler fortnightly_0900 (fun _ => 0%nat) true).
    + apply reach_init.
    + vm_compute. reflexivity.
  - reflexivity.
  - eexists. vm_compute. reflexivity.
  - reflexivity.
  - vm_compute. reflexivity.
  - vm_compute. reflexivity.
Qed.

(** ** Acceptance of a reservation *)

Lemma slot_label_not_break (i : Z) :
  0 <= i < MAX_SLOTS -> is_break_slot (str_at TIME_SLOTS i) = false.
Proof.
  unfold MAX_SLOTS. intros Hi.
  assert (C : i = 0 \/ i = 1 \/ i = 2 \/ i = 3 \/ i = 4 \/ i = 5 \/ i = 6 \/
              i = 7 \/ i = 8 \/ i = 9 \/ i = 10 \/ i = 11 \/ i = 12 \/ i = 13) by lia.
  repeat (destruct C as [->|C]; [reflexivity|]). subst. reflexivity.
Qed.

Lemma end_hour_in_day (i n : Z) :
  0 <= i -> 1 <= n <= 3 -> i + n <= MAX_SLOTS ->
  Qltb 17 (slot_to_hour i + inject_Z n * (1 # 2)) = false.
Proof.
  unfold MAX_SLOTS. intros Hi Hn Hin.
  assert (C : i = 0 \/ i = 1 \/ i = 2 \/ i = 3 \/ i = 4 \/ i = 5 \/ i = 6 \/
              i = 7 \/ i = 8 \/ i = 9 \/ i = 10 \/ i = 11 \/ i = 12 \/ i = 13) by lia.
  assert (D : n = 1 \/ n = 2 \/ n = 3) by lia.
  repeat (destruct C as [->|C]; [destruct D as [->|[->| ->]]; try lia; reflexivity|]).
  subst. destruct D as [->|[->| ->]]; try lia; reflexivity.
Qed.

(** A reservation of 30, 60 or 90 minutes with known day and start labels,
    that ends within the slots of the day and covers free cells only, is
    accepted as long as the reservation array has room. *)
Lemma reserve_slot_accepts (s : MeetingScheduler) (day start_time : string)
    (duration_minutes : Z) :
  sched_wf s ->
  find_day_index day <> -1 -> find_slot_index start_time <> -1 ->
  duration_minutes = 30 \/ duration_minutes = 60 \/ duration_minutes = 90 ->
  find_slot_index start_time + Z.quot duration_minutes 30 <= MAX_SLOTS ->
  (forall w i, 0 <= w < MAX_WEEKS -> 0 <= i < Z.quot duration_minutes 30 ->
     cell (blocked_slots s) w (find_day_index day) (find_slot_index start_time + i)
     = false) ->
  reservation_count s < MAX_RESERVATIONS ->
  exists s', reserve_slot s day start_time duration_minutes = Some (true, s').
Proof.
  intros (Hg & _ & _) Hd Hs Hdm Hend Hfree Hcap. unfold reserve_slot.
  set (day_idx := find_day_index day) in *.
  set (start_idx := find_slot_index start_time) in *.
  set (n := Z.quot duration_minutes 30) in *.
  assert (Hdr : 0 <= day_idx < MAX_DAYS)
    by (destruct (find_day_index_range day); [contradiction|assumption]).
  assert (Hsr : 0 <= start_idx < MAX_SLOTS)
    by (destruct (find_slot_index_range start_time); [contradiction|assumption]).
  assert (Hn : 1 <= n <= 3)
    by (unfold n; destruct Hdm as [->|[->| ->]]; vm_compute; split; discriminate).
  assert (E1 : (day_idx =? -1) || (start_idx =? -1)
               || negb (Z.rem duration_minutes 30 =? 0)
               || (duration_minutes <? 30) || (duration_minutes >? 90) = false).
  { assert ((day_idx =? -1) = false) as -> by lia.
    assert ((start_idx =? -1) = false) as -> by lia.
    destruct Hdm as [->|[->| ->]]; reflexivity. }
  rewrite E1.
  rewrite end_hour_in_day by lia.
  assert (E2 : is_break_slot start_time = false).
  { rewrite <- (find_slot_index_label start_time Hs).
    now apply slot_label_not_break. }
  rewrite E2. cbn [orb].
  assert (E3 : existsb
                 (fun i => (start_idx + i >=? MAX_SLOTS)
                           || is_break_slot (str_at TIME_SLOTS (start_idx + i)))
                 (seqZ 0 n) = false).
  { apply not_true_is_false. intros H. apply existsb_exists in H.
    destruct H as (i & Hi & H). apply list_elem_of_In, elem_of_seqZ in Hi.
    rewrite slot_label_not_break in H by lia. lia. }
  cbv zeta. rewrite E3.
  rewrite reserve_weeks_free; try assumption.
  - assert (E4 : (reservation_count s <? MAX_RESERVATIONS) = true) by lia.
    rewrite E4. eexists. reflexivity.
  - apply Forall_seqZ. intros; lia.
  - apply NoDup_seqZ.
  - apply Forall_seqZ. intros; lia.
  - apply NoDup_seqZ.
  - apply Forall_seqZ. intros w Hw. apply Forall_seqZ. intros i Hi.
    apply Hfree; lia.
Qed.

(** ** Every reachable state has arrays of the declared dimensions *)

Create HintDb sched discriminated.

#[local] Hint Resolve grid_wf_book grid_wf_mark_slots grid_wf_mark_weeks
  sched_wf_init : sched.

Lemma grid_wf_reserve_week (offs : list Z) (g : grid) (w d t : Z) :
  grid_wf g -> grid_wf (snd (reserve_week g w d t offs)).
Proof.
  revert g. induction offs as [|j offs IH]; intros g Hg; cbn [reserve_week].
  - exact Hg.
  - destruct (cell g w d (t + j)); [exact Hg|]. auto with sched.
Qed.

Lemma grid_wf_reserve_weeks (weeks offs : list Z) (g : grid) (d t : Z) :
  grid_wf g -> grid_wf (snd (reserve_weeks g weeks d t offs)).
Proof.
  revert g. induction weeks as [|w weeks IH]; intros g Hg; cbn [reserve_weeks].
  - exact Hg.
  - pose proof (grid_wf_reserve_week offs g w d t Hg) as H.
    destruct (reserve_week g w d t offs) as [[|] g1]; cbn [snd] in H |- *.
    + now apply IH.
    + exact H.
Qed.

Lemma sched_wf_reserve_slot (s s' : MeetingScheduler) (day start_time : string)
    (duration_minutes : Z) (b : bool) :
  sched_wf s ->
  reserve_slot s day start_time duration_minutes = Some (b, s') ->
  sched_wf s'.
Proof.
  intros Hwf. pose proof Hwf as (Hg & Hth & Hmh). unfold reserve_slot.
  destruct (_ || _ || _ || _ || _); [intros H; injection H as <- <-; exact Hwf|].
  destruct (_ || _); [intros H; injection H as <- <-; exact Hwf|].
  destruct (existsb _ _); [intros H; injection H as <- <-; exact Hwf|].
  pose proof (grid_wf_reserve_weeks (seqZ 0 MAX_WEEKS)
                (seqZ 0 (Z.quot duration_minutes 30)) (blocked_slots s)
                (find_day_index day) (find_slot_index start_time) Hg) as Hg'.
  destruct (reserve_weeks _ _ _ _ _) as [[|] g]; cbn [snd] in Hg'.
  - destruct (reservation_count s <? MAX_RESERVATIONS); [|discriminate].
    intros H. injection H as <- <-. unfold sched_wf.
    cbn [blocked_slots total_hours meeting_hours].
    rewrite length_add_hours. auto.
  - intros H. injection H as <- <-. unfold sched_wf, with_blocked.
    cbn [blocked_slots total_hours meeting_hours]. auto.
Qed.

Lemma sched_wf_commit_entry (s s' : MeetingScheduler) (m : Meeting) (week d t : Z) :
  sched_wf s -> commit_entry s m week d t = Some s' -> sched_wf s'.
Proof.
  intros (Hg & Hth & Hmh) H. apply commit_entry_inv in H.
  destruct H as (_ & _ & Hth' & Hmh' & Hg'). unfold sched_wf.
  rewrite Hth', Hmh', Hg', !length_add_hours. auto with sched.
Qed.

#[local] Hint Resolve sched_wf_commit_entry sched_wf_reserve_slot : sched.

Lemma sched_wf_commit_pair (m : Meeting) (p d t : Z) (ixs : list Z) :
  forall s s', sched_wf s -> commit_pair s m p d t ixs = Some s' -> sched_wf s'.
Proof.
  induction ixs as [|i ixs IH]; intros s s' Hwf; cbn [commit_pair].
  - intros H. injection H as <-. exact Hwf.
  - destruct (commit_entry s m (fortnight_pairs p i) d t) as [s1|] eqn:E;
      [|discriminate].
    apply IH. eauto with sched.
Qed.

Lemma sched_wf_commit_occurrences (m : Meeting) (weeks : list Z) (d t : Z)
    (occs : list Z) :
  forall s asg r,
    sched_wf s -> commit_occurrences s m asg weeks d t occs = Some r ->
    sched_wf (snd r).
Proof.
  induction occs as [|occ occs IH]; intros s asg r Hwf; cbn [commit_occurrences].
  - intros H. injection H as <-. exact Hwf.
  - destruct (scan_weeks _ _ _ _ _ _ _ _) as [[|] week].
    + destruct (commit_entry s m week d t) as [s1|] eqn:E; [|discriminate].
      apply IH. eauto with sched.
    + intros H. injection H as <-. exact Hwf.
Qed.

Lemma sched_wf_add_meeting (s s' : MeetingScheduler) (m : Meeting)
    (rand : nat -> nat) (b : bool) :
  sched_wf s -> add_meeting s m rand = Some (b, s') -> sched_wf s'.
Proof.
  intros Hwf. unfold add_meeting. cbv zeta.
  destruct (_ || _); [intros H; injection H as <- <-; exact Hwf|].
  destruct (String.eqb (m_frequency m) "fortnightly").
  - destruct (_ =? -1); [intros H; injection H as <- <-; exact Hwf|].
    destruct (commit_pair _ _ _ _ _ _) as [s1|] eqn:E; [|discriminate].
    intros H. injection H as <- <-.
    eapply sched_wf_commit_pair; eassumption.
  - intros H.
    exact (sched_wf_commit_occurrences _ _ _ _ _ _ _ (b, s') Hwf H).
Qed.

(** The arrays of a reachable state have the declared dimensions, so that
    every index the program computes is within bounds. *)
Theorem reachable_wf (s : MeetingScheduler) : reachable s -> sched_wf s.
Proof.
  induction 1 as [|s day st dm b s' _ IH H|s m rand b s' _ IH H].
  - auto with sched.
  - eauto with sched.
  - eapply sched_wf_add_meeting; eassumption.
Qed.

(** ** The earlier copy against the later one *)

(** The earlier copy places a fortnightly meeting in the first two valid
    weeks of the shuffle, here the weeks 0 and 1 (the values 3, 2, 1 of
    [rand ()] leave the weeks in order); the later copy, [cweb.c], whose
    header records the change, places it in the weeks 0 and 2. *)
Example legacy_fortnightly_in_adjacent_weeks :
  let rand k := match k with 0%nat => 3%nat | 1%nat => 2%nat | _ => 1%nat end in
  (exists s', Legacy.add_meeting init_scheduler fortnightly_example rand = Some (true, s') /\
              map e_week (schedule s') = [0; 1]) /\
  (exists s', add_meeting init_scheduler fortnightly_example rand
              = Some (true, s') /\
              map e_week (schedule s') = [0; 2]).
Proof.
  split; eexists; (split; [vm_compute; reflexivity|reflexivity]).
Qed.

(** * Properties of the program as a whole *)

(** ** When a slot is valid *)

Lemma slot_to_hour_le (t : Z) :
  0 <= t < MAX_SLOTS ->
  (slot_to_hour t <= inject_Z t * (1 # 2) + 10)%Q.
Proof.
  unfold MAX_SLOTS. intros Ht.
  assert (C : t = 0 \/ t = 1 \/ t = 2 \/ t = 3 \/ t = 4 \/ t = 5 \/ t = 6 \/
              t = 7 \/ t = 8 \/ t = 9 \/ t = 10 \/ t = 11 \/ t = 12 \/ t = 13) by lia.
  repeat (destruct C as [C|C]); subst t; apply Qle_bool_iff; reflexivity.
Qed.

Lemma end_hour_le (t n : Z) :
  0 <= t < MAX_SLOTS -> t + n <= MAX_SLOTS ->
  Qltb 17 (slot_to_hour t + inject_Z n * (1 # 2)) = false.
Proof.
  intros Ht Hn. apply Qltb_ge.
  pose proof (slot_to_hour_le t Ht) as H.
  assert (Hq : (inject_Z (t + n) <= inject_Z MAX_SLOTS)%Q) by (rewrite <- Zle_Qle; exact Hn).
  rewrite inject_Z_plus in Hq. change (inject_Z MAX_SLOTS) with 14%Q in Hq. lra.
Qed.

(** X1. A slot is valid in a week exactly when its start is one of the fourteen
    slots and each of the [n] slots from there exists and is free.  The end
    of the day is tested by the slot index alone and the break is never met,
    its labels having no index; a duration of zero or less is valid at any
    start, on occupied cells too. *)
Theorem is_valid_slot_iff (s : MeetingScheduler) (w d t n : Z) :
  is_valid_slot s w d t n = true <->
  0 <= t < MAX_SLOTS /\
  forall i, 0 <= i < n ->
            t + i < MAX_SLOTS /\ cell (blocked_slots s) w d (t + i) = false.
Proof.
  unfold is_valid_slot. split.
  - destruct ((t <? 0) || (t >=? MAX_SLOTS) || is_break_slot (str_at TIME_SLOTS t))
      eqn:E1; [discriminate|].
    destruct (Qltb 17 (slot_to_hour t + inject_Z n * (1 # 2))); [discriminate|].
    intros H. split; [lia|]. intros i Hi.
    rewrite forallb_forall in H.
    specialize (H i ltac:(apply list_elem_of_In, elem_of_seqZ; lia)).
    cbv zeta in H. apply negb_true_iff in H.
    apply orb_false_iff in H. destruct H as [H Hc].
    apply orb_false_iff in H. destruct H as [H _]. split; [lia|exact Hc].
  - intros [Ht H].
    assert (E1 : (t <? 0) || (t >=? MAX_SLOTS) || is_break_slot (str_at TIME_SLOTS t)
                 = false).
    { rewrite slot_label_not_break by exact Ht. lia. }
    rewrite E1.
    assert (Hn : t + n <= MAX_SLOTS).
    { destruct (Z_le_gt_dec n 0) as [Hle|Hgt]; [lia|].
      destruct (H (n - 1) ltac:(lia)) as [Hlt _]. lia. }
    rewrite end_hour_le by assumption.
    apply forallb_forall. intros i Hi.
    apply list_elem_of_In, elem_of_seqZ in Hi.
    destruct (H i ltac:(lia)) as [Hlt Hc]. cbv zeta.
    rewrite slot_label_not_break by lia. rewrite Hc.
    assert ((t + i >=? MAX_SLOTS) = false) as -> by lia. reflexivity.
Qed.

(** ** When a reservation is accepted *)

Lemma reserve_week_tested (offs : list Z) (g g' : grid) (w d t : Z) :
  reserve_week g w d t offs = (true, g') ->
  Forall (fun j => cell g w d (t + j) = false) offs.
Proof.
  revert g. induction offs as [|j offs IH]; intros g; cbn [reserve_week].
  - constructor.
  - destruct (cell g w d (t + j)) eqn:E; [discriminate|]. intros H.
    constructor; [exact E|].
    eapply Forall_impl; [exact (IH _ H)|]. cbn beta. intros k Hk.
    destruct (cell g w d (t + k)) eqn:Ek; [|reflexivity].
    rewrite (cell_book_mono g w d (t + j) w d (t + k) Ek) in Hk. discriminate.
Qed.

Lemma reserve_weeks_tested (weeks offs : list Z) (g g' : grid) (d t : Z) :
  reserve_weeks g weeks d t offs = (true, g') ->
  Forall (fun w => Forall (fun j => cell g w d (t + j) = false) offs) weeks.
Proof.
  revert g. induction weeks as [|w weeks IH]; intros g; cbn [reserve_weeks].
  - constructor.
  - destruct (reserve_week g w d t offs) as [[|] g1] eqn:E; [|discriminate].
    intros H. constructor; [exact (reserve_week_tested _ _ _ _ _ _ E)|].
    apply reserve_week_true in E. subst g1.
    eapply Forall_impl; [exact (IH _ H)|]. cbn beta. intros w' Hw'.
    eapply Forall_impl; [exact Hw'|]. cbn beta. intros k Hk.
    destruct (cell g w' d (t + k)) eqn:Ek; [|reflexivity].
    rewrite (cell_mark_slots_mono offs g w d t w' d (t + k) Ek) in Hk. discriminate.
Qed.

(** What an accepted call has passed. *)
Lemma reserve_slot_true_valid (s s' : MeetingScheduler) (day start_time : string)
    (duration_minutes : Z) :
  reserve_slot s day start_time duration_minutes = Some (true, s') ->
  find_day_index day <> -1 /\ find_slot_index start_time <> -1 /\
  (duration_minutes = 30 \/ duration_minutes = 60 \/ duration_minutes = 90) /\
  (forall w i, 0 <= w < MAX_WEEKS -> 0 <= i < Z.quot duration_minutes 30 ->
     cell (blocked_slots s) w (find_day_index day) (find_slot_index start_time + i)
     = false).
Proof.
  unfold reserve_slot.
  destruct ((find_day_index day =? -1) || (find_slot_index start_time =? -1)
            || negb (Z.rem duration_minutes 30 =? 0)
            || (duration_minutes <? 30) || (duration_minutes >? 90)) eqn:Hv;
    [discriminate|].
  destruct (_ || is_break_slot start_time); [discriminate|].
  destruct (existsb _ _); [discriminate|].
  destruct (reserve_weeks _ _ _ _ _) as [[|] g] eqn:Hr; [|discriminate].
  intros _.
  repeat (apply orb_false_iff in Hv; destruct Hv as [Hv ?]).
  assert (Hrem : Z.rem duration_minutes 30 = 0)
    by (destruct (Z.rem duration_minutes 30 =? 0) eqn:E; [lia|discriminate]).
  split; [lia|]. split; [lia|]. split.
  - pose proof (Z.quot_rem' duration_minutes 30) as Hq. rewrite Hrem in Hq.
    assert (1 <= Z.quot duration_minutes 30 <= 3) by lia. lia.
  - intros w i Hw Hi. apply reserve_weeks_tested in Hr.
    rewrite Forall_forall in Hr.
    specialize (Hr w ltac:(apply elem_of_seqZ; lia)).
    rewrite Forall_forall in Hr. apply Hr. apply elem_of_seqZ. lia.
Qed.

(** X2. With room in the reservation array, a call is accepted exactly when its
    day and start labels are known, its duration is 30, 60 or 90 minutes, it
    ends within the slots of the day, and every cell it covers is free in
    each of the four weeks. *)
Theorem reserve_slot_accepts_iff (s : MeetingScheduler) (day start_time : string)
    (duration_minutes : Z)
    (Hwf : sched_wf s)
    (Hroom : reservation_count s < MAX_RESERVATIONS) :
  (exists s', reserve_slot s day start_time duration_minutes = Some (true, s')) <->
  find_day_index day <> -1 /\ find_slot_index start_time <> -1 /\
  (duration_minutes = 30 \/ duration_minutes = 60 \/ duration_minutes = 90) /\
  find_slot_index start_time + Z.quot duration_minutes 30 <= MAX_SLOTS /\
  (forall w i, 0 <= w < MAX_WEEKS -> 0 <= i < Z.quot duration_minutes 30 ->
     cell (blocked_slots s) w (find_day_index day) (find_slot_index start_time + i)
     = false).
Proof.
  split.
  - intros [s' H].
    destruct (reserve_slot_true_valid _ _ _ _ _ H) as (Hd & Hs & Hdm & Hfree).
    destruct (reserve_slot_inv _ _ _ _ _ H) as ((_ & _ & Hend & _) & _).
    repeat split; assumption.
  - intros (Hd & Hs & Hdm & Hend & Hfree).
    now apply reserve_slot_accepts.
Qed.

Lemma reserve_slot_accepts_iff_witness :
  (exists s', reserve_slot init_scheduler "Monday" "15:30" 90 = Some (true, s')) <->
  find_day_index "Monday" <> -1 /\ find_slot_index "15:30" <> -1 /\
  (90 = 30 \/ 90 = 60 \/ 90 = 90) /\
  find_slot_index "15:30" + Z.quot 90 30 <= MAX_SLOTS /\
  (forall w i, 0 <= w < MAX_WEEKS -> 0 <= i < Z.quot 90 30 ->
     cell (blocked_slots init_scheduler) w (find_day_index "Monday")
          (find_slot_index "15:30" + i) = false).
Proof.
  apply (reserve_slot_accepts_iff init_scheduler "Monday" "15:30" 90).
  - exact sched_wf_init.
  - reflexivity.
Defined.

(** X3. A call with an unknown day or start label, with a duration other than
    30, 60 or 90 minutes, or that would end after the last slot of the day,
    is refused and leaves the state as it was. *)
Theorem reserve_slot_rejects_invalid (s : MeetingScheduler) (day start_time : string)
    (duration_minutes : Z)
    (Hbad : find_day_index day = -1 \/ find_slot_index start_time = -1 \/
            ~ (duration_minutes = 30 \/ duration_minutes = 60 \/ duration_minutes = 90)
            \/ MAX_SLOTS < find_slot_index start_time + Z.quot duration_minutes 30) :
  reserve_slot s day start_time duration_minutes = Some (false, s).
Proof.
  unfold reserve_slot.
  destruct ((find_day_index day =? -1) || (find_slot_index start_time =? -1)
            || negb (Z.rem duration_minutes 30 =? 0)
            || (duration_minutes <? 30) || (duration_minutes >? 90)) eqn:Hv;
    [reflexivity|].
  repeat (apply orb_false_iff in Hv; destruct Hv as [Hv ?]).
  assert (Hrem : Z.rem duration_minutes 30 = 0)
    by (destruct (Z.rem duration_minutes 30 =? 0) eqn:E; [lia|discriminate]).
  pose proof (Z.quot_rem' duration_minutes 30) as Hq. rewrite Hrem in Hq.
  assert (Hn : 1 <= Z.quot duration_minutes 30 <= 3) by lia.
  destruct Hbad as [Hb|[Hb|[Hb|Hb]]]; try lia.
  destruct (_ || is_break_slot start_time); [reflexivity|].
  destruct (existsb _ _) eqn:Hx; [reflexivity|]. exfalso.
  destruct (find_slot_index_range start_time) as [Hs|Hs]; [lia|].
  assert (Ht : existsb
            (fun i => (find_slot_index start_time + i >=? MAX_SLOTS)
                      || is_break_slot (str_at TIME_SLOTS (find_slot_index start_time + i)))
            (seqZ 0 (Z.quot duration_minutes 30)) = true).
  { apply existsb_exists. exists (MAX_SLOTS - find_slot_index start_time).
    split; [apply list_elem_of_In, elem_of_seqZ; lia|].
    apply orb_true_iff. left. lia. }
  cbv zeta in Hx. congruence.
Qed.

Lemma reserve_slot_rejects_invalid_witness :
  reserve_slot sample_state "Friday" "09:00" 30 = Some (false, sample_state) /\
  reserve_slot sample_state "Monday" "12:00" 30 = Some (false, sample_state) /\
  reserve_slot sample_state "Monday" "09:00" 45 = Some (false, sample_state) /\
  reserve_slot sample_state "Monday" "16:30" 60 = Some (false, sample_state).
Proof.
  split; [|split; [|split]]; apply reserve_slot_rejects_invalid.
  - left. reflexivity.
  - right. left. reflexivity.
  - right. right. left. lia.
  - right. right. right. vm_compute. reflexivity.
Defined.

(** ** A placement is a run of commits on the chosen day and time *)

Lemma is_valid_slot_fits (s : MeetingScheduler) (w d t n : Z) :
  is_valid_slot s w d t n = true -> 0 <= t < MAX_SLOTS /\ t + n <= MAX_SLOTS.
Proof.
  unfold is_valid_slot.
  destruct ((t <? 0) || (t >=? MAX_SLOTS) || is_break_slot (str_at TIME_SLOTS t))
    eqn:E1; [discriminate|].
  destruct (Qltb 17 (slot_to_hour t + inject_Z n * (1 # 2))); [discriminate|].
  intros H. split; [lia|].
  destruct (Z_le_gt_dec n 0) as [Hle|Hgt]; [lia|].
  rewrite forallb_forall in H.
  specialize (H (n - 1) ltac:(apply list_elem_of_In, elem_of_seqZ; lia)).
  cbv zeta in H. apply negb_true_iff in H.
  apply orb_false_iff in H. destruct H as [H _].
  apply orb_false_iff in H. destruct H as [H _]. lia.
Qed.

Lemma qualifies_fits (s : MeetingScheduler) (m : Meeting) (p d t : Z) :
  qualifies s m p d t = true ->
  0 <= t < MAX_SLOTS /\ t + m_duration m <= MAX_SLOTS.
Proof.
  unfold qualifies, pair_valid, count_valid.
  destruct (is_fortnightly m).
  - intros H. apply andb_true_iff in H. destruct H as [H _].
    exact (is_valid_slot_fits _ _ _ _ _ H).
  - intros H. pose proof (occurrences_of_pos m) as Ho.
    destruct (List.filter (fun w => is_valid_slot s w d t (m_duration m))
                (seqZ 0 MAX_WEEKS)) as [|w l] eqn:E;
      [apply Z.leb_le in H; simpl in H; lia|].
    assert (Hin : In w (w :: l)) by now left.
    rewrite <- E in Hin. apply filter_In in Hin. destruct Hin as [_ Hv].
    exact (is_valid_slot_fits _ _ _ _ _ Hv).
Qed.

Lemma scan_weeks_found (s : MeetingScheduler) (asg : list bool) (weeks : list Z)
    (d t dur : Z) (ws : list Z) (week0 week : Z) :
  scan_weeks s asg weeks d t dur ws week0 = (true, week) ->
  In week (map (int_at weeks) ws) /\ flag_at asg week = false /\
  is_valid_slot s week d t dur = true.
Proof.
  intros H. pose proof (scan_weeks_find s asg weeks d t dur ws week0) as Hf.
  cbv zeta in Hf. rewrite H in Hf. cbn [fst snd] in Hf.
  apply find_some in Hf. destruct Hf as [Hin Ha].
  unfold avail in Ha. apply andb_true_iff in Ha. destruct Ha as [Ha Hv].
  apply negb_true_iff in Ha. auto.
Qed.

Lemma find_pair_found (s : MeetingScheduler) (d t dur : Z) :
  let p := find_pair s d t dur (seqZ 0 2) in
  (p = -1 /\
   forall q, q = 0 \/ q = 1 ->
             is_valid_slot s (fortnight_pairs q 0) d t dur
             && is_valid_slot s (fortnight_pairs q 1) d t dur = false) \/
  ((p = 0 \/ p = 1) /\
   is_valid_slot s (fortnight_pairs p 0) d t dur
   && is_valid_slot s (fortnight_pairs p 1) d t dur = true).
Proof.
  change (seqZ 0 2) with [0; 1]. cbn [find_pair]. cbv zeta.
  destruct (is_valid_slot s (fortnight_pairs 0 0) d t dur
            && is_valid_slot s (fortnight_pairs 0 1) d t dur) eqn:E0.
  - right. split; [now left|exact E0].
  - destruct (is_valid_slot s (fortnight_pairs 1 0) d t dur
              && is_valid_slot s (fortnight_pairs 1 1) d t dur) eqn:E1.
    + right. split; [now right|exact E1].
    + left. split; [reflexivity|]. intros q [-> | ->]; assumption.
Qed.

Section Steps.

Context (P : MeetingScheduler -> Prop) (m : Meeting) (d t : Z).

(** What one commit on the day [d] at the time [t] keeps, in a week in
    which the slot is valid. *)
Hypothesis step :
  forall s1 week s2,
    P s1 -> 0 <= week < MAX_WEEKS ->
    is_valid_slot s1 week d t (m_duration m) = true ->
    commit_entry s1 m week d t = Some s2 -> P s2.

Lemma commit_pair_keeps (p : Z) (s s' : MeetingScheduler) :
  p = 0 \/ p = 1 ->
  is_valid_slot s (fortnight_pairs p 0) d t (m_duration m)
  && is_valid_slot s (fortnight_pairs p 1) d t (m_duration m) = true ->
  P s -> commit_pair s m p d t (seqZ 0 2) = Some s' -> P s'.
Proof using step.
  intros Hp Hv Hs. apply andb_true_iff in Hv. destruct Hv as [Hv0 Hv1].
  change (seqZ 0 2) with [0; 1]. cbn [commit_pair].
  destruct (commit_entry s m (fortnight_pairs p 0) d t) as [s1|] eqn:E0;
    [|discriminate].
  destruct (commit_entry s1 m (fortnight_pairs p 1) d t) as [s2|] eqn:E1;
    [|discriminate].
  intros H. injection H as <-.
  assert (Hr : forall i, i = 0 \/ i = 1 -> 0 <= fortnight_pairs p i < MAX_WEEKS).
  { intros i Hi. destruct Hp as [-> | ->], Hi as [-> | ->]; vm_compute;
      (split; [discriminate|reflexivity]). }
  assert (Hs1 : P s1) by (apply (step s (fortnight_pairs p 0)); auto).
  apply (step s1 (fortnight_pairs p 1)); auto.
  rewrite (is_valid_slot_commit_other s s1 m _ d t _ d t _ E0); [exact Hv1|].
  destruct Hp as [-> | ->]; vm_compute; discriminate.
Qed.

Lemma commit_occurrences_keeps (weeks : list Z) (occs : list Z) :
  length weeks = 4%nat -> Forall (fun w => 0 <= w < MAX_WEEKS) weeks ->
  forall s asg r, P s -> commit_occurrences s m asg weeks d t occs = Some r ->
                  P (snd r).
Proof using step.
  intros Hlen Hrange.
  induction occs as [|occ occs IH]; intros s asg r Hs; cbn [commit_occurrences].
  - intros H. now injection H as <-.
  - destruct (scan_weeks s asg weeks d t (m_duration m) (seqZ 0 MAX_WEEKS) (-1))
      as [[|] week] eqn:Escan.
    + destruct (commit_entry s m week d t) as [s1|] eqn:E; [|discriminate].
      apply IH. apply scan_weeks_found in Escan. destruct Escan as (Hin & _ & Hv).
      apply (step s week s1 Hs); [|exact Hv|exact E].
      rewrite (weeks_by_index weeks Hlen) in Hin.
      rewrite Forall_forall in Hrange. apply Hrange. now apply list_elem_of_In.
    + intros H. now injection H as <-.
Qed.

End Steps.

(** [add_meeting] changes the state by commits only, each in one of the four
    weeks, in which the slot is valid when the entry is committed, all on
    the day and at the time chosen by the search, which are a day and a slot
    of the grid where the meeting ends within the day. *)
Lemma add_meeting_keeps (P : MeetingScheduler -> Prop) (s s' : MeetingScheduler)
    (m : Meeting) (rand : nat -> nat) (b : bool) :
  (forall d t s1 week s2,
      0 <= d < MAX_DAYS -> 0 <= t < MAX_SLOTS -> t + m_duration m <= MAX_SLOTS ->
      P s1 -> 0 <= week < MAX_WEEKS ->
      is_valid_slot s1 week d t (m_duration m) = true ->
      commit_entry s1 m week d t = Some s2 -> P s2) ->
  P s -> add_meeting s m rand = Some (b, s') -> P s'.
Proof.
  intros Hstep Hs. unfold add_meeting. cbv zeta.
  destruct (search_chosen s m) as [[Hd Ht]|[p Hin]].
  - rewrite Hd, Ht. cbn [Z.eqb orb]. intros H. now injection H as <- <-.
  - rewrite (search_chosen_range s m p Hin).
    apply in_candidates in Hin. destruct Hin as (_ & Hd & _ & _ & _ & Hq).
    apply day_list_range in Hd. apply qualifies_fits in Hq. destruct Hq as [Ht Hfit].
    set (d := chosen_day (search s m)) in *.
    set (t := chosen_time (search s m)) in *.
    specialize (Hstep d t).
    destruct (String.eqb (m_frequency m) "fortnightly").
    + pose proof (find_pair_found s d t (m_duration m)) as Hp. cbv zeta in Hp.
      destruct Hp as [[Hp _]|[Hp Hv]].
      * rewrite Hp. cbn [Z.eqb]. intros H. now injection H as <- <-.
      * assert (E : (find_pair s d t (m_duration m) (seqZ 0 2) =? -1) = false)
          by lia.
        rewrite E.
        destruct (commit_pair s m _ d t (seqZ 0 2)) as [s1|] eqn:Ec; [|discriminate].
        intros H. injection H as <- <-.
        refine (commit_pair_keeps P m d t _ _ s s1 Hp Hv Hs Ec).
        intros s1' week s2 H1 Hw Hv' Hc.
        exact (Hstep s1' week s2 Hd Ht Hfit H1 Hw Hv' Hc).
    + intros H.
      destruct (week_order_facts _ (shuffle_weeks rand)) as (Hlen & _ & Hrange).
      refine (commit_occurrences_keeps P m d t _ _ _ Hlen Hrange s _ (b, s') Hs H).
      intros s1' week s2 H1 Hw Hv' Hc.
      exact (Hstep s1' week s2 Hd Ht Hfit H1 Hw Hv' Hc).
Qed.

(** ** Occupied cells stay occupied *)

Lemma reserve_week_mono (offs : list Z) (g : grid) (w d t w' d' t' : Z) :
  cell g w' d' t' = true ->
  cell (snd (reserve_week g w d t offs)) w' d' t' = true.
Proof.
  revert g. induction offs as [|j offs IH]; intros g H; cbn [reserve_week].
  - exact H.
  - destruct (cell g w d (t + j)); [exact H|]. apply IH. now apply cell_book_mono.
Qed.

Lemma reserve_weeks_mono (weeks offs : list Z) (g : grid) (d t w' d' t' : Z) :
  cell g w' d' t' = true ->
  cell (snd (reserve_weeks g weeks d t offs)) w' d' t' = true.
Proof.
  revert g. induction weeks as [|w weeks IH]; intros g H; cbn [reserve_weeks].
  - exact H.
  - pose proof (reserve_week_mono offs g w d t w' d' t' H) as H1.
    destruct (reserve_week g w d t offs) as [[|] g1]; cbn [snd] in H1 |- *.
    + now apply IH.
    + exact H1.
Qed.

(** What a call of [reserve_slot], accepted or refused, leaves alone: the
    schedule and the meeting hours; and, when it is refused, the
    reservations and the total hours as well.  The grid may only gain
    occupied cells. *)
Lemma reserve_slot_frame (s s' : MeetingScheduler) (day start_time : string)
    (duration_minutes : Z) (b : bool) :
  reserve_slot s day start_time duration_minutes = Some (b, s') ->
  schedule s' = schedule s /\ meeting_hours s' = meeting_hours s /\
  (b = false -> reservations s' = reservations s /\ total_hours s' = total_hours s) /\
  (forall w d t, cell (blocked_slots s) w d t = true ->
                 cell (blocked_slots s') w d t = true).
Proof.
  unfold reserve_slot.
  destruct (_ || _ || _ || _ || _); [intros H; injection H as <- <-; auto|].
  destruct (_ || _); [intros H; injection H as <- <-; auto|].
  destruct (existsb _ _); [intros H; injection H as <- <-; auto|].
  pose proof (fun w d t =>
    reserve_weeks_mono (seqZ 0 MAX_WEEKS) (seqZ 0 (Z.quot duration_minutes 30))
      (blocked_slots s) (find_day_index day) (find_slot_index start_time) w d t)
    as Hmono.
  destruct (reserve_weeks _ _ _ _ _) as [[|] g]; cbn [snd] in Hmono.
  - destruct (reservation_count s <? MAX_RESERVATIONS); [|discriminate].
    intros H. injection H as <- <-.
    cbn [schedule meeting_hours blocked_slots].
    split; [reflexivity|]. split; [reflexivity|]. split; [discriminate|exact Hmono].
  - intros H. injection H as <- <-. unfold with_blocked.
    cbn [schedule meeting_hours blocked_slots reservations total_hours]. auto.
Qed.

(** X4. No call of [reserve_slot], accepted or refused, frees a cell. *)
Theorem reserve_slot_never_frees (s s' : MeetingScheduler) (day start_time : string)
    (duration_minutes : Z) (b : bool) (w d t : Z)
    (Hcall : reserve_slot s day start_time duration_minutes = Some (b, s'))
    (Hcell : cell (blocked_slots s) w d t = true) :
  cell (blocked_slots s') w d t = true.
Proof.
  destruct (reserve_slot_frame _ _ _ _ _ _ Hcall) as (_ & _ & _ & H). now apply H.
Qed.

Lemma reserve_slot_never_frees_witness :
  cell (blocked_slots
          (default sample_state
             (snd <$> reserve_slot sample_state "Wednesday" "09:00" 30))) 1 1 8
  = true.
Proof.
  apply (reserve_slot_never_frees sample_state _ "Wednesday" "09:00" 30 true 1 1 8).
  - vm_compute. reflexivity.
  - vm_compute. reflexivity.
Defined.

(** X5. No call of [add_meeting], successful or not, frees a cell. *)
Theorem add_meeting_never_frees (s s' : MeetingScheduler) (m : Meeting)
    (rand : nat -> nat) (b : bool) (w d t : Z)
    (Hcall : add_meeting s m rand = Some (b, s'))
    (Hcell : cell (blocked_slots s) w d t = true) :
  cell (blocked_slots s') w d t = true.
Proof.
  apply (add_meeting_keeps
           (fun s1 => cell (blocked_slots s1) w d t = true) s s' m rand b);
    [|exact Hcell|exact Hcall].
  intros d0 t0 s1 week s2 _ _ _ H1 _ _ Hc.
  apply commit_entry_inv in Hc. destruct Hc as (_ & _ & _ & _ & ->).
  now apply cell_mark_slots_mono.
Qed.

Lemma add_meeting_never_frees_witness :
  cell (blocked_slots
          (default sample_state
             (snd <$> add_meeting sample_state daily_example (fun _ => 0%nat)))) 1 1 8
  = true.
Proof.
  apply (add_meeting_never_frees sample_state _ daily_example (fun _ => 0%nat) true
           1 1 8).
  - vm_compute. reflexivity.
  - vm_compute. reflexivity.
Defined.

(** ** The state as a whole: what every call keeps *)

Lemma meeting_sum_app (sch : list ScheduleEntry) (e : ScheduleEntry) (d : Z) :
  (meeting_sum (sch ++ [e]) d
   == meeting_sum sch d
      + (if e_day e =? d then inject_Z (e_duration e) * (1 # 2) else 0))%Q.
Proof.
  induction sch as [|e0 sch IH]; cbn [meeting_sum app].
  - lra.
  - rewrite IH. lra.
Qed.

Lemma reserved_sum_app (rs : list Reservation) (r : Reservation) (d : Z) :
  (reserved_sum (rs ++ [r]) d
   == reserved_sum rs d
      + (if find_day_index (r_day r) =? d
         then inject_Z (r_duration r) * (1 # 2) * inject_Z MAX_WEEKS else 0))%Q.
Proof.
  induction rs as [|r0 rs IH]; cbn [reserved_sum app].
  - lra.
  - rewrite IH. lra.
Qed.

Lemma offsets_in_day (t n : Z) :
  0 <= t -> t + n <= MAX_SLOTS ->
  Forall (fun j => 0 <= t + j < MAX_SLOTS) (seqZ 0 n).
Proof.
  intros Ht Hn. apply Forall_forall. intros j Hj. apply elem_of_seqZ in Hj. lia.
Qed.

Lemma existsb_offset (t n i : Z) :
  0 <= i < n -> existsb (fun j => t + i =? t + j) (seqZ 0 n) = true.
Proof.
  intros Hi. apply existsb_exists. exists i. split.
  - apply list_elem_of_In, elem_of_seqZ. lia.
  - apply Z.eqb_refl.
Qed.

Lemma consistent_init : consistent init_scheduler.
Proof.
  split; [apply sched_wf_init|]. cbn [init_scheduler schedule reservations].
  repeat (split; [apply Forall_nil_2|]).
  intros d Hd. cbn [init_scheduler schedule reservations total_hours meeting_hours
                    meeting_sum reserved_sum].
  unfold MAX_DAYS in Hd.
  assert (Hc : d = 0 \/ d = 1 \/ d = 2 \/ d = 3) by lia.
  destruct Hc as [->|[->|[->| ->]]]; vm_compute; auto.
Qed.

Lemma consistent_commit_entry (s s' : MeetingScheduler) (m : Meeting) (week d t : Z) :
  0 <= d < MAX_DAYS -> 0 <= t < MAX_SLOTS -> t + m_duration m <= MAX_SLOTS ->
  consistent s -> 0 <= week < MAX_WEEKS ->
  commit_entry s m week d t = Some s' -> consistent s'.
Proof.
  intros Hd Ht Hfit (Hwf & Hok & Hbk & Hrok & Hrbk & Hh) Hw Hc.
  pose proof (sched_wf_commit_entry s s' m week d t Hwf Hc) as Hwf'.
  apply commit_entry_inv in Hc. destruct Hc as (Es & Er & Eth & Emh & Eg).
  pose proof Hwf as (Hg & Hlt & Hlm).
  split; [exact Hwf'|]. rewrite Es, Er, Eg.
  split; [|split; [|split; [|split]]].
  - apply Forall_app. split; [exact Hok|].
    apply Forall_cons. split; [|apply Forall_nil_2].
    unfold entry_ok, entry_of. cbn [e_week e_day e_start_time e_duration]. lia.
  - apply Forall_app. split.
    + eapply Forall_impl; [exact Hbk|]. intros e He i Hi.
      apply cell_mark_slots_mono. now apply He.
    + apply Forall_cons. split; [|apply Forall_nil_2].
      intros i Hi. unfold entry_of in Hi |- *.
      cbn [e_week e_day e_start_time e_duration] in Hi |- *.
      rewrite cell_mark_slots;
        [|exact Hg|exact Hw|exact Hd|apply offsets_in_day; lia|lia|lia|lia].
      rewrite !Z.eqb_refl, existsb_offset by exact Hi. apply orb_true_r.
  - exact Hrok.
  - eapply Forall_impl; [exact Hrbk|]. intros r Hr w i Hw' Hi.
    apply cell_mark_slots_mono. now apply Hr.
  - intros d' Hd'. destruct (Hh d' Hd') as [H1 H2].
    rewrite Eth, Emh, Es, Er.
    rewrite !hours_at_add_hours by (unfold MAX_DAYS in *; lia).
    rewrite meeting_sum_app. unfold entry_of. cbn [e_day e_duration].
    rewrite (Z.eqb_sym d d').
    destruct (d' =? d) eqn:E.
    + apply Z.eqb_eq in E. subst d'. split; lra.
    + split; lra.
Qed.

Lemma consistent_add_meeting (s s' : MeetingScheduler) (m : Meeting)
    (rand : nat -> nat) (b : bool) :
  consistent s -> add_meeting s m rand = Some (b, s') -> consistent s'.
Proof.
  intros Hs. apply (add_meeting_keeps consistent); [|exact Hs].
  intros d t s1 week s2 Hd Ht Hfit H1 Hw _.
  now apply consistent_commit_entry.
Qed.

Lemma consistent_reserve_slot (s s' : MeetingScheduler) (day start_time : string)
    (duration_minutes : Z) (b : bool) :
  consistent s -> reserve_slot s day start_time duration_minutes = Some (b, s') ->
  consistent s'.
Proof.
  intros (Hwf & Hok & Hbk & Hrok & Hrbk & Hh) Hc.
  pose proof (sched_wf_reserve_slot s s' day start_time duration_minutes b Hwf Hc)
    as Hwf'.
  destruct (reserve_slot_frame _ _ _ _ _ _ Hc) as (Es & Emh & Efalse & Hmono).
  split; [exact Hwf'|]. rewrite Es.
  split; [exact Hok|].
  split; [eapply Forall_impl; [exact Hbk|]; intros e He i Hi; now apply Hmono, He|].
  destruct b.
  - apply reserve_slot_inv in Hc. cbv zeta in Hc.
    destruct Hc as ((Hd & Ht & Hfit & Hdur) & _ & ->).
    cbn [reservations blocked_slots schedule total_hours meeting_hours] in *.
    pose proof Hwf as (Hg & Hlt & Hlm).
    split; [|split].
    + apply Forall_app. split; [exact Hrok|].
      apply Forall_cons. split; [|apply Forall_nil_2].
      unfold res_ok. cbn [r_day r_start_time r_duration]. lia.
    + apply Forall_app. split.
      * eapply Forall_impl; [exact Hrbk|]. intros r Hr w i Hw Hi.
        now apply Hmono, Hr.
      * apply Forall_cons. split; [|apply Forall_nil_2].
        intros w i Hw Hi. cbn [r_day r_start_time r_duration] in Hi |- *.
        rewrite cell_mark_weeks;
          [|exact Hg| |exact Hd|apply offsets_in_day; lia|lia|lia|lia].
        -- rewrite Z.eqb_refl, existsb_offset by exact Hi.
           assert (Ew : existsb (fun w0 => w =? w0) (seqZ 0 MAX_WEEKS) = true).
           { apply existsb_exists. exists w. split.
             - apply list_elem_of_In, elem_of_seqZ. lia.
             - apply Z.eqb_refl. }
           rewrite Ew. apply orb_true_r.
        -- apply Forall_forall. intros w0 Hw0. apply elem_of_seqZ in Hw0. lia.
    + intros d' Hd'. destruct (Hh d' Hd') as [H1 H2].
      cbn [schedule reservations total_hours meeting_hours].
      rewrite hours_at_add_hours by (unfold MAX_DAYS in *; lia).
      rewrite reserved_sum_app. cbn [r_day r_duration].
      rewrite (Z.eqb_sym (find_day_index day) d').
      destruct (d' =? find_day_index day) eqn:E.
      * apply Z.eqb_eq in E. subst d'. split; lra.
      * split; lra.
  - destruct (Efalse eq_refl) as [Er Eth]. rewrite Er.
    split; [exact Hrok|].
    split; [eapply Forall_impl; [exact Hrbk|]; intros r Hr w i Hw Hi;
            now apply Hmono, Hr|].
    intros d' Hd'. rewrite Eth, Emh, Es, Er. now apply Hh.
Qed.

Lemma reachable_consistent (s : MeetingScheduler) : reachable s -> consistent s.
Proof.
  induction 1 as [|s day st dm b s' _ IH Hc|s m rand b s' _ IH Hc].
  - apply consistent_init.
  - exact (consistent_reserve_slot _ _ _ _ _ _ IH Hc).
  - exact (consistent_add_meeting _ _ _ _ _ IH Hc).
Qed.

Lemma sample_state_reachable : reachable sample_state.
Proof.
  apply (reach_add sample_weekly fortnightly_example (fun _ => 0%nat) true);
    [|vm_compute; reflexivity].
  apply (reach_add sample_reserved weekly_example (fun _ => 5%nat) true);
    [|vm_compute; reflexivity].
  apply (reach_reserve init_scheduler "Tuesday" "14:00" 60 true);
    [apply reach_init|vm_compute; reflexivity].
Qed.

(** X7. In every state the program reaches, each entry of the schedule lies in
    one of the four weeks, on one of the four days, starts at one of the
    fourteen slots and ends within the slots of its day, so not after
    17:00. *)
Theorem reachable_entries_on_grid (s : MeetingScheduler) (e : ScheduleEntry)
    (Hs : reachable s) (He : In e (schedule s)) :
  0 <= e_week e < MAX_WEEKS /\ 0 <= e_day e < MAX_DAYS /\
  0 <= e_start_time e < MAX_SLOTS /\
  e_start_time e + e_duration e <= MAX_SLOTS /\
  (slot_to_hour (e_start_time e) + inject_Z (e_duration e) * (1 # 2) <= 17)%Q.
Proof.
  destruct (reachable_consistent s Hs) as (_ & Hok & _).
  rewrite Forall_forall in Hok.
  destruct (Hok e (proj2 (list_elem_of_In _ _) He)) as (Hw & Hd & Ht & Hfit).
  repeat (split; [assumption|]).
  apply Qltb_ge. now apply end_hour_le.
Qed.

Lemma reachable_entries_on_grid_witness :
  let e := entry_of fortnightly_example 2 0 2 in
  0 <= e_week e < MAX_WEEKS /\ 0 <= e_day e < MAX_DAYS /\
  0 <= e_start_time e < MAX_SLOTS /\
  e_start_time e + e_duration e <= MAX_SLOTS /\
  (slot_to_hour (e_start_time e) + inject_Z (e_duration e) * (1 # 2) <= 17)%Q.
Proof.
  apply (reachable_entries_on_grid sample_state).
  - apply sample_state_reachable.
  - vm_compute. do 5 right. left. reflexivity.
Defined.

(** X8. In every state the program reaches, every slot covered by an entry of the
    schedule is occupied in the grid, in the week and on the day of the
    entry. *)
Theorem reachable_entries_occupied (s : MeetingScheduler) (e : ScheduleEntry) (i : Z)
    (Hs : reachable s) (He : In e (schedule s)) (Hi : 0 <= i < e_duration e) :
  cell (blocked_slots s) (e_week e) (e_day e) (e_start_time e + i) = true.
Proof.
  destruct (reachable_consistent s Hs) as (_ & _ & Hbk & _).
  rewrite Forall_forall in Hbk.
  exact (Hbk e (proj2 (list_elem_of_In _ _) He) i Hi).
Qed.

Lemma reachable_entries_occupied_witness :
  cell (blocked_slots sample_state) 2 0 (2 + 1) = true.
Proof.
  apply (reachable_entries_occupied sample_state (entry_of fortnightly_example 2 0 2) 1).
  - apply sample_state_reachable.
  - vm_compute. do 5 right. left. reflexivity.
  - vm_compute. split; [discriminate|reflexivity].
Defined.

(** X9. In every state the program reaches, every recorded reservation has a
    known day and start label, lasts one to three slots, ends within the
    slots of its day, and every slot it covers is occupied in each of the
    four weeks. *)
Theorem reachable_reservations_occupied (s : MeetingScheduler) (r : Reservation)
    (Hs : reachable s) (Hr : In r (reservations s)) :
  0 <= find_day_index (r_day r) < MAX_DAYS /\
  0 <= find_slot_index (r_start_time r) /\
  1 <= r_duration r <= 3 /\
  find_slot_index (r_start_time r) + r_duration r <= MAX_SLOTS /\
  forall w i, 0 <= w < MAX_WEEKS -> 0 <= i < r_duration r ->
              cell (blocked_slots s) w (find_day_index (r_day r))
                   (find_slot_index (r_start_time r) + i) = true.
Proof.
  destruct (reachable_consistent s Hs) as (_ & _ & _ & Hrok & Hrbk & _).
  rewrite Forall_forall in Hrok, Hrbk.
  pose proof (proj2 (list_elem_of_In _ _) Hr) as Hr'.
  destruct (Hrok r Hr') as (Hd & Ht & Hdur & Hfit).
  repeat (split; [assumption|]). exact (Hrbk r Hr').
Qed.

Lemma reachable_reservations_occupied_witness :
  let r := {| r_day := "Tuesday"; r_start_time := "14:00"; r_duration := 2 |} in
  0 <= find_day_index (r_day r) < MAX_DAYS /\
  0 <= find_slot_index (r_start_time r) /\
  1 <= r_duration r <= 3 /\
  find_slot_index (r_start_time r) + r_duration r <= MAX_SLOTS /\
  forall w i, 0 <= w < MAX_WEEKS -> 0 <= i < r_duration r ->
              cell (blocked_slots sample_state) w (find_day_index (r_day r))
                   (find_slot_index (r_start_time r) + i) = true.
Proof.
  apply (reachable_reservations_occupied sample_state).
  - apply sample_state_reachable.
  - vm_compute. left. reflexivity.
Defined.

(** X10. In every state the program reaches, the hours kept per day are the sums
    they stand for: [meeting_hours] of a day is half an hour per slot of the
    entries of that day, and [total_hours] adds, for each reservation of
    that day, half an hour per slot times the four weeks. *)
Theorem reachable_hours (s : MeetingScheduler) (d : Z)
    (Hs : reachable s) (Hd : 0 <= d < MAX_DAYS) :
  (hours_at (meeting_hours s) d == meeting_sum (schedule s) d)%Q /\
  (hours_at (total_hours s) d
   == meeting_sum (schedule s) d + reserved_sum (reservations s) d)%Q.
Proof.
  destruct (reachable_consistent s Hs) as (_ & _ & _ & _ & _ & Hh).
  destruct (Hh d Hd) as [H1 H2]. split; assumption.
Qed.

Lemma reachable_hours_witness :
  (hours_at (meeting_hours sample_state) 0 == meeting_sum (schedule sample_state) 0)%Q /\
  (hours_at (total_hours sample_state) 1
   == meeting_sum (schedule sample_state) 1
      + reserved_sum (reservations sample_state) 1)%Q.
Proof.
  split.
  - apply (reachable_hours sample_state 0);
      [apply sample_state_reachable|vm_compute; split; [discriminate|reflexivity]].
  - apply (reachable_hours sample_state 1);
      [apply sample_state_reachable|vm_compute; split; [discriminate|reflexivity]].
Defined.

(** ** Requests of no duration *)

(** X14. A request whose duration is zero or negative never occupies a cell,
    whether it is placed or not. *)
Theorem add_meeting_no_duration (s s' : MeetingScheduler) (m : Meeting)
    (rand : nat -> nat) (b : bool)
    (Hdur : m_duration m <= 0)
    (Hcall : add_meeting s m rand = Some (b, s')) :
  blocked_slots s' = blocked_slots s.
Proof.
  apply (add_meeting_keeps
           (fun s1 => blocked_slots s1 = blocked_slots s) s s' m rand b);
    [|reflexivity|exact Hcall].
  intros d t s1 week s2 _ _ _ H1 _ _ Hc.
  apply commit_entry_inv in Hc. destruct Hc as (_ & _ & _ & _ & ->).
  rewrite <- H1. unfold mark_slots, seqZ.
  replace (Z.to_nat (m_duration m)) with 0%nat by lia. reflexivity.
Qed.

Lemma add_meeting_no_duration_witness :
  exists s', add_meeting sample_state zero_example (fun _ => 0%nat) = Some (true, s') /\
             length (schedule s') = 10%nat /\
             blocked_slots s' = blocked_slots sample_state.
Proof.
  destruct (add_meeting sample_state zero_example (fun _ => 0%nat))
    as [[b s']|] eqn:E; [|vm_compute in E; discriminate].
  exists s'.
  pose proof (add_meeting_no_duration sample_state s' zero_example (fun _ => 0%nat) b
                ltac:(vm_compute; discriminate) E) as H.
  assert (E' : Some (b, s')
               = add_meeting sample_state zero_example (fun _ => 0%nat))
    by (symmetry; exact E).
  vm_compute in E'. injection E' as -> ->. split; [reflexivity|].
  split; [reflexivity|exact H].
Defined.

(** ** What a placed request gets *)

Lemma find_day_index_label (day : string) :
  find_day_index day <> -1 -> str_at DAYS (find_day_index day) = day.
Proof.
  intros H. unfold str_at, find_day_index in *.
  pose proof (find_index_sound DAYS day 0 ltac:(lia) H) as E.
  rewrite Z.sub_0_r in E. now rewrite E.
Qed.

Lemma is_valid_slot_free (s : MeetingScheduler) (w d t n i : Z) :
  is_valid_slot s w d t n = true -> 0 <= i < n ->
  cell (blocked_slots s) w d (t + i) = false.
Proof.
  unfold is_valid_slot.
  destruct (_ || _ || _); [discriminate|].
  destruct (Qltb 17 _); [discriminate|].
  intros H Hi. rewrite forallb_forall in H.
  specialize (H i ltac:(apply list_elem_of_In, elem_of_seqZ; lia)).
  cbv zeta in H. apply negb_true_iff in H.
  apply orb_false_iff in H. now destruct H as [_ H].
Qed.

(** A successful call appends one entry per occurrence, all on the day and at
    the time chosen by the search, in distinct weeks in which the slot was
    valid before the call. *)
Lemma add_meeting_entries (s s' : MeetingScheduler) (m : Meeting)
    (rand : nat -> nat) :
  add_meeting s m rand = Some (true, s') ->
  let d := chosen_day (search s m) in
  let t := chosen_time (search s m) in
  exists p ws,
    In (p, d, t) (candidates s m) /\
    schedule s' = schedule s ++ map (fun w => entry_of m w d t) ws /\
    length ws = Z.to_nat (occurrences_of m) /\
    NoDup ws /\
    Forall (fun w => 0 <= w < MAX_WEEKS /\
                     is_valid_slot s w d t (m_duration m) = true) ws.
Proof.
  intros H d t.
  destruct (String.eqb (m_frequency m) "fortnightly") eqn:Ef.
  - pose proof (add_meeting_fortnightly s m rand (true, s') Ef H) as Hf.
    cbv zeta in Hf. cbn [fst snd] in Hf.
    destruct Hf as [[p' Hin] (p & Hp & Hv & _ & Hs)].
    exists p', [fortnight_pairs p 0; fortnight_pairs p 1].
    split; [exact Hin|]. split; [exact Hs|].
    rewrite (fortnightly_occurrences m Ef).
    unfold pair_valid in Hv. apply andb_true_iff in Hv. destruct Hv as [Hv0 Hv1].
    split; [reflexivity|].
    split.
    + destruct Hp as [-> | ->]; vm_compute; repeat constructor;
        rewrite ?list_elem_of_In; cbn [In]; intros Hx; intuition discriminate.
    + apply Forall_cons. split.
      * split; [|exact Hv0].
        destruct Hp as [-> | ->]; vm_compute; (split; [discriminate|reflexivity]).
      * apply Forall_cons. split; [|apply Forall_nil_2].
        split; [|exact Hv1].
        destruct Hp as [-> | ->]; vm_compute; (split; [discriminate|reflexivity]).
  - pose proof (add_meeting_other s m rand (true, s') Ef H) as Ho.
    cbv zeta in Ho. cbn [fst snd] in Ho.
    destruct Ho as ([p Hin] & Hlen & Hs).
    destruct (week_order_facts _ (shuffle_weeks rand)) as (_ & Hnd & Hrange).
    fold (shuffled_weeks rand) in Hnd, Hrange.
    set (u := List.filter
                (fun w => is_valid_slot s w (chosen_day (search s m))
                            (chosen_time (search s m)) (m_duration m))
                (shuffled_weeks rand)) in *.
    exists p, (take (Z.to_nat (occurrences_of m)) u).
    split; [exact Hin|]. split; [exact Hs|].
    split; [rewrite length_take; lia|].
    assert (Hu : forall w, w ∈ take (Z.to_nat (occurrences_of m)) u ->
                           w ∈ shuffled_weeks rand /\
                           is_valid_slot s w d t (m_duration m) = true).
    { intros w Hw. apply elem_of_take in Hw. destruct Hw as (i & Hw & _).
      apply list_elem_of_lookup_2 in Hw. apply list_elem_of_In in Hw.
      unfold u in Hw. apply filter_In in Hw. destruct Hw as [Hw Hv].
      split; [now apply list_elem_of_In|exact Hv]. }
    split.
    + eapply sublist_NoDup; [exact Hnd|].
      transitivity u; [apply sublist_take|].
      unfold u. clear. induction (shuffled_weeks rand) as [|w l IH]; cbn [List.filter].
      * constructor.
      * destruct (is_valid_slot _ _ _ _ _); [now apply sublist_skip|now apply sublist_cons].
    + apply Forall_forall. intros w Hw. destruct (Hu w Hw) as [Hw' Hv].
      split; [|exact Hv]. rewrite Forall_forall in Hrange. now apply Hrange.
Qed.

Lemma new_entries_app (s s' : MeetingScheduler) (l : list ScheduleEntry) :
  schedule s' = schedule s ++ l -> new_entries s s' = l.
Proof. intros H. unfold new_entries. rewrite H. apply drop_app_length. Qed.

(** X11. A meeting is never placed over an occupied cell: every slot covered by an
    entry that a successful call appends was free before the call. *)
Theorem add_meeting_takes_free_cells (s s' : MeetingScheduler) (m : Meeting)
    (rand : nat -> nat) (e : ScheduleEntry) (i : Z)
    (Hcall : add_meeting s m rand = Some (true, s'))
    (He : In e (new_entries s s'))
    (Hi : 0 <= i < e_duration e) :
  cell (blocked_slots s) (e_week e) (e_day e) (e_start_time e + i) = false.
Proof.
  destruct (add_meeting_entries s s' m rand Hcall) as (p & ws & _ & Hs & _ & _ & Hv).
  rewrite (new_entries_app s s' _ Hs) in He.
  apply in_map_iff in He. destruct He as (w & <- & Hw).
  rewrite Forall_forall in Hv.
  destruct (Hv w (proj2 (list_elem_of_In _ _) Hw)) as [_ Hvw].
  cbn [entry_of e_week e_day e_start_time e_duration] in Hi |- *.
  exact (is_valid_slot_free s w _ _ _ i Hvw Hi).
Qed.

Lemma add_meeting_takes_free_cells_witness :
  cell (blocked_slots sample_weekly) 2 0 (2 + 1) = false.
Proof.
  apply (add_meeting_takes_free_cells sample_weekly sample_state fortnightly_example
           (fun _ => 0%nat) (entry_of fortnightly_example 2 0 2) 1).
  - vm_compute. reflexivity.
  - vm_compute. right. left. reflexivity.
  - vm_compute. split; [discriminate|reflexivity].
Defined.

(** X12. A placed request is placed as asked: every entry a successful call
    appends carries the name, type, duration and frequency of the request;
    it is on the fixed day when the request fixes a day the program knows,
    at the fixed time when it fixes a time the program knows, and otherwise,
    when the first preferred time is set, at one of the preferred times
    that come before the first unset one. *)
Theorem add_meeting_as_requested (s s' : MeetingScheduler) (m : Meeting)
    (rand : nat -> nat) (e : ScheduleEntry)
    (Hcall : add_meeting s m rand = Some (true, s'))
    (He : In e (new_entries s s')) :
  (e_name e = m_name m /\ e_type e = m_type m /\
   e_duration e = m_duration m /\ e_frequency e = m_frequency m) /\
  (0 <= fixed_day_idx_of m -> str_at DAYS (e_day e) = m_fixed_day m) /\
  (0 <= fixed_time_idx_of m -> str_at TIME_SLOTS (e_start_time e) = m_fixed_time m) /\
  (fixed_time_idx_of m < 0 -> 0 <= int_at (m_preferred_hours m) 0 ->
   In (e_start_time e) (leading_nonneg (take 8 (m_preferred_hours m)))).
Proof.
  destruct (add_meeting_entries s s' m rand Hcall) as (p & ws & Hin & Hs & _).
  rewrite (new_entries_app s s' _ Hs) in He.
  apply in_map_iff in He. destruct He as (w & <- & Hw).
  cbn [entry_of e_name e_type e_duration e_frequency e_day e_start_time].
  split; [repeat split|].
  apply in_candidates in Hin. destruct Hin as (_ & Hd & _ & Ht & _).
  unfold day_list in Hd. unfold time_list in Ht.
  split; [|split].
  - intros Hf. assert (E : (fixed_day_idx_of m >=? 0) = true) by lia.
    rewrite E in Hd. destruct Hd as [<-|[]].
    unfold fixed_day_idx_of in *.
    destruct (m_fixed_day m) as [|c l] eqn:El; [lia|].
    apply find_day_index_label. lia.
  - intros Hf. assert (E : (fixed_time_idx_of m >=? 0) = true) by lia.
    rewrite E in Ht. destruct Ht as [<-|[]].
    unfold fixed_time_idx_of in *.
    destruct (m_fixed_time m) as [|c l] eqn:El; [lia|].
    apply find_slot_index_label. lia.
  - intros Hf Hp. assert (E : (fixed_time_idx_of m >=? 0) = false) by lia.
    assert (E' : (int_at (m_preferred_hours m) 0 >=? 0) = true) by lia.
    rewrite E, E' in Ht. exact Ht.
Qed.

Lemma add_meeting_as_requested_witness :
  let e := entry_of fortnightly_example 2 0 2 in
  str_at DAYS (e_day e) = "Monday" /\ str_at TIME_SLOTS (e_start_time e) = "10:00".
Proof.
  destruct (add_meeting_as_requested sample_weekly sample_state fortnightly_example
              (fun _ => 0%nat) (entry_of fortnightly_example 2 0 2)
              ltac:(vm_compute; reflexivity)
              ltac:(vm_compute; right; left; reflexivity))
    as (_ & Hd & Ht & _).
  split; [apply Hd|apply Ht]; vm_compute; discriminate.
Defined.

(** When the search has chosen a candidate, the call does not return false. *)
Lemma add_meeting_succeeds (s s' : MeetingScheduler) (m : Meeting)
    (rand : nat -> nat) (b : bool) (p : Z) :
  In (p, chosen_day (search s m), chosen_time (search s m)) (candidates s m) ->
  add_meeting s m rand = Some (b, s') -> b = true.
Proof.
  intros Hin Hcall. destruct b; [reflexivity|]. exfalso.
  pose proof (search_chosen_range s m _ Hin) as Hr.
  destruct (String.eqb (m_frequency m) "fortnightly") eqn:Ef.
  - unfold add_meeting in Hcall. cbv zeta in Hcall. rewrite Hr, Ef in Hcall.
    pose proof (find_pair_found s (chosen_day (search s m))
                  (chosen_time (search s m)) (m_duration m)) as Hp.
    cbv zeta in Hp. destruct Hp as [[_ Hnone]|[Hp _]].
    + apply in_candidates in Hin. destruct Hin as (Hpin & _ & _ & _ & _ & Hq).
      unfold qualifies, is_fortnightly in Hq. rewrite Ef in Hq.
      unfold pair_valid in Hq. rewrite Hnone in Hq; [discriminate|].
      unfold max_pairs_of in Hpin. rewrite Ef in Hpin.
      apply list_elem_of_In, elem_of_seqZ in Hpin. lia.
    + assert (E : (find_pair s (chosen_day (search s m))
                     (chosen_time (search s m)) (m_duration m) (seqZ 0 2) =? -1)
                  = false) by lia.
      rewrite E in Hcall.
      destruct (commit_pair _ _ _ _ _ _); discriminate.
  - pose proof (add_meeting_other s m rand (false, s') Ef Hcall) as Ho.
    cbv zeta in Ho. cbn [fst] in Ho. destruct Ho as (_ & Hd & _).
    rewrite Hd in Hr. discriminate.
Qed.

(** The search chooses a candidate exactly when one has hours below the
    initial bound 1e9. *)
Lemma search_finds (s : MeetingScheduler) (m : Meeting) :
  (chosen_day (search s m) = -1 /\
   Forall (fun c => (1000000000 <= metric s m (cand_day c))%Q) (candidates s m)) \/
  ((exists p, In (p, chosen_day (search s m), chosen_time (search s m))
                (candidates s m)) /\
   Exists (fun c => (metric s m (cand_day c) < 1000000000)%Q) (candidates s m)).
Proof.
  destruct (search_selects s m) as [(Hd & Ht & _ & Hall)|Hsel].
  - left. now split.
  - destruct Hsel as (pre & c & post & Ecs & Ed & Et & _ & Hlt & _).
    assert (Hc : In c (candidates s m))
      by (rewrite Ecs; apply in_or_app; right; now left).
    right. split.
    + exists (cand_pair c). rewrite Ed, Et. destruct c as [[p d] t]. exact Hc.
    + apply Exists_exists. exists c. split; [now apply list_elem_of_In|exact Hlt].
Qed.

(** X13. A call of [add_meeting] fails exactly when the search has no candidate
    with hours below the initial bound 1e9: no day that passes the load cap
    with a time, among those the request allows, that is valid in enough
    weeks. *)
Theorem add_meeting_fails_iff (s s' : MeetingScheduler) (m : Meeting)
    (rand : nat -> nat) (b : bool)
    (Hcall : add_meeting s m rand = Some (b, s')) :
  b = false <->
  Forall (fun c => (1000000000 <= metric s m (cand_day c))%Q) (candidates s m).
Proof.
  destruct (search_finds s m) as [[Hd Hall]|[[p Hin] Hex]].
  - split; [intros _; exact Hall|intros _].
    unfold add_meeting in Hcall. cbv zeta in Hcall. rewrite Hd in Hcall.
    cbn [Z.eqb orb] in Hcall. now injection Hcall as <- _.
  - rewrite (add_meeting_succeeds s s' m rand b p Hin Hcall).
    split; [discriminate|]. intros Hall. exfalso.
    apply Exists_exists in Hex. destruct Hex as (c & Hc & Hlt).
    rewrite Forall_forall in Hall. specialize (Hall c Hc). cbv beta in Hall. lra.
Qed.

Lemma add_meeting_fails_iff_witness :
  Forall (fun c => (1000000000 <= metric sample_state monthly_example (cand_day c))%Q)
    (candidates sample_state monthly_example).
Proof.
  apply (proj1 (add_meeting_fails_iff sample_state sample_state monthly_example
                  (fun _ => 0%nat) false ltac:(vm_compute; reflexivity))).
  reflexivity.
Defined.

(** ** Fixed labels that the program does not know *)

Section Congruence.

Context (m m' : Meeting).

Hypothesis same_name : m_name m = m_name m'.
Hypothesis same_type : m_type m = m_type m'.
Hypothesis same_duration : m_duration m = m_duration m'.
Hypothesis same_preferred : m_preferred_hours m = m_preferred_hours m'.
Hypothesis same_day : fixed_day_idx_of m = fixed_day_idx_of m'.
Hypothesis same_time : fixed_time_idx_of m = fixed_time_idx_of m'.
Hypothesis same_frequency : m_frequency m = m_frequency m'.

Lemma search_same (s : MeetingScheduler) : search s m = search s m'.
Proof using same_duration same_preferred same_day same_time same_frequency.
  unfold search, try_pair, try_day, try_time, max_pairs_of, occurrences_of.
  rewrite same_duration, same_preferred, same_day, same_time, same_frequency.
  reflexivity.
Qed.

Lemma commit_entry_same (s : MeetingScheduler) (week d t : Z) :
  commit_entry s m week d t = commit_entry s m' week d t.
Proof using same_name same_type same_duration same_frequency.
  unfold commit_entry, entry_of.
  rewrite same_name, same_type, same_duration, same_frequency. reflexivity.
Qed.

Lemma commit_pair_same (p d t : Z) (ixs : list Z) (s : MeetingScheduler) :
  commit_pair s m p d t ixs = commit_pair s m' p d t ixs.
Proof using same_name same_type same_duration same_frequency.
  revert s. induction ixs as [|i ixs IH]; intros s; cbn [commit_pair]; [reflexivity|].
  rewrite commit_entry_same. destruct (commit_entry s m' _ d t); [apply IH|reflexivity].
Qed.

Lemma commit_occurrences_same (weeks : list Z) (d t : Z) (occs : list Z)
    (s : MeetingScheduler) (asg : list bool) :
  commit_occurrences s m asg weeks d t occs
  = commit_occurrences s m' asg weeks d t occs.
Proof using same_name same_type same_duration same_frequency.
  revert s asg. induction occs as [|o occs IH]; intros s asg;
    cbn [commit_occurrences]; [reflexivity|].
  rewrite same_duration.
  destruct (scan_weeks s asg weeks d t (m_duration m') (seqZ 0 MAX_WEEKS) (-1))
    as [[|] week]; [|reflexivity].
  rewrite commit_entry_same. destruct (commit_entry s m' week d t); [apply IH|reflexivity].
Qed.

(** [add_meeting] reads the fixed day and the fixed time of a request only
    through their indices. *)
Lemma add_meeting_same (s : MeetingScheduler) (rand : nat -> nat) :
  add_meeting s m rand = add_meeting s m' rand.
Proof using same_name same_type same_duration same_preferred same_day same_time
  same_frequency.
  unfold add_meeting. cbv zeta.
  rewrite search_same, commit_pair_same, commit_occurrences_same.
  unfold occurrences_of. rewrite same_duration, same_frequency. reflexivity.
Qed.

End Congruence.

(** X15. A fixed day that is none of the four day labels is ignored: the request
    is handled as the same request with no fixed day.  Likewise a fixed time
    that is none of the fourteen slot labels (a time of the lunch break,
    12:00 or 12:30, is none of them) is ignored. *)
Theorem unknown_fixed_label_ignored (s : MeetingScheduler) (m : Meeting)
    (rand : nat -> nat) :
  (find_day_index (m_fixed_day m) = -1 ->
   add_meeting s m rand = add_meeting s (with_fixed m "" (m_fixed_time m)) rand) /\
  (find_slot_index (m_fixed_time m) = -1 ->
   add_meeting s m rand = add_meeting s (with_fixed m (m_fixed_day m) "") rand).
Proof.
  split; intros H; apply add_meeting_same; try reflexivity.
  - unfold fixed_day_idx_of, with_fixed. cbn [m_fixed_day].
    destruct (m_fixed_day m); [reflexivity|exact H].
  - unfold fixed_time_idx_of, with_fixed. cbn [m_fixed_time].
    destruct (m_fixed_time m); [reflexivity|exact H].
Qed.

Lemma unknown_fixed_label_ignored_witness :
  add_meeting sample_state (with_fixed daily_example "Friday" "12:00") (fun _ => 0%nat)
  = add_meeting sample_state (with_fixed daily_example "Friday" "") (fun _ => 0%nat).
Proof.
  apply (proj2 (unknown_fixed_label_ignored sample_state
                  (with_fixed daily_example "Friday" "12:00") (fun _ => 0%nat))).
  reflexivity.
Defined.

(** ** The end time shown for an entry *)

(** X18. For a start slot and a duration that stay within the slots of a day, the
    end time printed is a label HH:MM that reads as the hour of the start
    slot plus half an hour per slot. *)
Theorem compute_end_time_reads (start_idx duration_slots : Z)
    (Hstart : 0 <= start_idx < MAX_SLOTS)
    (Hdur : 0 <= duration_slots)
    (Hfit : start_idx + duration_slots <= MAX_SLOTS) :
  exists q, clock_hour (compute_end_time start_idx duration_slots) = Some q /\
            (q == slot_to_hour start_idx + inject_Z duration_slots * (1 # 2))%Q.
Proof.
  set (check := fun st du =>
         if st + du <=? MAX_SLOTS then
           match clock_hour (compute_end_time st du) with
           | Some q => Qeq_bool q (slot_to_hour st + inject_Z du * (1 # 2))
           | None => false
           end
         else true).
  assert (Hall : forallb (fun st => forallb (check st) (seqZ 0 (MAX_SLOTS + 1)))
                   (seqZ 0 MAX_SLOTS) = true) by (vm_compute; reflexivity).
  rewrite forallb_forall in Hall.
  specialize (Hall start_idx ltac:(apply list_elem_of_In, elem_of_seqZ; lia)).
  rewrite forallb_forall in Hall.
  specialize (Hall duration_slots ltac:(apply list_elem_of_In, elem_of_seqZ; lia)).
  unfold check in Hall.
  assert (E : (start_idx + duration_slots <=? MAX_SLOTS) = true) by lia.
  rewrite E in Hall.
  destruct (clock_hour (compute_end_time start_idx duration_slots)) as [q|];
    [|discriminate].
  exists q. split; [reflexivity|]. now apply Qeq_bool_iff.
Qed.

Lemma compute_end_time_reads_witness :
  compute_end_time 9 3 = "16:00" /\
  exists q, clock_hour (compute_end_time 9 3) = Some q /\
            (q == slot_to_hour 9 + inject_Z 3 * (1 # 2))%Q.
Proof.
  split; [reflexivity|].
  apply (compute_end_time_reads 9 3); vm_compute; try discriminate.
  split; [discriminate|reflexivity].
Defined.

(** X19. The end time printed counts the slots as consecutive half hours, but the
    slot after 11:30 is 13:00: for an entry that begins before the lunch
    break and runs past it, the end time printed is one hour before the end
    of the last slot the entry occupies; for every other entry of at least
    one slot it is the end of its last slot. *)
Theorem compute_end_time_across_break (start_idx duration_slots : Z)
    (Hstart : 0 <= start_idx < MAX_SLOTS)
    (Hdur : 1 <= duration_slots)
    (Hfit : start_idx + duration_slots <= MAX_SLOTS) :
  exists q, clock_hour (compute_end_time start_idx duration_slots) = Some q /\
            (q + (if (start_idx <? 6) && (6 <? start_idx + duration_slots)
                  then 1 else 0)
             == slot_to_hour (start_idx + duration_slots - 1) + (1 # 2))%Q.
Proof.
  set (check := fun st du =>
         if st + du <=? MAX_SLOTS then
           match clock_hour (compute_end_time st du) with
           | Some q =>
               Qeq_bool (q + (if (st <? 6) && (6 <? st + du) then 1 else 0))
                 (slot_to_hour (st + du - 1) + (1 # 2))
           | None => false
           end
         else true).
  assert (Hall : forallb (fun st => forallb (check st) (seqZ 1 MAX_SLOTS))
                   (seqZ 0 MAX_SLOTS) = true) by (vm_compute; reflexivity).
  rewrite forallb_forall in Hall.
  specialize (Hall start_idx ltac:(apply list_elem_of_In, elem_of_seqZ; lia)).
  rewrite forallb_forall in Hall.
  specialize (Hall duration_slots ltac:(apply list_elem_of_In, elem_of_seqZ; lia)).
  unfold check in Hall.
  assert (E : (start_idx + duration_slots <=? MAX_SLOTS) = true) by lia.
  rewrite E in Hall.
  destruct (clock_hour (compute_end_time start_idx duration_slots)) as [q|];
    [|discriminate].
  exists q. split; [reflexivity|]. now apply Qeq_bool_iff.
Qed.

Lemma compute_end_time_across_break_witness :
  compute_end_time 5 2 = "12:30" /\ str_at TIME_SLOTS (5 + 2 - 1) = "13:00" /\
  exists q, clock_hour (compute_end_time 5 2) = Some q /\
            (q + 1 == slot_to_hour (5 + 2 - 1) + (1 # 2))%Q.
Proof.
  split; [reflexivity|]. split; [reflexivity|].
  apply (compute_end_time_across_break 5 2); vm_compute; try discriminate.
  split; [discriminate|reflexivity].
Defined.

(** ** The shuffle of the weeks *)

(** X17. Whatever [rand ()] returns, the shuffle leaves a permutation of the four
    weeks; and every order of the four weeks is the result of the shuffle for
    some values of [rand ()]. *)
Theorem shuffle_gives_every_order :
  (forall rand, shuffled_weeks rand ≡ₚ seqZ 0 MAX_WEEKS) /\
  (forall l, l ≡ₚ seqZ 0 MAX_WEEKS -> exists rand, shuffled_weeks rand = l).
Proof.
  split.
  - intros rand. exact (shuffle_weeks rand).
  - intros l Hl.
    assert (Hin : l ∈ permutations (seqZ 0 MAX_WEEKS))
      by now apply permutations_Permutation.
    set (draws := a ← seq 0 4; b ← seq 0 3; c ← seq 0 2; [rand3 a b c]).
    assert (Hall : forallb
                     (fun l => existsb
                                 (fun r => bool_decide (shuffled_weeks r = l)) draws)
                     (permutations (seqZ 0 MAX_WEEKS)) = true)
      by (vm_compute; reflexivity).
    rewrite forallb_forall in Hall.
    specialize (Hall l (proj1 (list_elem_of_In _ _) Hin)).
    apply existsb_exists in Hall. destruct Hall as (r & _ & Hr).
    exists r. exact (bool_decide_eq_true_1 _ Hr).
Qed.

(** ** The earlier copy of [add_meeting] against the later one *)

Lemma selects_repeat (s : MeetingScheduler) (m : Meeting) (cs : list cand) (b : best) :
  selects s m cs b -> selects s m (cs ++ cs) b.
Proof.
  intros [(Hd & Ht & Hm & Hall)|(pre & c & post & Ecs & Hd & Ht & Hm & Hlt & Hpre & Hpost)].
  - left. repeat split; try assumption. apply Forall_app. now split.
  - right. exists pre, c, (post ++ cs). repeat split; try assumption.
    + rewrite Ecs at 1. now rewrite <- app_assoc.
    + apply Forall_app. split; [exact Hpost|]. rewrite Ecs.
      apply Forall_app. split.
      * eapply Forall_impl; [exact Hpre|]. cbn beta. intros c' Hc'. lra.
      * apply Forall_cons. split; [lra|exact Hpost].
Qed.

Lemma selects_unique (s : MeetingScheduler) (m : Meeting) (cs : list cand)
    (b b' : best) :
  selects s m cs b -> selects s m cs b' ->
  chosen_day b = chosen_day b' /\ chosen_time b = chosen_time b'.
Proof.
  intros [(Hd & Ht & _ & Hall)|(pre & c & post & Ecs & Hd & Ht & _ & Hlt & Hpre & Hpost)]
         [(Hd' & Ht' & _ & Hall')
         |(pre' & c' & post' & Ecs' & Hd' & Ht' & _ & Hlt' & Hpre' & Hpost')].
  - split; congruence.
  - exfalso. rewrite Forall_forall in Hall.
    assert (Hc : c' ∈ cs) by (rewrite Ecs'; apply list_elem_of_In, in_or_app; right; now left).
    specialize (Hall c' Hc). cbv beta in Hall. lra.
  - exfalso. rewrite Forall_forall in Hall'.
    assert (Hc : c ∈ cs) by (rewrite Ecs; apply list_elem_of_In, in_or_app; right; now left).
    specialize (Hall' c Hc). cbv beta in Hall'. lra.
  - rewrite Hd, Ht, Hd', Ht'.
    assert (E : c = c'); [|now rewrite E].
    rewrite Ecs in Ecs'. rewrite Forall_forall in Hpre, Hpost, Hpre', Hpost'.
    destruct (Nat.lt_trichotomy (length pre) (length pre')) as [Hl|[Hl|Hl]].
    + exfalso.
      assert (H1 : c ∈ pre').
      { apply (list_elem_of_lookup_2 _ (length pre)).
        rewrite <- (lookup_app_l pre' (c' :: post')) by exact Hl.
        rewrite <- Ecs'. now rewrite list_lookup_middle. }
      assert (H2 : c' ∈ post).
      { assert (H3 : (pre ++ c :: post) !! length pre' = Some c')
          by (rewrite Ecs'; now rewrite list_lookup_middle).
        rewrite lookup_app_r in H3 by lia.
        destruct (length pre' - length pre)%nat as [|k] eqn:Ek; [lia|].
        cbn in H3. now apply list_elem_of_lookup_2 in H3. }
      specialize (Hpre' c H1). specialize (Hpost c' H2). cbv beta in *. lra.
    + assert (H3 : (pre ++ c :: post) !! length pre = Some c')
        by (rewrite Ecs', Hl; now rewrite list_lookup_middle).
      rewrite list_lookup_middle in H3 by reflexivity. congruence.
    + exfalso.
      assert (H1 : c' ∈ pre).
      { apply (list_elem_of_lookup_2 _ (length pre')).
        rewrite <- (lookup_app_l pre (c :: post)) by exact Hl.
        rewrite Ecs'. now rewrite list_lookup_middle. }
      assert (H2 : c ∈ post').
      { assert (H3 : (pre' ++ c' :: post') !! length pre = Some c)
          by (rewrite <- Ecs'; now rewrite list_lookup_middle).
        rewrite lookup_app_r in H3 by lia.
        destruct (length pre - length pre')%nat as [|k] eqn:Ek; [lia|].
        cbn in H3. now apply list_elem_of_lookup_2 in H3. }
      specialize (Hpre c' H1). specialize (Hpost' c H2). cbv beta in *. lra.
Qed.

Lemma fold_left_ext' {A B : Type} (f g : A -> B -> A) (l : list B) (a : A) :
  (forall a x, f a x = g a x) -> fold_left f l a = fold_left g l a.
Proof.
  intros H. revert a. induction l as [|x l IH]; intros a; simpl; [reflexivity|].
  now rewrite H, IH.
Qed.

Section Earlier.

Context (s : MeetingScheduler) (m : Meeting).

Hypothesis not_fortnightly : String.eqb (m_frequency m) "fortnightly" = false.

Lemma legacy_try_time (asg : list bool) (day_idx : Z) (b : best) (t : Z) :
  Legacy.try_time s m asg day_idx b t = try_time s m asg 0 day_idx b t.
Proof using not_fortnightly.
  unfold Legacy.try_time, try_time. rewrite not_fortnightly. reflexivity.
Qed.

Lemma legacy_try_day (asg : list bool) (day_order : list Z) (b : best) (d : Z) :
  Legacy.try_day s m asg day_order b d = try_day s m asg day_order 0 b d.
Proof using not_fortnightly.
  unfold Legacy.try_day, try_day. cbv zeta.
  destruct (Qltb _ _); [reflexivity|].
  apply fold_left_ext'. intros b' t. apply legacy_try_time.
Qed.

(** One pass of the loop over [w] of the earlier search is the one pass of
    the later search. *)
Lemma legacy_pass (asg : list bool) (day_order : list Z) (b : best) :
  let fixed_day_idx := fixed_day_idx_of m in
  let day_start := if fixed_day_idx >=? 0 then fixed_day_idx else 0 in
  let day_end := if fixed_day_idx >=? 0 then fixed_day_idx + 1 else MAX_DAYS in
  fold_left (Legacy.try_day s m asg day_order) (seqZ 0 (day_end - day_start)) b
  = try_pair s m asg day_order b 0.
Proof using not_fortnightly.
  cbv zeta. unfold try_pair.
  rewrite (fold_left_ext' _ _ _ _ (legacy_try_day asg day_order)).
  destruct (fixed_day_idx_of m >=? 0) eqn:Ef; [|reflexivity].
  replace (fixed_day_idx_of m + 1 - fixed_day_idx_of m) with 1 by lia.
  change (seqZ 0 1) with [0].
  change (seqZ (fixed_day_idx_of m) 1) with [fixed_day_idx_of m]. cbn [fold_left].
  unfold try_day. rewrite Ef. reflexivity.
Qed.

Lemma legacy_search_chosen :
  chosen_day (Legacy.search s m) = chosen_day (search s m) /\
  chosen_time (Legacy.search s m) = chosen_time (search s m).
Proof using not_fortnightly.
  set (C := cands_pair s m 0).
  set (asg := replicate (Z.to_nat MAX_WEEKS) false).
  set (b0 := {| min_hours := 1000000000; chosen_day := -1; chosen_time := -1 |}).
  set (pass := fun b => try_pair s m asg (sort_days (total_hours s)) b 0).
  assert (H0 : selects s m [] b0).
  { left. cbn. repeat split. constructor. }
  assert (Hpass : forall cs b, selects s m cs b -> selects s m (cs ++ C) (pass b)).
  { intros cs b H. exact (try_pair_step s m _ cs b 0 H). }
  assert (El : Legacy.search s m = pass (pass (pass (pass b0)))).
  { unfold Legacy.search. cbv zeta. change (seqZ 0 MAX_WEEKS) with [0; 1; 2; 3].
    cbn [fold_left]. rewrite !legacy_pass. reflexivity. }
  assert (Es : search s m = pass b0).
  { unfold search, max_pairs_of. rewrite not_fortnightly. reflexivity. }
  rewrite El, Es.
  pose proof (Hpass _ _ H0) as H1. cbn [app] in H1.
  pose proof (Hpass _ _ (Hpass _ _ (Hpass _ _ H1))) as H4.
  pose proof (selects_repeat _ _ _ _ (selects_repeat _ _ _ _ H1)) as H4'.
  repeat rewrite <- app_assoc in H4. repeat rewrite <- app_assoc in H4'.
  exact (selects_unique s m _ _ _ H4 H4').
Qed.

End Earlier.

(** X16. The earlier copy of [add_meeting] (scheduler_web.c) and the later one
    (cweb.c) give the same result for every request that is not fortnightly:
    the later copy changes the placement of fortnightly requests only. *)
Theorem legacy_agrees_unless_fortnightly (s : MeetingScheduler) (m : Meeting)
    (rand : nat -> nat)
    (Hfreq : m_frequency m <> "fortnightly") :
  Legacy.add_meeting s m rand = add_meeting s m rand.
Proof.
  assert (Ef : String.eqb (m_frequency m) "fortnightly" = false)
    by now apply String.eqb_neq.
  destruct (legacy_search_chosen s m Ef) as [Ed Et].
  unfold Legacy.add_meeting, add_meeting. cbv zeta.
  rewrite Ed, Et, Ef. reflexivity.
Qed.

Lemma legacy_agrees_unless_fortnightly_witness :
  Legacy.add_meeting sample_state weekly_example (fun _ => 2%nat)
  = add_meeting sample_state weekly_example (fun _ => 2%nat).
Proof.
  apply (legacy_agrees_unless_fortnightly sample_state weekly_example).
  vm_compute. discriminate.
Defined.

(** ** The capacity of the arrays *)

Lemma reserve_slot_on_free (s : MeetingScheduler) (day start_time : string)
    (duration_minutes : Z) :
  sched_wf s ->
  find_day_index day <> -1 -> find_slot_index start_time <> -1 ->
  duration_minutes = 30 \/ duration_minutes = 60 \/ duration_minutes = 90 ->
  find_slot_index start_time + Z.quot duration_minutes 30 <= MAX_SLOTS ->
  (forall w i, 0 <= w < MAX_WEEKS -> 0 <= i < Z.quot duration_minutes 30 ->
     cell (blocked_slots s) w (find_day_index day) (find_slot_index start_time + i)
     = false) ->
  reserve_slot s day start_time duration_minutes = None <->
  MAX_RESERVATIONS <= reservation_count s.
Proof.
  intros (Hg & _ & _) Hd Hs Hdm Hend Hfree. unfold reserve_slot.
  set (day_idx := find_day_index day) in *.
  set (start_idx := find_slot_index start_time) in *.
  set (n := Z.quot duration_minutes 30) in *.
  assert (Hdr : 0 <= day_idx < MAX_DAYS)
    by (destruct (find_day_index_range day); [contradiction|assumption]).
  assert (Hsr : 0 <= start_idx < MAX_SLOTS)
    by (destruct (find_slot_index_range start_time); [contradiction|assumption]).
  assert (Hn : 1 <= n <= 3)
    by (unfold n; destruct Hdm as [->|[->| ->]]; vm_compute; split; discriminate).
  assert (E1 : (day_idx =? -1) || (start_idx =? -1)
               || negb (Z.rem duration_minutes 30 =? 0)
               || (duration_minutes <? 30) || (duration_minutes >? 90) = false).
  { assert ((day_idx =? -1) = false) as -> by lia.
    assert ((start_idx =? -1) = false) as -> by lia.
    destruct Hdm as [->|[->| ->]]; reflexivity. }
  rewrite E1.
  rewrite end_hour_in_day by lia.
  assert (E2 : is_break_slot start_time = false).
  { rewrite <- (find_slot_index_label start_time Hs).
    now apply slot_label_not_break. }
  rewrite E2. cbn [orb].
  assert (E3 : existsb
                 (fun i => (start_idx + i >=? MAX_SLOTS)
                           || is_break_slot (str_at TIME_SLOTS (start_idx + i)))
                 (seqZ 0 n) = false).
  { apply not_true_is_false. intros H. apply existsb_exists in H.
    destruct H as (i & Hi & H). apply list_elem_of_In, elem_of_seqZ in Hi.
    rewrite slot_label_not_break in H by lia. lia. }
  cbv zeta. rewrite E3.
  rewrite reserve_weeks_free; try assumption.
  - destruct (reservation_count s <? MAX_RESERVATIONS) eqn:E4.
    + split; [discriminate|lia].
    + split; [lia|reflexivity].
  - apply Forall_seqZ. intros; lia.
  - apply NoDup_seqZ.
  - apply Forall_seqZ. intros; lia.
  - apply NoDup_seqZ.
  - apply Forall_seqZ. intros w Hw. apply Forall_seqZ. intros i Hi.
    apply Hfree; lia.
Qed.

Lemma reachable_reserve_all (reqs : list (string * string)) (s : MeetingScheduler) :
  reachable s -> reachable (reserve_all reqs s).
Proof.
  unfold reserve_all. revert s.
  induction reqs as [|r reqs IH]; intros s Hs; cbn [fold_left]; [exact Hs|].
  apply IH. destruct (reserve_slot s (fst r) (snd r) 30) as [[b s']|] eqn:E.
  - exact (reach_reserve s _ _ _ b s' Hs E).
  - exact Hs.
Qed.

Lemma reachable_add_times (n : nat) (m : Meeting) (rand : nat -> nat)
    (s : MeetingScheduler) :
  reachable s -> reachable (add_times n m rand s).
Proof.
  revert s. induction n as [|n IH]; intros s Hs; cbn [add_times]; [exact Hs|].
  apply IH. destruct (add_meeting s m rand) as [[b s']|] eqn:E.
  - exact (reach_add s m rand b s' Hs E).
  - exact Hs.
Qed.

(** X20. [reserve_slot] does not test the room left in the array of reservations:
    in a state the program reaches with fifty reservations or more, a
    reservation that would be accepted is written past the end of the array
    (no result in the model).  Fifty-six half-hour reservations fit the
    grid, so such a state is reached by accepted requests alone. *)
Theorem reserve_slot_past_capacity (s : MeetingScheduler) (day start_time : string)
    (duration_minutes : Z)
    (Hs : reachable s)
    (Hfull : MAX_RESERVATIONS <= reservation_count s)
    (Hday : find_day_index day <> -1)
    (Hstart : find_slot_index start_time <> -1)
    (Hdur : duration_minutes = 30 \/ duration_minutes = 60 \/ duration_minutes = 90)
    (Hfit : find_slot_index start_time + Z.quot duration_minutes 30 <= MAX_SLOTS)
    (Hfree : forall w i, 0 <= w < MAX_WEEKS -> 0 <= i < Z.quot duration_minutes 30 ->
       cell (blocked_slots s) w (find_day_index day) (find_slot_index start_time + i)
       = false) :
  reserve_slot s day start_time duration_minutes = None.
Proof.
  apply reserve_slot_on_free; try assumption.
  now apply reachable_wf.
Qed.

Lemma reserve_slot_past_capacity_witness :
  reservation_count fifty_reservations = 50 /\
  reserve_slot fifty_reservations "Thursday" "14:00" 30 = None.
Proof.
  split; [vm_compute; reflexivity|].
  apply (reserve_slot_past_capacity fifty_reservations "Thursday" "14:00" 30).
  - apply reachable_reserve_all, reach_init.
  - vm_compute. discriminate.
  - vm_compute. discriminate.
  - vm_compute. discriminate.
  - left. reflexivity.
  - vm_compute. discriminate.
  - intros w i Hw Hi. change (Z.quot 30 30) with 1 in Hi.
    assert (i = 0) as -> by lia. unfold MAX_WEEKS in Hw.
    assert (Hc : w = 0 \/ w = 1 \/ w = 2 \/ w = 3) by lia.
    destruct Hc as [->|[->|[->| ->]]]; vm_compute; reflexivity.
Defined.

Lemma commit_entry_room (s : MeetingScheduler) (m : Meeting) (week d t : Z) :
  (schedule_count s < MAX_MEETINGS * MAX_WEEKS ->
   exists s', commit_entry s m week d t = Some s' /\
              schedule_count s' = schedule_count s + 1) /\
  (forall s', commit_entry s m week d t = Some s' ->
              schedule_count s < MAX_MEETINGS * MAX_WEEKS /\
              schedule_count s' = schedule_count s + 1).
Proof.
  unfold commit_entry.
  destruct (schedule_count s <? MAX_MEETINGS * MAX_WEEKS) eqn:E.
  - assert (Hc : forall s', Some {|
             schedule := schedule s ++ [entry_of m week d t];
             reservations := reservations s;
             total_hours :=
               add_hours (total_hours s) d (inject_Z (m_duration m) * (1 # 2));
             meeting_hours :=
               add_hours (meeting_hours s) d (inject_Z (m_duration m) * (1 # 2));
             blocked_slots :=
               mark_slots (blocked_slots s) week d t (seqZ 0 (m_duration m)) |}
             = Some s' -> schedule_count s' = schedule_count s + 1).
    { intros s' H. injection H as <-. unfold schedule_count. cbn [schedule].
      rewrite length_app. cbn [length]. lia. }
    split.
    + intros _. eexists. split; [reflexivity|]. now apply Hc.
    + intros s' H. split; [lia|now apply Hc].
  - split; [lia|discriminate].
Qed.

Lemma commit_pair_defined (m : Meeting) (p d t : Z) (ixs : list Z)
    (s : MeetingScheduler) :
  schedule_count s + Z.of_nat (length ixs) <= MAX_MEETINGS * MAX_WEEKS ->
  exists s', commit_pair s m p d t ixs = Some s'.
Proof.
  revert s. induction ixs as [|i ixs IH]; intros s H; cbn [commit_pair].
  - now exists s.
  - cbn [length] in H.
    destruct (proj1 (commit_entry_room s m (fortnight_pairs p i) d t) ltac:(lia))
      as (s1 & -> & Hc).
    apply IH. lia.
Qed.

Lemma commit_occurrences_defined (m : Meeting) (weeks : list Z) (d t : Z)
    (occs : list Z) (s : MeetingScheduler) (asg : list bool) :
  schedule_count s + Z.of_nat (length occs) <= MAX_MEETINGS * MAX_WEEKS ->
  exists r, commit_occurrences s m asg weeks d t occs = Some r.
Proof.
  revert s asg. induction occs as [|o occs IH]; intros s asg H;
    cbn [commit_occurrences].
  - now eexists.
  - cbn [length] in H.
    destruct (scan_weeks s asg weeks d t (m_duration m) (seqZ 0 MAX_WEEKS) (-1))
      as [[|] week]; [|now eexists].
    destruct (proj1 (commit_entry_room s m week d t) ltac:(lia)) as (s1 & -> & Hc).
    apply IH. lia.
Qed.

(** With room for its occurrences in the schedule array, a call of
    [add_meeting] has a result. *)
Lemma add_meeting_defined (s : MeetingScheduler) (m : Meeting) (rand : nat -> nat) :
  schedule_count s + occurrences_of m <= MAX_MEETINGS * MAX_WEEKS ->
  exists r, add_meeting s m rand = Some r.
Proof.
  intros H. pose proof (occurrences_of_pos m) as Ho.
  unfold add_meeting. cbv zeta.
  destruct (_ || _); [now eexists|].
  destruct (String.eqb (m_frequency m) "fortnightly") eqn:Ef.
  - destruct (_ =? -1); [now eexists|].
    rewrite (fortnightly_occurrences m Ef) in H.
    destruct (commit_pair_defined m
                (find_pair s (chosen_day (search s m)) (chosen_time (search s m))
                   (m_duration m) (seqZ 0 2))
                (chosen_day (search s m)) (chosen_time (search s m)) (seqZ 0 2) s)
      as [s' ->]; [change (Z.of_nat (length (seqZ 0 2))) with 2; lia|].
    now eexists.
  - apply commit_occurrences_defined. rewrite length_seqZ. lia.
Qed.

(** X21. [add_meeting] does not test the room left in the schedule array: a call
    writes past the end of the array (no result in the model) exactly when
    the search finds a candidate and the occurrences of the request do not
    all fit in the array. *)
Theorem add_meeting_past_capacity (s : MeetingScheduler) (m : Meeting)
    (rand : nat -> nat) :
  add_meeting s m rand = None <->
  MAX_MEETINGS * MAX_WEEKS < schedule_count s + occurrences_of m /\
  Exists (fun c => (metric s m (cand_day c) < 1000000000)%Q) (candidates s m).
Proof.
  split.
  - intros Hnone. split.
    + destruct (Z_lt_le_dec (MAX_MEETINGS * MAX_WEEKS)
                  (schedule_count s + occurrences_of m)) as [Hlt|Hle]; [exact Hlt|].
      destruct (add_meeting_defined s m rand Hle) as [r Hr]. congruence.
    + destruct (search_finds s m) as [[Hd _]|[_ Hex]]; [|exact Hex].
      unfold add_meeting in Hnone. cbv zeta in Hnone. rewrite Hd in Hnone.
      discriminate.
  - intros [Hfull Hex].
    destruct (add_meeting s m rand) as [[b s']|] eqn:Hcall; [exfalso|reflexivity].
    destruct (search_finds s m) as [[_ Hall]|[[p Hin] _]].
    + apply Exists_exists in Hex. destruct Hex as (c & Hc & Hlt).
      rewrite Forall_forall in Hall. specialize (Hall c Hc). cbv beta in Hall. lra.
    + rewrite (add_meeting_succeeds s s' m rand b p Hin Hcall) in Hcall.
      destruct (add_meeting_entries s s' m rand Hcall)
        as (_ & ws & _ & Hs & Hlen & _).
      assert (Hroom : s' = s \/ schedule_count s' <= MAX_MEETINGS * MAX_WEEKS).
      { apply (add_meeting_keeps
                 (fun s1 => s1 = s \/ schedule_count s1 <= MAX_MEETINGS * MAX_WEEKS)
                 s s' m rand true); [|now left|exact Hcall].
        intros d t s1 week s2 _ _ _ _ _ _ Hc. right.
        destruct (proj2 (commit_entry_room s1 m week d t) s2 Hc). lia. }
      pose proof (occurrences_of_pos m) as Ho.
      assert (Hcount : schedule_count s' = schedule_count s + occurrences_of m).
      { unfold schedule_count. rewrite Hs, length_app, length_map, Hlen. lia. }
      destruct Hroom as [->|Hroom]; lia.
Qed.

Lemma add_meeting_past_capacity_witness :
  reachable four_hundred_entries /\
  schedule_count four_hundred_entries = 400 /\
  add_meeting four_hundred_entries zero_example (fun _ => 0%nat) = None.
Proof.
  split; [apply reachable_add_times, reach_init|].
  split; [vm_compute; reflexivity|].
  apply (proj2 (add_meeting_past_capacity four_hundred_entries zero_example
                  (fun _ => 0%nat))).
  split; [vm_compute; reflexivity|].
  apply Exists_exists. exists (0, 0, 0). split.
  - apply list_elem_of_In. vm_compute. left. reflexivity.
  - vm_compute. reflexivity.
Defined.

Lemma meeting_sum_app_list (l1 l2 : list ScheduleEntry) (d : Z) :
  (meeting_sum (l1 ++ l2) d == meeting_sum l1 d + meeting_sum l2 d)%Q.
Proof.
  induction l1 as [|e l1 IH]; cbn [meeting_sum app].
  - lra.
  - rewrite IH. lra.
Qed.

Lemma meeting_sum_occurrences (m : Meeting) (d t d' : Z) (ws : list Z) :
  (meeting_sum (map (fun w => entry_of m w d t) ws) d'
   == if d =? d'
      then inject_Z (Z.of_nat (length ws) * m_duration m) * (1 # 2) else 0)%Q.
Proof.
  destruct (d =? d') eqn:E;
    induction ws as [|w ws IH];
    cbn [meeting_sum map length entry_of e_day e_duration]; rewrite ?E.
  - change (Z.of_nat 0 * m_duration m) with 0. change (inject_Z 0) with 0%Q. lra.
  - rewrite IH, Nat2Z.inj_succ. unfold Z.succ.
    rewrite Z.mul_add_distr_r, Z.mul_1_l, inject_Z_plus. lra.
  - lra.
  - rewrite IH. lra.
Qed.

Lemma not_overloaded (s : MeetingScheduler) (d : Z) :
  overloaded s d = false -> (hours_at (meeting_hours s) d <= 10)%Q.
Proof.
  unfold overloaded. intros H. apply Qltb_ge in H.
  unfold Qdiv in H. change (/ 4)%Q with (1 # 4)%Q in H. lra.
Qed.

Lemma loaded_within_add_meeting (s s' : MeetingScheduler) (m : Meeting)
    (rand : nat -> nat) (b : bool) :
  loaded_within s -> has_duration m -> add_meeting s m rand = Some (b, s') ->
  loaded_within s'.
Proof.
  intros (Hc & Hdur & Hload) Hm Hcall.
  destruct b; [|now rewrite (add_meeting_false_unchanged s s' m rand Hcall)].
  pose proof (consistent_add_meeting s s' m rand true Hc Hcall) as Hc'.
  destruct (add_meeting_entries s s' m rand Hcall) as (p & ws & Hin & Hs & Hlen & _).
  split; [exact Hc'|]. split.
  - rewrite Hs. apply Forall_app. split; [exact Hdur|].
    apply Forall_forall. intros e He. apply list_elem_of_In, in_map_iff in He.
    destruct He as (w & <- & _). exact Hm.
  - intros d' Hd'.
    destruct Hc as (_ & _ & _ & _ & _ & Hh). destruct Hc' as (_ & _ & _ & _ & _ & Hh').
    destruct (Hh d' Hd') as [_ H1]. destruct (Hh' d' Hd') as [_ H2].
    rewrite H2, Hs, meeting_sum_app_list, meeting_sum_occurrences, <- H1.
    specialize (Hload d' Hd').
    apply in_candidates in Hin. destruct Hin as (_ & _ & Hov & _ & Ht & Hq).
    apply qualifies_fits in Hq. destruct Hq as [_ Hfit].
    destruct (chosen_day (search s m) =? d') eqn:E; [|lra].
    apply Z.eqb_eq in E. rewrite E in Hov. apply not_overloaded in Hov.
    pose proof (occurrences_of_pos m) as Ho. unfold has_duration in Hm.
    assert (Hz : Z.of_nat (length ws) * m_duration m <= 56)
      by (unfold MAX_SLOTS in *; nia).
    rewrite Zle_Qle in Hz. change (inject_Z 56) with 56%Q in Hz. lra.
Qed.

Lemma loaded_within_reachable (s : MeetingScheduler) :
  reachable_with has_duration s -> loaded_within s.
Proof.
  induction 1 as [|s day st dm b s' _ IH Hc|s m rand b s' _ IH Hm Hc].
  - split; [apply consistent_init|]. split; [apply Forall_nil_2|].
    intros d Hd. unfold MAX_DAYS in Hd.
    assert (C : d = 0 \/ d = 1 \/ d = 2 \/ d = 3) by lia.
    destruct C as [->|[->|[->| ->]]]; vm_compute; discriminate.
  - destruct IH as (H1 & H2 & H3).
    destruct (reserve_slot_frame _ _ _ _ _ _ Hc) as (Es & Emh & _).
    split; [exact (consistent_reserve_slot _ _ _ _ _ _ H1 Hc)|].
    rewrite Es, Emh. now split.
  - exact (loaded_within_add_meeting _ _ _ _ _ IH Hm Hc).
Qed.

Lemma count_le_hours (sch : list ScheduleEntry) :
  Forall entry_ok sch -> Forall (fun e => 1 <= e_duration e) sch ->
  (inject_Z (Z.of_nat (length sch))
   <= 2 * (meeting_sum sch 0 + meeting_sum sch 1
           + meeting_sum sch 2 + meeting_sum sch 3))%Q.
Proof.
  induction sch as [|e sch IH]; intros Hok Hdur.
  - cbn [length meeting_sum]. change (inject_Z (Z.of_nat 0)) with 0%Q. lra.
  - apply Forall_cons in Hok. destruct Hok as [(_ & Hd & _) Hok].
    apply Forall_cons in Hdur. destruct Hdur as [He Hdur].
    specialize (IH Hok Hdur). cbn [meeting_sum length].
    rewrite Nat2Z.inj_succ. unfold Z.succ. rewrite inject_Z_plus.
    change (inject_Z 1) with 1%Q.
    rewrite Zle_Qle in He. change (inject_Z 1) with 1%Q in He. unfold MAX_DAYS in Hd.
    assert (C : e_day e = 0 \/ e_day e = 1 \/ e_day e = 2 \/ e_day e = 3) by lia.
    destruct C as [->|[->|[->| ->]]]; cbn [Z.eqb Pos.eqb]; lra.
Qed.

Lemma loaded_within_count (s : MeetingScheduler) :
  loaded_within s -> schedule_count s <= 304.
Proof.
  intros ((_ & Hok & _ & _ & _ & Hh) & Hdur & Hload).
  pose proof (count_le_hours (schedule s) Hok Hdur) as Hc.
  assert (H0 : 0 <= 0 < MAX_DAYS) by (unfold MAX_DAYS; lia).
  assert (H1 : 0 <= 1 < MAX_DAYS) by (unfold MAX_DAYS; lia).
  assert (H2 : 0 <= 2 < MAX_DAYS) by (unfold MAX_DAYS; lia).
  assert (H3 : 0 <= 3 < MAX_DAYS) by (unfold MAX_DAYS; lia).
  pose proof (proj2 (Hh 0 H0)) as E0. pose proof (proj2 (Hh 1 H1)) as E1.
  pose proof (proj2 (Hh 2 H2)) as E2. pose proof (proj2 (Hh 3 H3)) as E3.
  pose proof (Hload 0 H0) as L0. pose proof (Hload 1 H1) as L1.
  pose proof (Hload 2 H2) as L2. pose proof (Hload 3 H3) as L3.
  unfold schedule_count. rewrite Zle_Qle. change (inject_Z 304) with 304%Q. lra.
Qed.

(** X22. When every request for a meeting lasts one slot at least, the load cap
    keeps the schedule within its array: no state the program reaches holds
    more than 304 entries, and every call of [add_meeting] for such a request
    has a result. *)
Theorem add_meeting_within_capacity (s : MeetingScheduler) (m : Meeting)
    (rand : nat -> nat)
    (Hs : reachable_with has_duration s) :
  schedule_count s <= 304 /\ exists r, add_meeting s m rand = Some r.
Proof.
  pose proof (loaded_within_count s (loaded_within_reachable s Hs)) as Hc.
  split; [exact Hc|].
  apply add_meeting_defined. pose proof (occurrences_of_pos m).
  unfold MAX_MEETINGS, MAX_WEEKS. lia.
Qed.

Lemma add_meeting_within_capacity_witness :
  schedule_count sample_state <= 304 /\
  exists r, add_meeting sample_state daily_example (fun _ => 0%nat) = Some r.
Proof.
  apply (add_meeting_within_capacity sample_state daily_example).
  apply (reach_with_add has_duration sample_weekly fortnightly_example
           (fun _ => 0%nat) true);
    [|vm_compute; discriminate|vm_compute; reflexivity].
  apply (reach_with_add has_duration sample_reserved weekly_example
           (fun _ => 5%nat) true);
    [|vm_compute; discriminate|vm_compute; reflexivity].
  apply (reach_with_reserve has_duration init_scheduler "Tuesday" "14:00" 60 true);
    [apply reach_with_init|vm_compute; reflexivity].
Defined.

(** ** The page of the schedule and its buffer *)

Lemma length_append (a b : string) :
  String.length (String.append a b) = (String.length a + String.length b)%nat.
Proof. induction a as [|c a IH]; cbn; [reflexivity|now rewrite IH]. Qed.

Lemma length_substring_0 (n : nat) (a : string) :
  String.length (substring 0 n a) = Nat.min n (String.length a).
Proof.
  revert a. induction n as [|n IH]; intros [|c a]; cbn; try reflexivity.
  now rewrite IH.
Qed.

Lemma strcat_some (buffer : option string) (piece b' : string) :
  strcat buffer piece = Some b' ->
  exists b, buffer = Some b /\
            String.length b' = (String.length b + String.length piece)%nat /\
            Z.of_nat (String.length b') < 16384.
Proof.
  unfold strcat. destruct buffer as [b|]; [|discriminate].
  destruct (_ <? 16384) eqn:E; [|discriminate].
  intros H. injection H as <-. exists b. rewrite length_append. repeat split. lia.
Qed.

Lemma entry_rows_some (s : MeetingScheduler) (week day : Z)
    (buffer : option string) (b' : string) :
  entry_rows s week day buffer = Some b' ->
  exists b, buffer = Some b /\
            (String.length b + entry_rows_length week day (schedule s)
             <= String.length b')%nat.
Proof.
  unfold entry_rows. revert buffer.
  induction (schedule s) as [|e sch IH]; intros buffer H;
    cbn [fold_left entry_rows_length] in H |- *.
  - exists b'. split; [exact H|lia].
  - apply IH in H. destruct H as (b1 & H1 & Hl).
    destruct ((e_week e =? week) && (e_day e =? day)).
    + apply strcat_some in H1. destruct H1 as (b & -> & Hb & _).
      exists b. split; [reflexivity|lia].
    + exists b1. split; [exact H1|lia].
Qed.

Lemma reservation_rows_some (s : MeetingScheduler) (day : Z)
    (buffer : option string) (b' : string) :
  reservation_rows s day buffer = Some b' ->
  exists b, buffer = Some b /\
            (String.length b + rows_length day (reservations s)
             <= String.length b')%nat.
Proof.
  unfold reservation_rows. revert buffer.
  induction (reservations s) as [|r rs IH]; intros buffer H;
    cbn [fold_left rows_length] in H |- *.
  - exists b'. split; [exact H|lia].
  - apply IH in H. destruct H as (b1 & H1 & Hl).
    destruct (String.eqb (r_day r) (str_at DAYS day)).
    + apply strcat_some in H1. destruct H1 as (b & -> & Hb & _).
      exists b. split; [reflexivity|lia].
    + exists b1. split; [exact H1|lia].
Qed.

Lemma week_table_some (s : MeetingScheduler) (buffer : option string)
    (week : Z) (b' : string) :
  week_table s buffer week = Some b' ->
  exists b, buffer = Some b /\
            (String.length b + 212
             + (entry_rows_length week 0 (schedule s)
                + entry_rows_length week 1 (schedule s)
                + entry_rows_length week 2 (schedule s)
                + entry_rows_length week 3 (schedule s))
             + (rows_length 0 (reservations s) + rows_length 1 (reservations s)
                + rows_length 2 (reservations s) + rows_length 3 (reservations s))
             <= String.length b')%nat.
Proof.
  unfold week_table. cbv zeta. change (seqZ 0 MAX_DAYS) with [0; 1; 2; 3].
  cbn [fold_left]. intros H.
  apply strcat_some in H. destruct H as (b8 & H & E8 & _).
  apply reservation_rows_some in H. destruct H as (b7 & H & E7).
  apply entry_rows_some in H. destruct H as (b6 & H & E6).
  apply reservation_rows_some in H. destruct H as (b5 & H & E5).
  apply entry_rows_some in H. destruct H as (b4 & H & E4).
  apply reservation_rows_some in H. destruct H as (b3 & H & E3).
  apply entry_rows_some in H. destruct H as (b2 & H & E2).
  apply reservation_rows_some in H. destruct H as (b1 & H & E1).
  apply entry_rows_some in H. destruct H as (b0 & H & E0).
  apply strcat_some in H. destruct H as (c3 & H & F3 & _).
  apply strcat_some in H. destruct H as (c2 & H & F2 & _).
  apply strcat_some in H. destruct H as (c1 & H & F1 & _).
  apply strcat_some in H. destruct H as (c0 & H & F0 & _).
  unfold in_temp, printed in F0. cbn [fold_right] in F0.
  rewrite length_substring_0, !length_append in F0.
  cbn [String.length] in E8, F3, F2, F1, F0.
  exists c0. split; [exact H|lia].
Qed.

(** The row of an entry on the grid takes 117 characters at least. *)
Lemma entry_row_length (e : ScheduleEntry) :
  entry_ok e -> (117 <= String.length (entry_row (e_day e) e))%nat.
Proof.
  intros (_ & Hd & Ht & _).
  assert (Hday : (6 <= String.length (str_at DAYS (e_day e)))%nat /\
                 String.length (day_color (e_day e)) = 7%nat).
  { unfold MAX_DAYS in Hd.
    assert (C : e_day e = 0 \/ e_day e = 1 \/ e_day e = 2 \/ e_day e = 3) by lia.
    destruct C as [->|[->|[->| ->]]]; vm_compute; split; (reflexivity || lia). }
  assert (Hslot : String.length (str_at TIME_SLOTS (e_start_time e)) = 5%nat).
  { unfold MAX_SLOTS in Ht.
    assert (C : In (e_start_time e) (seqZ 0 14))
      by (apply list_elem_of_In, elem_of_seqZ; lia).
    revert C. generalize (e_start_time e). intros t C.
    assert (Hall : forallb (fun t => (String.length (str_at TIME_SLOTS t) =? 5)%nat)
                     (seqZ 0 14) = true) by reflexivity.
    rewrite forallb_forall in Hall. now apply Nat.eqb_eq, Hall. }
  unfold entry_row, in_temp, printed. cbn [fold_right].
  rewrite length_substring_0, !length_append. cbn [String.length].
  destruct Hday as [Hday Hcolor]. lia.
Qed.

Lemma entry_rows_length_all (sch : list ScheduleEntry) :
  Forall entry_ok sch ->
  (117 * length sch
   <= (entry_rows_length 0 0 sch + entry_rows_length 0 1 sch
       + entry_rows_length 0 2 sch + entry_rows_length 0 3 sch)
      + (entry_rows_length 1 0 sch + entry_rows_length 1 1 sch
         + entry_rows_length 1 2 sch + entry_rows_length 1 3 sch)
      + (entry_rows_length 2 0 sch + entry_rows_length 2 1 sch
         + entry_rows_length 2 2 sch + entry_rows_length 2 3 sch)
      + (entry_rows_length 3 0 sch + entry_rows_length 3 1 sch
         + entry_rows_length 3 2 sch + entry_rows_length 3 3 sch))%nat.
Proof.
  induction 1 as [|e sch He _ IH]; cbn [entry_rows_length length]; [lia|].
  pose proof (entry_row_length e He) as Hl.
  destruct He as (Hw & Hd & _). unfold MAX_WEEKS in Hw. unfold MAX_DAYS in Hd.
  assert (Cw : e_week e = 0 \/ e_week e = 1 \/ e_week e = 2 \/ e_week e = 3) by lia.
  assert (Cd : e_day e = 0 \/ e_day e = 1 \/ e_day e = 2 \/ e_day e = 3) by lia.
  destruct Cw as [Ew|[Ew|[Ew|Ew]]], Cd as [Ed|[Ed|[Ed|Ed]]];
    rewrite Ed in Hl; rewrite Ew, Ed; cbn [Z.eqb Pos.eqb andb]; lia.
Qed.

(** The row of a recorded reservation takes 157 characters at least. *)
Lemma reservation_row_length (r : Reservation) :
  res_ok r ->
  let d := find_day_index (r_day r) in
  String.eqb (r_day r) (str_at DAYS d) = true /\
  (157 <= String.length (reservation_row d r))%nat.
Proof.
  intros (Hd & Ht & Hn & Hfit). cbv zeta.
  assert (Ed : str_at DAYS (find_day_index (r_day r)) = r_day r)
    by (apply find_day_index_label; lia).
  assert (Et : str_at TIME_SLOTS (find_slot_index (r_start_time r)) = r_start_time r)
    by (apply find_slot_index_label; lia).
  split; [rewrite Ed; apply String.eqb_refl|].
  set (row := fun d t n =>
         reservation_row d {| r_day := str_at DAYS d;
                              r_start_time := str_at TIME_SLOTS t;
                              r_duration := n |}).
  assert (Hall : forallb
                   (fun d => forallb
                     (fun t => forallb
                        (fun n => (157 <=? String.length (row d t n))%nat)
                        (seqZ 1 3))
                     (seqZ 0 MAX_SLOTS))
                   (seqZ 0 MAX_DAYS) = true) by (vm_compute; reflexivity).
  rewrite forallb_forall in Hall.
  assert (Hdr : 0 <= find_day_index (r_day r) < 0 + MAX_DAYS) by lia.
  specialize (Hall _ (proj1 (list_elem_of_In _ _) (proj2 (elem_of_seqZ _ _ _) Hdr))).
  rewrite forallb_forall in Hall.
  assert (Htr : 0 <= find_slot_index (r_start_time r) < 0 + MAX_SLOTS) by lia.
  specialize (Hall _ (proj1 (list_elem_of_In _ _) (proj2 (elem_of_seqZ _ _ _) Htr))).
  rewrite forallb_forall in Hall.
  assert (Hnr : 1 <= r_duration r < 1 + 3) by lia.
  specialize (Hall _ (proj1 (list_elem_of_In _ _) (proj2 (elem_of_seqZ _ _ _) Hnr))).
  apply Nat.leb_le in Hall. unfold row in Hall. rewrite Ed, Et in Hall.
  destruct r as [rd rt rn]. exact Hall.
Qed.

Lemma rows_length_all (rs : list Reservation) :
  Forall res_ok rs ->
  (157 * length rs
   <= rows_length 0 rs + rows_length 1 rs + rows_length 2 rs + rows_length 3 rs)%nat.
Proof.
  induction 1 as [|r rs Hr _ IH]; cbn [rows_length length]; [lia|].
  destruct (reservation_row_length r Hr) as [He Hl]. cbv zeta in He, Hl.
  destruct Hr as (Hd & _). unfold MAX_DAYS in Hd.
  assert (C : find_day_index (r_day r) = 0 \/ find_day_index (r_day r) = 1 \/
              find_day_index (r_day r) = 2 \/ find_day_index (r_day r) = 3) by lia.
  destruct C as [E|[E|[E|E]]]; rewrite E in He, Hl; rewrite He; lia.
Qed.

(** X23. The page of the schedule does not fit its buffer of 16384 bytes once
    the program holds enough entries and reservations: the fixed parts take
    1334 characters, each entry is shown in a row of 117 characters at
    least, and each reservation in the table of each of the four weeks, in
    rows of 157 characters at least; nothing bounds what is appended to
    the buffer.  So in every state the program reaches with
    1334 + 117 entries + 628 reservations at 16384 or more (twenty-four
    reservations are enough), [generate_schedule_html] writes past the end
    of the buffer. *)
Theorem generate_schedule_html_overflows (s : MeetingScheduler)
    (Hs : reachable s)
    (Hmany : 16384 <= 1334 + 117 * schedule_count s + 628 * reservation_count s) :
  generate_schedule_html s = None.
Proof.
  destruct (generate_schedule_html s) as [page|] eqn:H; [exfalso|reflexivity].
  destruct (reachable_consistent s Hs) as (_ & Hok & _ & Hrok & _).
  pose proof (rows_length_all _ Hrok) as Hrows.
  pose proof (entry_rows_length_all _ Hok) as Herows.
  unfold generate_schedule_html in H. cbv zeta in H.
  change (seqZ 0 MAX_WEEKS) with [0; 1; 2; 3] in H. cbn [fold_left] in H.
  apply strcat_some in H. destruct H as (b7 & H & E7 & Hfit).
  apply strcat_some in H. destruct H as (b6 & H & E6 & _).
  apply strcat_some in H. destruct H as (b5 & H & E5 & _).
  apply week_table_some in H. destruct H as (b4 & H & E4).
  apply week_table_some in H. destruct H as (b3 & H & E3).
  apply week_table_some in H. destruct H as (b2 & H & E2).
  apply week_table_some in H. destruct H as (b1 & H & E1).
  apply strcat_some in H. destruct H as (a3 & H & G3 & _).
  apply strcat_some in H. destruct H as (a2 & H & G2 & _).
  apply strcat_some in H. destruct H as (a1 & H & G1 & _).
  apply strcat_some in H. destruct H as (a0 & H & G0 & _).
  cbn [String.length] in E7, E6, E5, G3, G2, G1, G0.
  unfold reservation_count, schedule_count in Hmany. lia.
Qed.

Lemma generate_schedule_html_overflows_witness :
  (reservation_count twenty_four_reservations = 24 /\
   generate_schedule_html twenty_four_reservations = None) /\
  (schedule_count busy_month = 96 /\ reservation_count busy_month = 7 /\
   generate_schedule_html busy_month = None).
Proof.
  split.
  - split; [vm_compute; reflexivity|].
    apply (generate_schedule_html_overflows twenty_four_reservations).
    + apply reachable_reserve_all, reach_init.
    + vm_compute. discriminate.
  - split; [vm_compute; reflexivity|]. split; [vm_compute; reflexivity|].
    apply (generate_schedule_html_overflows busy_month).
    + apply reachable_reserve_all, reachable_add_times, reach_init.
    + vm_compute. discriminate.
Defined.

(** ** The request that the handler builds *)

Lemma known_slots_nonneg (tokens : list string) :
  Forall (fun slot => 0 <= slot) (known_slots tokens).
Proof.
  unfold known_slots. apply Forall_forall. intros slot Hs.
  apply list_elem_of_In, filter_In in Hs. destruct Hs as [Hin Hne].
  apply in_map_iff in Hin. destruct Hin as (tok & <- & _).
  destruct (find_slot_index_range tok); lia.
Qed.

Lemma fill_preferred_spec (tokens : list string) :
  forall K : list Z,
    (length K <= 8)%nat ->
    let K' := take 8 (K ++ known_slots tokens) in
    fill_preferred (K ++ replicate (8 - length K) (-1)) (Z.of_nat (length K)) tokens
    = (K' ++ replicate (8 - length K') (-1), Z.of_nat (length K')).
Proof.
  induction tokens as [|tok tokens IH]; intros K HK; cbv zeta; cbn [fill_preferred].
  - unfold known_slots. cbn [map List.filter]. rewrite app_nil_r.
    now rewrite firstn_all2 by lia.
  - destruct (Z.of_nat (length K) <? 8) eqn:E.
    + unfold known_slots. cbn [map List.filter]. fold (known_slots tokens).
      destruct (negb (find_slot_index tok =? -1)) eqn:Es.
      * rewrite Nat2Z.id.
        rewrite insert_app_r_alt by lia. rewrite Nat.sub_diag.
        replace (8 - length K)%nat with (S (8 - length (K ++ [find_slot_index tok])))
          by (rewrite length_app; cbn [length]; lia).
        cbn [replicate]. cbn [insert list_insert].
        replace (Z.of_nat (length K) + 1)
          with (Z.of_nat (length (K ++ [find_slot_index tok])))
          by (rewrite length_app; cbn [length]; lia).
        rewrite (cons_middle _ K), app_assoc.
        rewrite (IH (K ++ [find_slot_index tok]))
          by (rewrite length_app; cbn [length]; lia).
        cbv zeta. now rewrite <- app_assoc.
      * apply (IH K HK).
    + assert (HK8 : length K = 8%nat) by lia.
      rewrite take_app_length' by (symmetry; exact HK8).
      rewrite HK8. cbn [replicate Nat.sub]. rewrite app_nil_r. reflexivity.
Qed.

Lemma parse_preferred_spec (pref_times : option string) :
  let known := known_slots (strtok_commas (default "" pref_times) "") in
  parse_preferred pref_times
  = take 8 known ++ replicate (8 - length (take 8 known)) (-1).
Proof.
  cbv zeta. unfold parse_preferred.
  destruct pref_times as [p|]; [|reflexivity]. cbn [default].
  destruct (0 <? String.length p)%nat eqn:E.
  - pose proof (fill_preferred_spec (strtok_commas p "") [] ltac:(cbn; lia)) as H.
    cbv zeta in H. cbn [app length] in H. change (8 - 0)%nat with 8%nat in H.
    change (Z.of_nat 0) with 0 in H. rewrite H.
    set (K := take 8 (known_slots (strtok_commas p ""))).
    assert (HK : (length K <= 8)%nat) by (unfold K; rewrite length_take; lia).
    destruct (Z.of_nat (length K) <? 8) eqn:E8; [|reflexivity].
    rewrite Nat2Z.id, insert_app_r_alt by lia. rewrite Nat.sub_diag.
    change (id p) with p. fold K.
    destruct (8 - length K)%nat eqn:En; [lia|]. reflexivity.
  - destruct p; [reflexivity|discriminate].
Qed.

Lemma leading_nonneg_app (K : list Z) (n : nat) :
  Forall (fun slot => 0 <= slot) K ->
  leading_nonneg (K ++ replicate n (-1)) = K.
Proof.
  induction 1 as [|k K Hk _ IH]; cbn [app leading_nonneg].
  - destruct n; reflexivity.
  - assert (E : (k >=? 0) = true) by lia. now rewrite E, IH.
Qed.

(** X25. The request built from the parameters of /addMeeting, whatever the
    length of its name, type, day, time and frequency, when the preferred
    times have fewer than 256 characters: the texts are the first 64
    characters of their parameters; the preferred hours are the slots of
    the labels that [find_slot_index] knows among the comma-separated tokens
    of the parameter, in their order, eight at most, then -1; so, without a
    fixed time, the search tries exactly these slots, and every slot when
    no token is a known label.  The duration is one to three slots when the
    parameter is present, and zero when it is absent.  With preferred times
    of 256 characters or more there is no request. *)
Theorem build_meeting_reads (atoi : string -> Z) (q : MeetingQuery) :
  (build_meeting atoi q = None <->
   (256 <= String.length (default "" (q_preferred_times q)))%nat) /\
  ((String.length (default "" (q_preferred_times q)) < 256)%nat ->
   exists m, build_meeting atoi q = Some m /\
     (let known := known_slots (strtok_commas (default "" (q_preferred_times q)) "") in
      m_name m = substring 0 64 (default "" (q_name q)) /\
      m_type m = substring 0 64 (default "" (q_type q)) /\
      m_fixed_day m = substring 0 64 (default "" (q_fixed_day q)) /\
      m_fixed_time m = substring 0 64 (default "" (q_fixed_time q)) /\
      m_frequency m = substring 0 64 (default "" (q_frequency q)) /\
      m_preferred_hours m
      = take 8 known ++ replicate (8 - length (take 8 known)) (-1) /\
      (fixed_time_idx_of m < 0 ->
       time_list m = match known with [] => seqZ 0 MAX_SLOTS | _ => take 8 known end) /\
      (q_duration q <> None -> 1 <= m_duration m <= 3) /\
      (q_duration q = None -> m_duration m = 0))).
Proof.
  assert (Ht : terminated 256 (q_preferred_times q) = true <->
               (String.length (default "" (q_preferred_times q)) < 256)%nat).
  { unfold terminated. destruct (q_preferred_times q) as [p|]; cbn [default].
    - change (id p) with p. apply Nat.ltb_lt.
    - change (String.length "") with 0%nat. split; [lia|reflexivity]. }
  unfold build_meeting. split.
  - destruct (terminated 256 (q_preferred_times q)).
    + split; [discriminate|]. intros H. pose proof (proj1 Ht eq_refl). lia.
    + split; [intros _|reflexivity].
      destruct (Nat.le_gt_cases 256
                  (String.length (default "" (q_preferred_times q))))
        as [H|H]; [exact H|].
      apply Ht in H. discriminate.
  - intros Hlen. rewrite (proj2 Ht Hlen). eexists. split; [reflexivity|].
    cbv zeta.
    cbn [m_name m_type m_fixed_day m_fixed_time m_frequency m_preferred_hours
         m_duration].
    pose proof (parse_preferred_spec (q_preferred_times q)) as Hp. cbv zeta in Hp.
    set (known := known_slots (strtok_commas (default "" (q_preferred_times q)) ""))
      in *.
    do 5 (split; [reflexivity|]).
    split; [exact Hp|]. split; [|split].
    + intros Hf. unfold time_list.
      destruct (fixed_time_idx_of _ >=? 0) eqn:E; [lia|].
      cbn [m_preferred_hours]. rewrite Hp.
      pose proof (known_slots_nonneg
                    (strtok_commas (default "" (q_preferred_times q)) "")) as Hk.
      fold known in Hk.
      destruct known as [|k known']; [reflexivity|].
      apply Forall_cons in Hk as Hk'. destruct Hk' as [Hk0 _].
      assert (E0 : (int_at (take 8 (k :: known')
                            ++ replicate (8 - length (take 8 (k :: known'))) (-1)) 0
                    >=? 0) = true).
      { assert (int_at (take 8 (k :: known')
                        ++ replicate (8 - length (take 8 (k :: known'))) (-1)) 0 = k)
          as -> by reflexivity.
        lia. }
      rewrite E0.
      rewrite firstn_all2
        by (rewrite length_app, length_replicate, length_take; lia).
      apply leading_nonneg_app. now apply Forall_take.
    + unfold parse_duration. destruct (q_duration q) as [d|]; [|congruence].
      intros _. destruct (atoi d =? 30); [lia|].
      destruct (atoi d =? 60); [lia|]. destruct (atoi d =? 90); lia.
    + intros ->. reflexivity.
Qed.

Lemma build_meeting_reads_witness :
  exists m, build_meeting (fun _ => 60) long_query = Some m /\
            String.length (m_name m) = 64%nat /\
            String.length (m_frequency m) = 64%nat /\
            m_fixed_day m = "Thursday" /\
            m_preferred_hours m = [13; 0; -1; -1; -1; -1; -1; -1] /\
            time_list m = [13; 0] /\
            m_duration m = 0 /\
            exists s', add_meeting init_scheduler m (fun _ => 0%nat) = Some (true, s') /\
                       map e_start_time (schedule s') = [13].
Proof.
  destruct (proj2 (build_meeting_reads (fun _ => 60) long_query)
              ltac:(vm_compute; lia))
    as (m & Hm & Hn & _ & Hd & _ & Hf & Hp & Ht & _ & H0).
  exists m. split; [exact Hm|].
  split; [rewrite Hn; vm_compute; reflexivity|].
  split; [rewrite Hf; vm_compute; reflexivity|].
  split; [rewrite Hd; vm_compute; reflexivity|].
  split; [exact Hp|].
  split; [apply Ht; injection Hm as <-; vm_compute; reflexivity|].
  split; [apply H0; reflexivity|].
  injection Hm as <-. eexists. split; vm_compute; reflexivity.
Defined.

(** ** No cell is given twice *)

Lemma covered_entry_occupied (g : grid) (e : ScheduleEntry) (w d t : Z) :
  entry_booked g e -> covers_entry e w d t -> cell g w d t = true.
Proof.
  intros Hb (<- & <- & Ht).
  replace t with (e_start_time e + (t - e_start_time e)) by lia.
  apply Hb. lia.
Qed.

Lemma covered_reservation_occupied (g : grid) (r : Reservation) (w d t : Z) :
  res_booked g r -> covers_reservation r w d t -> cell g w d t = true.
Proof.
  intros Hb (Hw & <- & Ht).
  replace t with (find_slot_index (r_start_time r)
                  + (t - find_slot_index (r_start_time r))) by lia.
  apply Hb; lia.
Qed.

Lemma lookup_snoc_cases {A : Type} (l : list A) (x y : A) (j : nat) :
  (l ++ [x]) !! j = Some y ->
  ((j < length l)%nat /\ l !! j = Some y) \/ (j = length l /\ y = x).
Proof.
  intros H. destruct (Nat.lt_ge_cases j (length l)) as [Hlt|Hge].
  - left. split; [exact Hlt|]. now rewrite lookup_app_l in H.
  - right. rewrite lookup_app_r in H by exact Hge.
    destruct (j - length l)%nat as [|k] eqn:Ek; cbn in H; [|discriminate].
    split; [lia|congruence].
Qed.

Lemma no_overlap_commit_entry (s s' : MeetingScheduler) (m : Meeting) (week d t : Z) :
  consistent s -> no_overlap s ->
  is_valid_slot s week d t (m_duration m) = true ->
  commit_entry s m week d t = Some s' -> no_overlap s'.
Proof.
  intros (_ & _ & Hbk & _ & Hrbk & _) (H1 & H2 & H3) Hv Hc.
  apply commit_entry_inv in Hc. destruct Hc as (Es & Er & _ & _ & _).
  rewrite Forall_forall in Hbk. rewrite Forall_forall in Hrbk.
  assert (Hnew : forall w' d' t', covers_entry (entry_of m week d t) w' d' t' ->
                                  cell (blocked_slots s) w' d' t' = false).
  { intros w' d' t' (<- & <- & Ht). cbn [entry_of e_week e_day e_start_time e_duration] in *.
    replace t' with (t + (t' - t)) by lia.
    apply (is_valid_slot_free s week d t (m_duration m)); [exact Hv|lia]. }
  unfold no_overlap. rewrite Es, Er. split; [|split].
  - intros i j e1 e2 w' d' t' Hij Hi Hj C1 C2.
    apply lookup_snoc_cases in Hj. destruct Hj as [[Hjl Hj]|[Hjl ->]].
    + rewrite lookup_app_l in Hi by lia. exact (H1 i j e1 e2 w' d' t' Hij Hi Hj C1 C2).
    + rewrite lookup_app_l in Hi by lia.
      pose proof (covered_entry_occupied _ _ _ _ _
                    (Hbk e1 (list_elem_of_lookup_2 _ _ _ Hi)) C1) as Ht.
      rewrite (Hnew _ _ _ C2) in Ht. discriminate.
  - intros e r w' d' t' He Hr C1 C2.
    apply in_app_or in He. destruct He as [He|[<-|[]]].
    + exact (H2 e r w' d' t' He Hr C1 C2).
    + pose proof (covered_reservation_occupied _ _ _ _ _
                    (Hrbk r (proj2 (list_elem_of_In _ _) Hr)) C2) as Ht.
      rewrite (Hnew _ _ _ C1) in Ht. discriminate.
  - exact H3.
Qed.

Lemma no_overlap_reserve_slot (s s' : MeetingScheduler) (day start_time : string)
    (duration_minutes : Z) (b : bool) :
  consistent s -> no_overlap s ->
  reserve_slot s day start_time duration_minutes = Some (b, s') -> no_overlap s'.
Proof.
  intros (_ & _ & Hbk & _ & Hrbk & _) (H1 & H2 & H3) Hc.
  rewrite Forall_forall in Hbk. rewrite Forall_forall in Hrbk.
  destruct (reserve_slot_frame _ _ _ _ _ _ Hc) as (Es & _ & Efalse & _).
  destruct b.
  - pose proof (reserve_slot_true_valid _ _ _ _ _ Hc) as (_ & _ & _ & Hfree).
    apply reserve_slot_inv in Hc. cbv zeta in Hc. destruct Hc as (_ & _ & ->).
    cbn [schedule reservations] in *.
    set (r0 := {| r_day := day; r_start_time := start_time;
                  r_duration := Z.quot duration_minutes 30 |}).
    assert (Hnew : forall w' d' t', covers_reservation r0 w' d' t' ->
                                    cell (blocked_slots s) w' d' t' = false).
    { intros w' d' t' (Hw & <- & Ht). cbn [r0 r_day r_start_time r_duration] in *.
      replace t' with (find_slot_index start_time + (t' - find_slot_index start_time))
        by lia.
      apply Hfree; lia. }
    unfold no_overlap. cbn [schedule reservations].
    split; [exact H1|]. split.
    + intros e r w' d' t' He Hr C1 C2.
      apply in_app_or in Hr. destruct Hr as [Hr|[<-|[]]].
      * exact (H2 e r w' d' t' He Hr C1 C2).
      * pose proof (covered_entry_occupied _ _ _ _ _
                      (Hbk e (proj2 (list_elem_of_In _ _) He)) C1) as Ht.
        rewrite (Hnew _ _ _ C2) in Ht. discriminate.
    + intros i j r1 r2 w' d' t' Hij Hi Hj C1 C2.
      apply lookup_snoc_cases in Hj. destruct Hj as [[Hjl Hj]|[Hjl ->]].
      * rewrite lookup_app_l in Hi by lia.
        exact (H3 i j r1 r2 w' d' t' Hij Hi Hj C1 C2).
      * rewrite lookup_app_l in Hi by lia.
        pose proof (covered_reservation_occupied _ _ _ _ _
                      (Hrbk r1 (list_elem_of_lookup_2 _ _ _ Hi)) C1) as Ht.
        rewrite (Hnew _ _ _ C2) in Ht. discriminate.
  - destruct (Efalse eq_refl) as [Er _]. unfold no_overlap. rewrite Es, Er.
    repeat split; assumption.
Qed.

Lemma reachable_no_overlap (s : MeetingScheduler) : reachable s -> no_overlap s.
Proof.
  intros Hs.
  assert (H : consistent s /\ no_overlap s); [|exact (proj2 H)].
  induction Hs as [|s day st dm b s' _ IH Hc|s m rand b s' _ IH Hc].
  - split; [apply consistent_init|].
    repeat split; cbn [init_scheduler schedule reservations]; intros;
      match goal with
      | H : [] !! _ = Some _ |- _ => now rewrite lookup_nil in H
      | H : In _ [] |- _ => destruct H
      end.
  - destruct IH as [Hcs Hno]. split.
    + exact (consistent_reserve_slot _ _ _ _ _ _ Hcs Hc).
    + exact (no_overlap_reserve_slot _ _ _ _ _ _ Hcs Hno Hc).
  - apply (add_meeting_keeps (fun s1 => consistent s1 /\ no_overlap s1)
             s s' m rand b); [|exact IH|exact Hc].
    intros d t s1 week s2 Hd Ht Hfit [Hcs Hno] Hw Hv Hce. split.
    + exact (consistent_commit_entry _ _ _ _ _ _ Hd Ht Hfit Hcs Hw Hce).
    + exact (no_overlap_commit_entry _ _ _ _ _ _ Hcs Hno Hv Hce).
Qed.

(** X6. No double booking: in every state the program reaches, no slot of a day
    of a week is covered by two entries of the schedule, or by an entry and a
    recorded reservation, or by two recorded reservations. *)
Theorem reachable_no_double_booking (s : MeetingScheduler) (w d t : Z)
    (Hs : reachable s) :
  (forall i j e1 e2,
      i <> j -> schedule s !! i = Some e1 -> schedule s !! j = Some e2 ->
      ~ (covers_entry e1 w d t /\ covers_entry e2 w d t)) /\
  (forall e r,
      In e (schedule s) -> In r (reservations s) ->
      ~ (covers_entry e w d t /\ covers_reservation r w d t)) /\
  (forall i j r1 r2,
      i <> j -> reservations s !! i = Some r1 -> reservations s !! j = Some r2 ->
      ~ (covers_reservation r1 w d t /\ covers_reservation r2 w d t)).
Proof.
  destruct (reachable_no_overlap s Hs) as (H1 & H2 & H3).
  split; [|split].
  - intros i j e1 e2 Hij Hi Hj [C1 C2].
    destruct (Nat.lt_gt_cases i j) as [Hc _]. destruct (Hc Hij) as [Hlt|Hgt].
    + exact (H1 i j e1 e2 w d t Hlt Hi Hj C1 C2).
    + exact (H1 j i e2 e1 w d t Hgt Hj Hi C2 C1).
  - intros e r He Hr [C1 C2]. exact (H2 e r w d t He Hr C1 C2).
  - intros i j r1 r2 Hij Hi Hj [C1 C2].
    destruct (Nat.lt_gt_cases i j) as [Hc _]. destruct (Hc Hij) as [Hlt|Hgt].
    + exact (H3 i j r1 r2 w d t Hlt Hi Hj C1 C2).
    + exact (H3 j i r2 r1 w d t Hgt Hj Hi C2 C1).
Qed.

Lemma reachable_no_double_booking_witness :
  (forall i j e1 e2,
      i <> j -> schedule sample_state !! i = Some e1 ->
      schedule sample_state !! j = Some e2 ->
      ~ (covers_entry e1 0 0 2 /\ covers_entry e2 0 0 2)) /\
  (forall e r,
      In e (schedule sample_state) -> In r (reservations sample_state) ->
      ~ (covers_entry e 0 0 2 /\ covers_reservation r 0 0 2)) /\
  (forall i j r1 r2,
      i <> j -> reservations sample_state !! i = Some r1 ->
      reservations sample_state !! j = Some r2 ->
      ~ (covers_reservation r1 0 0 2 /\ covers_reservation r2 0 0 2)).
Proof.
  apply (reachable_no_double_booking sample_state 0 0 2).
  apply sample_state_reachable.
Defined.

(** ** The calendar file and its buffer *)

Lemma in_temp_length (pieces : list string) (n : nat) :
  (n <= 511)%nat -> (n <= String.length (printed pieces))%nat ->
  (n <= String.length (in_temp (printed pieces)))%nat.
Proof. intros H1 H2. unfold in_temp. rewrite length_substring_0. lia. Qed.

Lemma meeting_event_length (strftime_at : Z -> Z -> Z -> string) (e : ScheduleEntry) :
  (131 <= String.length (meeting_event strftime_at e))%nat.
Proof.
  unfold meeting_event. cbv zeta. apply in_temp_length; [lia|].
  unfold printed. cbn [fold_right]. rewrite !length_append.
  cbn [String.length crlf]. lia.
Qed.

Lemma reservation_event_length (strftime_at : Z -> Z -> Z -> string) (r : Reservation) :
  (147 <= String.length (reservation_event strftime_at r))%nat.
Proof.
  unfold reservation_event. cbv zeta. apply in_temp_length; [lia|].
  unfold printed. cbn [fold_right]. rewrite !length_append.
  cbn [String.length crlf]. lia.
Qed.

Lemma events_some {A : Type} (event : A -> string) (n : nat) (l : list A)
    (buffer : option string) (b' : string) :
  (forall x, (n <= String.length (event x))%nat) ->
  fold_left (fun ics x => strcat ics (event x)) l buffer = Some b' ->
  exists b, buffer = Some b /\
            (String.length b + n * length l <= String.length b')%nat.
Proof.
  intros Hn. revert buffer.
  induction l as [|x l IH]; intros buffer H; cbn [fold_left length] in H |- *.
  - exists b'. split; [exact H|lia].
  - apply IH in H. destruct H as (b1 & H1 & Hl).
    apply strcat_some in H1. destruct H1 as (b & -> & Hb & _).
    exists b. split; [reflexivity|]. specialize (Hn x). nia.
Qed.

(** X24. The calendar file does not fit its buffer of 16384 bytes once the
    program holds enough entries and reservations: the fixed lines take 83
    characters, the event of an entry 131 at least and the event of a
    reservation 147 at least, whatever the dates read; nothing bounds what
    is appended to the buffer.  So when 83 + 131 entries + 147 reservations
    is 16384 or more, [generate_ics] writes past the end of the buffer. *)
Theorem generate_ics_overflows (strftime_at : Z -> Z -> Z -> string)
    (s : MeetingScheduler)
    (Hmany : 16384 <= 83 + 131 * schedule_count s + 147 * reservation_count s) :
  generate_ics strftime_at s = None.
Proof.
  destruct (generate_ics strftime_at s) as [ics|] eqn:H; [exfalso|reflexivity].
  unfold generate_ics in H. cbv zeta in H.
  apply strcat_some in H. destruct H as (b5 & H & E5 & Hfit).
  apply (events_some _ 147 _ _ _ (reservation_event_length strftime_at)) in H.
  destruct H as (b4 & H & E4).
  apply (events_some _ 131 _ _ _ (meeting_event_length strftime_at)) in H.
  destruct H as (b3 & H & E3).
  apply strcat_some in H. destruct H as (b2 & H & E2 & _).
  apply strcat_some in H. destruct H as (b1 & H & E1 & _).
  apply strcat_some in H. destruct H as (b0 & H & E0 & _).
  cbn [String.length printed fold_right String.append crlf] in E5, E2, E1, E0.
  unfold reservation_count, schedule_count in Hmany. lia.
Qed.

Lemma generate_ics_overflows_witness :
  reachable busy_quarter /\
  schedule_count busy_quarter = 96 /\ reservation_count busy_quarter = 30 /\
  generate_ics (fun _ _ _ => "20250414T090000") busy_quarter = None.
Proof.
  split; [apply reachable_reserve_all, reachable_add_times, reach_init|].
  split; [vm_compute; reflexivity|]. split; [vm_compute; reflexivity|].
  apply (generate_ics_overflows (fun _ _ _ => "20250414T090000") busy_quarter).
  vm_compute. discriminate.
Defined.

(** X26. The hour and the minute at which the calendar file starts an event are
    those of the label of the slot: for an entry, the label of its start
    slot; for a reservation, its start label as recorded, when it is one of
    the fourteen slot labels. *)
Theorem event_start_is_slot_label (start_time : string)
    (Hknown : find_slot_index start_time <> -1) :
  let start_idx := find_slot_index start_time in
  str_at TIME_SLOTS start_idx = start_time /\
  printed [decimal2 (event_hour start_idx); ":"; decimal2 (event_min start_idx)]
  = start_time.
Proof.
  cbv zeta. pose proof (find_slot_index_label start_time Hknown) as El.
  split; [exact El|].
  destruct (find_slot_index_range start_time) as [Hr|Hr]; [contradiction|].
  assert (Hall : forallb
                   (fun t => String.eqb
                               (printed [decimal2 (event_hour t); ":";
                                         decimal2 (event_min t)])
                               (str_at TIME_SLOTS t))
                   (seqZ 0 MAX_SLOTS) = true) by (vm_compute; reflexivity).
  rewrite forallb_forall in Hall.
  assert (Hin : 0 <= find_slot_index start_time < 0 + MAX_SLOTS) by lia.
  specialize (Hall (find_slot_index start_time)
                (proj1 (list_elem_of_In _ _) (proj2 (elem_of_seqZ _ _ _) Hin))).
  apply String.eqb_eq in Hall. now rewrite Hall.
Qed.

Lemma event_start_is_slot_label_witness :
  str_at TIME_SLOTS (find_slot_index "13:30") = "13:30" /\
  printed [decimal2 (event_hour (find_slot_index "13:30")); ":";
           decimal2 (event_min (find_slot_index "13:30"))] = "13:30".
Proof.
  apply (event_start_is_slot_label "13:30"). vm_compute. discriminate.
Defined.

(** ** The page of a small schedule *)

Lemma strcat_none (pieces : list string) : fold_left strcat pieces None = None.
Proof. induction pieces as [|p pieces IH]; [reflexivity|exact IH]. Qed.

(** A run of [strcat] gives the text of the pieces when they fit the buffer
    together, and no result when they do not. *)
Lemma strcat_all (pieces : list string) (b : string) :
  Z.of_nat (String.length b) < 16384 ->
  fold_left strcat pieces (Some b)
  = if Z.of_nat (String.length b) + Z.of_nat (lengths pieces) <? 16384
    then Some (String.append b (printed pieces)) else None.
Proof.
  revert b. induction pieces as [|p pieces IH]; intros b Hb;
    cbn [fold_left lengths printed fold_right].
  - destruct (Z.ltb_spec (Z.of_nat (String.length b) + Z.of_nat 0) 16384); [|lia].
    f_equal. clear. induction b as [|c b IH]; cbn; [reflexivity|now rewrite <- IH].
  - unfold strcat at 2. fold (lengths pieces).
    destruct (Z.ltb_spec (Z.of_nat (String.length b) + Z.of_nat (String.length p))
                16384) as [E|E].
    + rewrite IH by (rewrite length_append; lia). rewrite length_append.
      assert (Ea : forall x y z : string,
                 String.append (String.append x y) z
                 = String.append x (String.append y z)).
      { clear. intros x y z. induction x as [|c x IH]; cbn; [reflexivity|now rewrite IH]. }
      rewrite Ea.
      destruct (Z.ltb_spec (Z.of_nat (String.length b + String.length p)
                            + Z.of_nat (lengths pieces)) 16384);
        destruct (Z.ltb_spec (Z.of_nat (String.length b)
                              + Z.of_nat (String.length p + lengths pieces)) 16384);
        try reflexivity; lia.
    + rewrite strcat_none.
      destruct (Z.ltb_spec (Z.of_nat (String.length b)
                            + Z.of_nat (String.length p + lengths pieces)) 16384);
        [lia|reflexivity].
Qed.

Lemma entry_rows_pieces (s : MeetingScheduler) (week day : Z) (buffer : option string) :
  entry_rows s week day buffer
  = fold_left strcat
      (map (entry_row day)
         (List.filter (fun e => (e_week e =? week) && (e_day e =? day)) (schedule s)))
      buffer.
Proof.
  unfold entry_rows. revert buffer.
  induction (schedule s) as [|e sch IH]; intros buffer; cbn [fold_left List.filter];
    [reflexivity|].
  rewrite IH. destruct ((e_week e =? week) && (e_day e =? day)); reflexivity.
Qed.

Lemma reservation_rows_pieces (s : MeetingScheduler) (day : Z) (buffer : option string) :
  reservation_rows s day buffer
  = fold_left strcat
      (map (reservation_row day)
         (List.filter (fun r => String.eqb (r_day r) (str_at DAYS day))
            (reservations s)))
      buffer.
Proof.
  unfold reservation_rows. revert buffer.
  induction (reservations s) as [|r rs IH]; intros buffer; cbn [fold_left List.filter];
    [reflexivity|].
  rewrite IH. destruct (String.eqb (r_day r) (str_at DAYS day)); reflexivity.
Qed.

Lemma day_rows_pieces (s : MeetingScheduler) (week day : Z) (buffer : option string) :
  reservation_rows s day (entry_rows s week day buffer)
  = fold_left strcat (day_pieces s week day) buffer.
Proof.
  unfold day_pieces.
  now rewrite fold_left_app, <- entry_rows_pieces, <- reservation_rows_pieces.
Qed.

Lemma lengths_app (l1 l2 : list string) :
  lengths (l1 ++ l2) = (lengths l1 + lengths l2)%nat.
Proof.
  unfold lengths. induction l1 as [|p l1 IH]; cbn [app fold_right];
    [reflexivity|rewrite IH; lia].
Qed.

Lemma lengths_rows {A : Type} (row : A -> string) (l : list A) :
  (forall x, (String.length (row x) <= 511)%nat) ->
  (lengths (map row l) <= 511 * length l)%nat.
Proof.
  intros H. unfold lengths.
  induction l as [|x l IH]; cbn [map fold_right length]; [lia|].
  specialize (H x). lia.
Qed.

Lemma in_temp_le (text : string) : (String.length (in_temp text) <= 511)%nat.
Proof. unfold in_temp. rewrite length_substring_0. lia. Qed.

(** An entry is shown in one table at most, on one day at most. *)
Lemma shown_entries_le (sch : list ScheduleEntry) :
  (fold_right
     (fun wd n =>
        (length (List.filter
                   (fun e => ((e_week e =? fst wd) && (e_day e =? snd wd))%Z) sch)
         + n)%nat)
     0%nat (w ← seqZ 0 MAX_WEEKS; d ← seqZ 0 MAX_DAYS; [(w, d)])%Z
   <= length sch)%nat.
Proof.
  change (w ← seqZ 0 MAX_WEEKS; d ← seqZ 0 MAX_DAYS; [(w, d)])
    with [(0, 0); (0, 1); (0, 2); (0, 3); (1, 0); (1, 1); (1, 2); (1, 3);
          (2, 0); (2, 1); (2, 2); (2, 3); (3, 0); (3, 1); (3, 2); (3, 3)].
  cbn [fold_right fst snd].
  induction sch as [|e sch IH]; cbn [List.filter length]; [lia|].
  destruct (Z.eqb_spec (e_week e) 0), (Z.eqb_spec (e_week e) 1),
    (Z.eqb_spec (e_week e) 2), (Z.eqb_spec (e_week e) 3); try lia;
    destruct (Z.eqb_spec (e_day e) 0), (Z.eqb_spec (e_day e) 1),
      (Z.eqb_spec (e_day e) 2), (Z.eqb_spec (e_day e) 3); try lia;
    cbn [andb length]; lia.
Qed.

(** A reservation is shown on one day at most. *)
Lemma shown_reservations_le (rs : list Reservation) :
  (fold_right
     (fun d n =>
        (length (List.filter (fun r => String.eqb (r_day r) (str_at DAYS d)) rs) + n)%nat)
     0%nat (seqZ 0 MAX_DAYS)%Z
   <= length rs)%nat.
Proof.
  change (seqZ 0 MAX_DAYS) with [0; 1; 2; 3]. cbn [fold_right].
  change (str_at DAYS 0) with "Monday". change (str_at DAYS 1) with "Tuesday".
  change (str_at DAYS 2) with "Wednesday". change (str_at DAYS 3) with "Thursday".
  induction rs as [|r rs IH]; cbn [List.filter length]; [lia|].
  destruct (String.eqb_spec (r_day r) "Monday") as [E0|_],
    (String.eqb_spec (r_day r) "Tuesday") as [E1|_],
    (String.eqb_spec (r_day r) "Wednesday") as [E2|_],
    (String.eqb_spec (r_day r) "Thursday") as [E3|_];
    try (rewrite E0 in *; discriminate);
    try (rewrite E1 in *; discriminate);
    try (rewrite E2 in *; discriminate);
    cbn [length]; lia.
Qed.

Lemma length_printed (pieces : list string) :
  String.length (printed pieces) = lengths pieces.
Proof.
  unfold printed, lengths. induction pieces as [|p pieces IH]; cbn [fold_right];
    [reflexivity|now rewrite length_append, IH].
Qed.

Lemma strcat_fits (pieces : list string) (b : string) :
  Z.of_nat (String.length b) + Z.of_nat (lengths pieces) < 16384 ->
  exists b', fold_left strcat pieces (Some b) = Some b' /\
             String.length b' = (String.length b + lengths pieces)%nat.
Proof.
  intros H. rewrite strcat_all by lia.
  destruct (Z.ltb_spec (Z.of_nat (String.length b) + Z.of_nat (lengths pieces)) 16384);
    [|lia].
  eexists. split; [reflexivity|]. now rewrite length_append, length_printed.
Qed.

Lemma strcat_fits_1 (piece b : string) :
  Z.of_nat (String.length b) + Z.of_nat (String.length piece) < 16384 ->
  exists b', strcat (Some b) piece = Some b' /\
             String.length b' = (String.length b + String.length piece)%nat.
Proof.
  intros H. unfold strcat.
  destruct (Z.ltb_spec (Z.of_nat (String.length b) + Z.of_nat (String.length piece))
              16384); [|lia].
  eexists. split; [reflexivity|]. apply length_append.
Qed.

Lemma week_table_fits (s : MeetingScheduler) (week : Z) (b : string) :
  0 <= week < MAX_WEEKS ->
  let n := (lengths (day_pieces s week 0) + lengths (day_pieces s week 1)
            + lengths (day_pieces s week 2) + lengths (day_pieces s week 3))%nat in
  Z.of_nat (String.length b) + 213 + Z.of_nat n < 16384 ->
  exists b', week_table s (Some b) week = Some b' /\
             String.length b' = (String.length b + 213 + n)%nat.
Proof.
  intros Hw n Hfit. unfold n in *. clear n.
  unfold week_table. cbv zeta. change (seqZ 0 MAX_DAYS) with [0; 1; 2; 3].
  cbn [fold_left]. rewrite !day_rows_pieces.
  assert (Eh : String.length
                 (in_temp (printed ["<h3>Week "; decimal (week + 1); "</h3>"]))
               = 15%nat).
  { unfold MAX_WEEKS in Hw. assert (C : week = 0 \/ week = 1 \/ week = 2 \/ week = 3) by lia.
    destruct C as [->|[->|[->| ->]]]; reflexivity. }
  destruct (strcat_fits_1
              (in_temp (printed ["<h3>Week "; decimal (week + 1); "</h3>"])) b)
    as (b1 & -> & L1); [rewrite Eh; lia|]. rewrite Eh in L1.
  destruct (strcat_fits_1 "<table class='table table-bordered'><thead><tr>" b1)
    as (b2 & -> & L2); [cbn [String.length]; lia|]. cbn [String.length] in L2.
  destruct (strcat_fits_1 "<th>Day</th><th>Start Time</th><th>End Time</th><th>Name</th><th>Type</th><th>Duration (min)</th><th>Frequency</th>" b2)
    as (b3 & -> & L3); [cbn [String.length]; lia|]. cbn [String.length] in L3.
  destruct (strcat_fits_1 "</tr></thead><tbody>" b3)
    as (b4 & -> & L4); [cbn [String.length]; lia|]. cbn [String.length] in L4.
  destruct (strcat_fits (day_pieces s week 0) b4) as (b5 & -> & L5); [lia|].
  destruct (strcat_fits (day_pieces s week 1) b5) as (b6 & -> & L6); [lia|].
  destruct (strcat_fits (day_pieces s week 2) b6) as (b7 & -> & L7); [lia|].
  destruct (strcat_fits (day_pieces s week 3) b7) as (b8 & -> & L8); [lia|].
  destruct (strcat_fits_1 "</tbody></table>" b8)
    as (b9 & -> & L9); [cbn [String.length]; lia|]. cbn [String.length] in L9.
  exists b9. split; [reflexivity|lia].
Qed.

Lemma day_pieces_le (s : MeetingScheduler) (week day : Z) :
  (lengths (day_pieces s week day)
   <= 511 * (length (List.filter
                       (fun e => ((e_week e =? week) && (e_day e =? day))%Z)
                       (schedule s))
             + length (List.filter
                         (fun r => String.eqb (r_day r) (str_at DAYS day))
                         (reservations s))))%nat.
Proof.
  unfold day_pieces. rewrite lengths_app.
  pose proof (lengths_rows (entry_row day)
                (List.filter (fun e => ((e_week e =? week) && (e_day e =? day))%Z)
                   (schedule s))
                (fun e => in_temp_le _)) as H1.
  pose proof (lengths_rows (reservation_row day)
                (List.filter (fun r => String.eqb (r_day r) (str_at DAYS day))
                   (reservations s))
                (fun r => in_temp_le _)) as H2.
  lia.
Qed.

(** X27. The page of a small schedule fits its buffer: every row takes 511
    characters at most, an entry is shown in one row at most and a
    reservation in four, so with entries + 4 * reservations at 29 or less
    [generate_schedule_html] returns the page, in every state. *)
Theorem generate_schedule_html_fits (s : MeetingScheduler)
    (Hfew : schedule_count s + 4 * reservation_count s <= 29) :
  exists page, generate_schedule_html s = Some page.
Proof.
  pose proof (shown_entries_le (schedule s)) as He.
  change (w ← seqZ 0 MAX_WEEKS; d ← seqZ 0 MAX_DAYS; [(w, d)])
    with [(0, 0); (0, 1); (0, 2); (0, 3); (1, 0); (1, 1); (1, 2); (1, 3);
          (2, 0); (2, 1); (2, 2); (2, 3); (3, 0); (3, 1); (3, 2); (3, 3)] in He.
  cbn [fold_right fst snd] in He.
  pose proof (shown_reservations_le (reservations s)) as Hr.
  change (seqZ 0 MAX_DAYS) with [0; 1; 2; 3] in Hr. cbn [fold_right] in Hr.
  pose proof (day_pieces_le s 0 0). pose proof (day_pieces_le s 0 1).
  pose proof (day_pieces_le s 0 2). pose proof (day_pieces_le s 0 3).
  pose proof (day_pieces_le s 1 0). pose proof (day_pieces_le s 1 1).
  pose proof (day_pieces_le s 1 2). pose proof (day_pieces_le s 1 3).
  pose proof (day_pieces_le s 2 0). pose proof (day_pieces_le s 2 1).
  pose proof (day_pieces_le s 2 2). pose proof (day_pieces_le s 2 3).
  pose proof (day_pieces_le s 3 0). pose proof (day_pieces_le s 3 1).
  pose proof (day_pieces_le s 3 2). pose proof (day_pieces_le s 3 3).
  unfold schedule_count, reservation_count in Hfew.
  unfold generate_schedule_html. cbv zeta.
  change (seqZ 0 MAX_WEEKS) with [0; 1; 2; 3]. cbn [fold_left].
  destruct (strcat_fits_1 "<!DOCTYPE html><html><head><meta charset='utf-8'><title>Schedule</title>" "")
    as (a1 & -> & G1); [cbn [String.length]; lia|]. cbn [String.length] in G1.
  destruct (strcat_fits_1 "<link rel='stylesheet' href='https://stackpath.bootstrapcdn.com/bootstrap/4.5.2/css/bootstrap.min.css'>" a1)
    as (a2 & -> & G2); [cbn [String.length]; lia|]. cbn [String.length] in G2.
  destruct (strcat_fits_1 "<style>@media print { .no-print { display: none; } }</style>" a2)
    as (a3 & -> & G3); [cbn [String.length]; lia|]. cbn [String.length] in G3.
  destruct (strcat_fits_1 "</head><body><div class='container'><h1>Weekly Meeting Schedule</h1>" a3)
    as (a4 & -> & G4); [cbn [String.length]; lia|]. cbn [String.length] in G4.
  destruct (week_table_fits s 0 a4) as (w1 & -> & W1);
    [unfold MAX_WEEKS; lia|cbv zeta; lia|]. cbv zeta in W1.
  destruct (week_table_fits s 1 w1) as (w2 & -> & W2);
    [unfold MAX_WEEKS; lia|cbv zeta; lia|]. cbv zeta in W2.
  destruct (week_table_fits s 2 w2) as (w3 & -> & W3);
    [unfold MAX_WEEKS; lia|cbv zeta; lia|]. cbv zeta in W3.
  destruct (week_table_fits s 3 w3) as (w4 & -> & W4);
    [unfold MAX_WEEKS; lia|cbv zeta; lia|]. cbv zeta in W4.
  destruct (strcat_fits_1 "<div class='no-print mt-4'><button class='btn btn-info' onclick='window.print()'>Print to PDF</button></div>" w4)
    as (f1 & -> & F1); [cbn [String.length]; lia|]. cbn [String.length] in F1.
  destruct (strcat_fits_1 "<p class='mt-2'><a href='/'>Return to Main Page</a></p>" f1)
    as (f2 & -> & F2); [cbn [String.length]; lia|]. cbn [String.length] in F2.
  destruct (strcat_fits_1 "</div></body></html>" f2)
    as (f3 & -> & F3); [cbn [String.length]; lia|].
  now exists f3.
Qed.

Lemma generate_schedule_html_fits_witness :
  exists page, generate_schedule_html sample_state = Some page.
Proof.
  apply (generate_schedule_html_fits sample_state). vm_compute. discriminate.
Defined.

(** * The results of a call, case by case *)

(** The test that ends [add_meeting] with [false] after the search. *)
Lemma add_meeting_not_found (s : MeetingScheduler) (m : Meeting)
    (rand : nat -> nat) :
  (chosen_day (search s m) =? -1) || (chosen_time (search s m) =? -1) = true ->
  add_meeting s m rand = Some (false, s).
Proof. intros H. unfold add_meeting. cbv zeta. now rewrite H. Qed.

Lemma search_found (s : MeetingScheduler) (m : Meeting) :
  (chosen_day (search s m) =? -1) || (chosen_time (search s m) =? -1) = false ->
  exists p, In (p, chosen_day (search s m), chosen_time (search s m))
              (candidates s m).
Proof.
  intros H. destruct (search_chosen s m) as [[Hd _]|Hin]; [|exact Hin].
  rewrite Hd in H. discriminate.
Qed.

(** When the search has chosen a candidate and the schedule array has no
    room for every occurrence, one of them is written past its end. *)
Lemma add_meeting_no_room (s : MeetingScheduler) (m : Meeting)
    (rand : nat -> nat) (p : Z) :
  MAX_MEETINGS * MAX_WEEKS < schedule_count s + occurrences_of m ->
  In (p, chosen_day (search s m), chosen_time (search s m)) (candidates s m) ->
  add_meeting s m rand = None.
Proof.
  intros Hfull Hin.
  destruct (add_meeting s m rand) as [[b s']|] eqn:Hcall; [exfalso|reflexivity].
  rewrite (add_meeting_succeeds s s' m rand b p Hin Hcall) in Hcall.
  destruct (add_meeting_entries s s' m rand Hcall) as (_ & ws & _ & Hs & Hlen & _).
  assert (Hroom : s' = s \/ schedule_count s' <= MAX_MEETINGS * MAX_WEEKS).
  { apply (add_meeting_keeps
             (fun s1 => s1 = s \/ schedule_count s1 <= MAX_MEETINGS * MAX_WEEKS)
             s s' m rand true); [|now left|exact Hcall].
    intros d t s1 week s2 _ _ _ _ _ _ Hc. right.
    destruct (proj2 (commit_entry_room s1 m week d t) s2 Hc). lia. }
  pose proof (occurrences_of_pos m) as Ho.
  assert (Hcount : schedule_count s' = schedule_count s + occurrences_of m).
  { unfold schedule_count. rewrite Hs, length_app, length_map, Hlen. lia. }
  destruct Hroom as [->|Hroom]; lia.
Qed.

(** The three results of [add_meeting]: [false] with the state as it was
    when the search has chosen nothing; otherwise [true] when the schedule
    array has room for the occurrences, and a write past the array when it
    has not. *)
Lemma add_meeting_cases (s : MeetingScheduler) (m : Meeting) (rand : nat -> nat) :
  if (chosen_day (search s m) =? -1) || (chosen_time (search s m) =? -1)
  then add_meeting s m rand = Some (false, s)
  else if schedule_count s + occurrences_of m <=? MAX_MEETINGS * MAX_WEEKS
       then exists s', add_meeting s m rand = Some (true, s')
       else add_meeting s m rand = None.
Proof.
  destruct ((chosen_day (search s m) =? -1) || (chosen_time (search s m) =? -1))
    eqn:E.
  - now apply add_meeting_not_found.
  - destruct (search_found s m E) as [p Hin].
    destruct (Z.leb_spec (schedule_count s + occurrences_of m)
                (MAX_MEETINGS * MAX_WEEKS)) as [Hle|Hlt].
    + destruct (add_meeting_defined s m rand Hle) as [[b s'] Hr].
      exists s'. now rewrite <- (add_meeting_succeeds s s' m rand b p Hin Hr).
    + exact (add_meeting_no_room s m rand p Hlt Hin).
Qed.

(** The state with four hundred entries: the array is full, and the search
    still chooses Monday 09:00 for [weekly_example] and Monday 10:00 for
    [fortnightly_example], since the entries, of no duration, hold no cell. *)
Lemma four_hundred_entries_facts :
  schedule_count four_hundred_entries = MAX_MEETINGS * MAX_WEEKS /\
  (chosen_day (search four_hundred_entries weekly_example) = 0 /\
   chosen_time (search four_hundred_entries weekly_example) = 0 /\
   Forall (fun w => is_valid_slot four_hundred_entries w 0 0
                      (m_duration weekly_example) = true) (seqZ 0 MAX_WEEKS)) /\
  (chosen_day (search four_hundred_entries fortnightly_example) = 0 /\
   chosen_time (search four_hundred_entries fortnightly_example) = 2 /\
   is_valid_slot four_hundred_entries 0 0 2 (m_duration fortnightly_example)
   && is_valid_slot four_hundred_entries 2 0 2 (m_duration fortnightly_example)
   = true).
Proof.
  split; [vm_compute; reflexivity|]. split.
  - split; [vm_compute; reflexivity|]. split; [vm_compute; reflexivity|].
    rewrite seqZ_weeks.
    repeat (apply List.Forall_cons; [vm_compute; reflexivity|]).
    apply List.Forall_nil.
  - split; [vm_compute; reflexivity|]. split; vm_compute; reflexivity.
Qed.

(** * The weeks of a placement *)

(** C6.  A weekly request is placed in four entries, one in each of the
    weeks 0 to 3, all on the day and at the start slot chosen by the search,
    whenever the search has chosen a slot and the schedule array has room for
    four entries; it is refused with the state as it was when the search has
    chosen nothing.  The code does not test the room left in the array: on
    the state with four hundred entries, which a run reaches, the search
    chooses Monday 09:00, valid in the four weeks, and the weekly request is
    written past the end of the array (no result). *)
Theorem C6_weekly_four_weeks :
  (forall (s : MeetingScheduler) (m : Meeting) (rand : nat -> nat),
     m_frequency m = "weekly" ->
     let d := chosen_day (search s m) in
     let t := chosen_time (search s m) in
     if (d =? -1) || (t =? -1) then add_meeting s m rand = Some (false, s)
     else if schedule_count s + 4 <=? MAX_MEETINGS * MAX_WEEKS
          then exists s' e0 e1 e2 e3,
                 add_meeting s m rand = Some (true, s') /\
                 schedule s' = schedule s ++ [e0; e1; e2; e3] /\
                 [e_week e0; e_week e1; e_week e2; e_week e3] ≡ₚ [0; 1; 2; 3] /\
                 Forall (fun e => e_day e = d /\ e_start_time e = t)
                   [e0; e1; e2; e3] /\
                 0 <= d < MAX_DAYS /\ 0 <= t < MAX_SLOTS
          else add_meeting s m rand = None) /\
  (reachable four_hundred_entries /\
   schedule_count four_hundred_entries = MAX_MEETINGS * MAX_WEEKS /\
   chosen_day (search four_hundred_entries weekly_example) = 0 /\
   chosen_time (search four_hundred_entries weekly_example) = 0 /\
   Forall (fun w => is_valid_slot four_hundred_entries w 0 0
                      (m_duration weekly_example) = true) (seqZ 0 MAX_WEEKS) /\
   forall rand, add_meeting four_hundred_entries weekly_example rand = None).
Proof.
  split.
  - intros s m rand Hf. cbv zeta.
    assert (Ho : occurrences_of m = 4)
      by (unfold occurrences_of; rewrite Hf; reflexivity).
    pose proof (add_meeting_cases s m rand) as H. rewrite Ho in H.
    destruct ((chosen_day (search s m) =? -1) || (chosen_time (search s m) =? -1));
      [exact H|].
    destruct (schedule_count s + 4 <=? MAX_MEETINGS * MAX_WEEKS); [|exact H].
    destruct H as [s' Hr].
    destruct (weekly_entries s s' m rand Hf Hr)
      as (w0 & w1 & w2 & w3 & Hs & Hperm & Hd & Ht).
    exists s', (entry_of m w0 (chosen_day (search s m)) (chosen_time (search s m))),
      (entry_of m w1 (chosen_day (search s m)) (chosen_time (search s m))),
      (entry_of m w2 (chosen_day (search s m)) (chosen_time (search s m))),
      (entry_of m w3 (chosen_day (search s m)) (chosen_time (search s m))).
    cbn [entry_of e_week e_day e_start_time].
    split; [exact Hr|]. split; [exact Hs|]. split; [exact Hperm|].
    split; [repeat constructor|]. split; assumption.
  - destruct four_hundred_entries_facts as (Hc & (Hd & Ht & Hv) & _).
    split; [apply reachable_add_times, reach_init|].
    split; [exact Hc|]. split; [exact Hd|]. split; [exact Ht|].
    split; [exact Hv|]. intros rand.
    pose proof (add_meeting_cases four_hundred_entries weekly_example rand) as H.
    rewrite Hd, Ht, Hc in H. exact H.
Qed.

Lemma C6_weekly_four_weeks_witness :
  exists s' e0 e1 e2 e3,
    add_meeting init_scheduler weekly_example (fun _ => 5%nat) = Some (true, s') /\
    schedule s' = [e0; e1; e2; e3] /\
    [e_week e0; e_week e1; e_week e2; e_week e3] ≡ₚ [0; 1; 2; 3] /\
    Forall (fun e => e_day e = 0 /\ e_start_time e = 0) [e0; e1; e2; e3].
Proof.
  pose proof (proj1 C6_weekly_four_weeks init_scheduler weekly_example
                (fun _ => 5%nat) eq_refl) as H.
  cbv zeta in H.
  assert (Hd : chosen_day (search init_scheduler weekly_example) = 0)
    by (vm_compute; reflexivity).
  assert (Ht : chosen_time (search init_scheduler weekly_example) = 0)
    by (vm_compute; reflexivity).
  rewrite Hd, Ht in H.
  destruct H as (s' & e0 & e1 & e2 & e3 & Hr & Hs & Hw & He & _).
  exists s', e0, e1, e2, e3. repeat split; assumption.
Defined.

(** C2.  A fortnightly request is placed in two entries, on the day and at
    the start slot chosen by the search, in the weeks 0 and 2 when the slot
    is valid in both, and otherwise in the weeks 1 and 3, in which it is
    then valid, whenever the search has chosen a slot and the schedule array
    has room for two entries; it is refused with the state as it was when
    the search has chosen nothing, and no refusal leaves an occurrence
    behind.  The code does not test the room left in the array: on the state
    with four hundred entries, which a run reaches, the search chooses Monday
    10:00 for the request, valid in the weeks 0 and 2, and the two entries
    are written past the end of the array (no result). *)
Theorem C2_fortnightly_pairing :
  (forall (s : MeetingScheduler) (m : Meeting) (rand : nat -> nat),
     m_frequency m = "fortnightly" ->
     let d := chosen_day (search s m) in
     let t := chosen_time (search s m) in
     let valid w := is_valid_slot s w d t (m_duration m) in
     if (d =? -1) || (t =? -1) then add_meeting s m rand = Some (false, s)
     else if schedule_count s + 2 <=? MAX_MEETINGS * MAX_WEEKS
          then exists s' e1 e2,
                 add_meeting s m rand = Some (true, s') /\
                 schedule s' = schedule s ++ [e1; e2] /\
                 e_day e1 = d /\ e_day e2 = d /\
                 e_start_time e1 = t /\ e_start_time e2 = t /\
                 ((e_week e1 = 0 /\ e_week e2 = 2 /\ valid 0 && valid 2 = true) \/
                  (e_week e1 = 1 /\ e_week e2 = 3 /\
                   valid 0 && valid 2 = false /\ valid 1 && valid 3 = true))
          else add_meeting s m rand = None) /\
  (forall (s s' : MeetingScheduler) (m : Meeting) (rand : nat -> nat),
     m_frequency m = "fortnightly" ->
     add_meeting s m rand = Some (false, s') -> s' = s) /\
  (reachable four_hundred_entries /\
   schedule_count four_hundred_entries = MAX_MEETINGS * MAX_WEEKS /\
   chosen_day (search four_hundred_entries fortnightly_example) = 0 /\
   chosen_time (search four_hundred_entries fortnightly_example) = 2 /\
   is_valid_slot four_hundred_entries 0 0 2 (m_duration fortnightly_example)
   && is_valid_slot four_hundred_entries 2 0 2 (m_duration fortnightly_example)
   = true /\
   forall rand, add_meeting four_hundred_entries fortnightly_example rand = None).
Proof.
  split; [|split].
  - intros s m rand Hf. cbv zeta.
    assert (Ho : occurrences_of m = 2)
      by (unfold occurrences_of; rewrite Hf; reflexivity).
    pose proof (add_meeting_cases s m rand) as H. rewrite Ho in H.
    destruct ((chosen_day (search s m) =? -1) || (chosen_time (search s m) =? -1));
      [exact H|].
    destruct (schedule_count s + 2 <=? MAX_MEETINGS * MAX_WEEKS); [|exact H].
    destruct H as [s' Hr].
    pose proof (fortnightly_entries s m rand (true, s') Hf Hr) as Hp.
    cbv zeta in Hp. cbn [fst snd] in Hp.
    destruct Hp as (w1 & w2 & Hs & Hw).
    exists s', (entry_of m w1 (chosen_day (search s m)) (chosen_time (search s m))),
      (entry_of m w2 (chosen_day (search s m)) (chosen_time (search s m))).
    cbn [entry_of e_week e_day e_start_time].
    split; [exact Hr|]. split; [exact Hs|].
    do 4 (split; [reflexivity|]). exact Hw.
  - intros s s' m rand _ Hr. exact (add_meeting_false_unchanged s s' m rand Hr).
  - destruct four_hundred_entries_facts as (Hc & _ & (Hd & Ht & Hv)).
    split; [apply reachable_add_times, reach_init|].
    split; [exact Hc|]. split; [exact Hd|]. split; [exact Ht|].
    split; [exact Hv|]. intros rand.
    pose proof (add_meeting_cases four_hundred_entries fortnightly_example rand)
      as H.
    rewrite Hd, Ht, Hc in H. exact H.
Qed.

Lemma C2_fortnightly_pairing_witness :
  (exists s' e1 e2,
     add_meeting init_scheduler fortnightly_example (fun _ => 0%nat)
     = Some (true, s') /\
     schedule s' = [e1; e2] /\ e_week e1 = 0 /\ e_week e2 = 2 /\
     e_day e1 = 0 /\ e_day e2 = 0 /\ e_start_time e1 = 2 /\ e_start_time e2 = 2) /\
  (exists s' e1 e2,
     add_meeting monday_0900_taken fortnightly_0900 (fun _ => 0%nat)
     = Some (true, s') /\
     schedule s' = schedule monday_0900_taken ++ [e1; e2] /\
     e_week e1 = 1 /\ e_week e2 = 3 /\
     e_day e1 = 0 /\ e_day e2 = 0 /\ e_start_time e1 = 0 /\ e_start_time e2 = 0).
Proof.
  split.
  - pose proof (proj1 C2_fortnightly_pairing init_scheduler fortnightly_example
                  (fun _ => 0%nat) eq_refl) as H.
    cbv zeta in H.
    assert (Hd : chosen_day (search init_scheduler fortnightly_example) = 0)
      by (vm_compute; reflexivity).
    assert (Ht : chosen_time (search init_scheduler fortnightly_example) = 2)
      by (vm_compute; reflexivity).
    rewrite Hd, Ht in H.
    destruct H as (s' & e1 & e2 & Hr & Hs & Hd1 & Hd2 & Ht1 & Ht2 & Hw).
    exists s', e1, e2.
    split; [exact Hr|]. split; [exact Hs|].
    destruct Hw as [(H1 & H2 & _)|(_ & _ & Hv & _)];
      [|vm_compute in Hv; discriminate Hv].
    repeat split; assumption.
  - pose proof (proj1 C2_fortnightly_pairing monday_0900_taken fortnightly_0900
                  (fun _ => 0%nat) eq_refl) as H.
    cbv zeta in H.
    assert (Hd : chosen_day (search monday_0900_taken fortnightly_0900) = 0)
      by (vm_compute; reflexivity).
    assert (Ht : chosen_time (search monday_0900_taken fortnightly_0900) = 0)
      by (vm_compute; reflexivity).
    assert (Hc : (schedule_count monday_0900_taken + 2 <=? MAX_MEETINGS * MAX_WEEKS)
                 = true) by (vm_compute; reflexivity).
    rewrite Hd, Ht, Hc in H.
    destruct H as (s' & e1 & e2 & Hr & Hs & Hd1 & Hd2 & Ht1 & Ht2 & Hw).
    exists s', e1, e2.
    split; [exact Hr|]. split; [exact Hs|].
    destruct Hw as [(_ & _ & Hv)|(H1 & H2 & _)];
      [vm_compute in Hv; discriminate Hv|].
    repeat split; assumption.
Defined.

(** * An accepted reservation *)

(** C8.  A call of [reserve_slot] that is accepted marks every covered slot
    in the four week-planes and no other cell, appends exactly one
    [Reservation] record, adds [duration_slots * 0.5 * 4] hours to the total
    hours of its day only, and leaves the meeting hours and the schedule as
    they are; it is made with fewer than fifty reservations recorded.  A
    request that passes every test of the function (known labels, 30, 60 or
    90 minutes, within the day, every covered cell free in the four weeks)
    is accepted in that way when fewer than fifty reservations are recorded.
    The code does not test the room left in the array: with fifty
    reservations recorded, a state that accepted requests reach, the
    half hour of Thursday 14:00 passes every test and its record is written
    past the end of the array (no result). *)
Theorem C8_accepted_reservation :
  (forall (s s' : MeetingScheduler) (day start_time : string)
          (duration_minutes : Z),
     sched_wf s ->
     reserve_slot s day start_time duration_minutes = Some (true, s') ->
     let day_idx := find_day_index day in
     let start_idx := find_slot_index start_time in
     let duration_slots := Z.quot duration_minutes 30 in
     reservation_count s < MAX_RESERVATIONS /\
     (0 <= day_idx < MAX_DAYS /\ 0 <= start_idx /\
      start_idx + duration_slots <= MAX_SLOTS /\ 1 <= duration_slots <= 3) /\
     (forall week i, 0 <= week < MAX_WEEKS -> 0 <= i < duration_slots ->
        cell (blocked_slots s') week day_idx (start_idx + i) = true) /\
     (forall week d t, 0 <= week -> 0 <= d -> 0 <= t ->
        cell (blocked_slots s') week d t = true ->
        cell (blocked_slots s) week d t = true \/
        (week < MAX_WEEKS /\ d = day_idx /\
         start_idx <= t < start_idx + duration_slots)) /\
     reservations s' =
       reservations s ++
       [{| r_day := day; r_start_time := start_time;
           r_duration := duration_slots |}] /\
     hours_at (total_hours s') day_idx
     = (hours_at (total_hours s) day_idx
        + inject_Z duration_slots * (1 # 2) * inject_Z MAX_WEEKS)%Q /\
     (forall d, 0 <= d -> d <> day_idx ->
        hours_at (total_hours s') d = hours_at (total_hours s) d) /\
     meeting_hours s' = meeting_hours s /\
     schedule s' = schedule s) /\
  (forall (s : MeetingScheduler) (day start_time : string) (duration_minutes : Z),
     sched_wf s ->
     find_day_index day <> -1 -> find_slot_index start_time <> -1 ->
     duration_minutes = 30 \/ duration_minutes = 60 \/ duration_minutes = 90 ->
     find_slot_index start_time + Z.quot duration_minutes 30 <= MAX_SLOTS ->
     (forall w i, 0 <= w < MAX_WEEKS -> 0 <= i < Z.quot duration_minutes 30 ->
        cell (blocked_slots s) w (find_day_index day)
             (find_slot_index start_time + i) = false) ->
     if reservation_count s <? MAX_RESERVATIONS
     then exists s', reserve_slot s day start_time duration_minutes = Some (true, s')
     else reserve_slot s day start_time duration_minutes = None) /\
  (reachable fifty_reservations /\
   reservation_count fifty_reservations = MAX_RESERVATIONS /\
   find_day_index "Thursday" = 3 /\ find_slot_index "14:00" = 8 /\
   Forall (fun w => cell (blocked_slots fifty_reservations) w 3 8 = false)
     (seqZ 0 MAX_WEEKS) /\
   reserve_slot fifty_reservations "Thursday" "14:00" 30 = None).
Proof.
  split; [|split].
  - intros s s' day start_time duration_minutes Hwf Hacc.
    split.
    + exact (proj1 (proj2 (reserve_slot_inv _ _ _ _ _ Hacc))).
    + exact (reserve_slot_effects s s' day start_time duration_minutes Hwf Hacc).
  - intros s day start_time duration_minutes Hwf Hd Hs Hdm Hend Hfree.
    destruct (Z.ltb_spec (reservation_count s) MAX_RESERVATIONS) as [Hlt|Hge].
    + now apply reserve_slot_accepts.
    + now apply reserve_slot_on_free.
  - assert (Hr : reachable fifty_reservations)
      by apply reachable_reserve_all, reach_init.
    assert (Hfree : Forall
                      (fun w => cell (blocked_slots fifty_reservations) w 3 8 = false)
                      (seqZ 0 MAX_WEEKS))
      by (rewrite seqZ_weeks; repeat constructor; vm_compute; reflexivity).
    split; [exact Hr|]. split; [vm_compute; reflexivity|].
    split; [reflexivity|]. split; [reflexivity|]. split; [exact Hfree|].
    apply reserve_slot_on_free.
    + now apply reachable_wf.
    + vm_compute. discriminate.
    + vm_compute. discriminate.
    + left. reflexivity.
    + vm_compute. discriminate.
    + intros w i Hw Hi. change (Z.quot 30 30) with 1 in Hi.
      assert (i = 0) as -> by lia.
      change (find_day_index "Thursday") with 3.
      change (find_slot_index "14:00" + 0) with 8.
      rewrite Forall_forall in Hfree. apply Hfree. apply elem_of_seqZ. lia.
    + vm_compute. discriminate.
Qed.

Lemma C8_accepted_reservation_witness :
  exists s',
    reserve_slot init_scheduler "Monday" "15:30" 90 = Some (true, s') /\
    (forall week i, 0 <= week < MAX_WEEKS -> 0 <= i < 3 ->
       cell (blocked_slots s') week 0 (11 + i) = true) /\
    reservations s' =
      [{| r_day := "Monday"; r_start_time := "15:30"; r_duration := 3 |}] /\
    hours_at (total_hours s') 0 = (0 + inject_Z 3 * (1 # 2) * inject_Z 4)%Q /\
    meeting_hours s' = meeting_hours init_scheduler.
Proof.
  eexists. split; [reflexivity|].
  pose proof (proj1 C8_accepted_reservation init_scheduler _ "Monday" "15:30" 90
                sched_wf_init eq_refl) as H.
  cbv zeta in H. destruct H as (_ & _ & Hcells & _ & Hres & Hth & _ & Hmh & _).
  split; [exact Hcells|]. split; [exact Hres|]. split; [exact Hth|exact Hmh].
Defined.

(** * The other frequencies *)

(** C10.  A request whose frequency is neither "weekly" nor "fortnightly",
    whatever the string, counts one occurrence and is not refused for its
    frequency: the search chooses for it what it chooses for the same
    request labelled "monthly", and [add_meeting] gives the same result,
    with the same state but for the label copied in the entry.  The request
    is refused, with the state as it was, exactly when no day under the load
    cap has a time, among those the request allows, that is valid in some
    week; otherwise it is placed in exactly one entry, which carries its
    frequency string, on the day and at the time chosen, in a week in which
    the slot was valid; unless the schedule array is full, when the entry is
    written past its end (no result), as for a monthly request. *)
Theorem C10_other_frequency_places_once (s : MeetingScheduler) (m : Meeting)
    (rand : nat -> nat)
    (Hw : m_frequency m <> "weekly")
    (Hf : m_frequency m <> "fortnightly") :
  let d := chosen_day (search s m) in
  let t := chosen_time (search s m) in
  occurrences_of m = 1 /\
  search s m = search s (with_frequency m "monthly") /\
  match add_meeting s m rand, add_meeting s (with_frequency m "monthly") rand with
  | Some (b1, s1), Some (b2, s2) => b1 = b2 /\ same_but_labels s1 s2
  | None, None => True
  | _, _ => False
  end /\
  ((d =? -1) || (t =? -1) = true <->
   Forall (fun c => (1000000000 <= metric s m (cand_day c))%Q) (candidates s m)) /\
  (if (d =? -1) || (t =? -1) then add_meeting s m rand = Some (false, s)
   else if schedule_count s + 1 <=? MAX_MEETINGS * MAX_WEEKS
        then exists s' e,
               add_meeting s m rand = Some (true, s') /\
               schedule s' = schedule s ++ [e] /\
               e_frequency e = m_frequency m /\
               e_day e = d /\ e_start_time e = t /\
               0 <= e_week e < MAX_WEEKS /\
               is_valid_slot s (e_week e) d t (m_duration m) = true
        else add_meeting s m rand = None).
Proof.
  cbv zeta. destruct (other_frequency m Hw Hf) as (Ew & Ef & Ho).
  split; [exact Ho|]. split; [|split; [|split]].
  - apply search_congr; try reflexivity; [now rewrite Ho|now rewrite Ef].
  - exact (proj1 (proj2 (other_frequency_as_monthly s m rand Hw Hf))).
  - destruct (search_finds s m) as [[Hd Hall]|[[p Hin] Hex]].
    + rewrite Hd. split; [intros _; exact Hall|reflexivity].
    + rewrite (search_chosen_range s m p Hin). split; [discriminate|].
      intros Hall. exfalso.
      apply Exists_exists in Hex. destruct Hex as (c & Hc & Hlt).
      rewrite Forall_forall in Hall. specialize (Hall c Hc). cbv beta in Hall. lra.
  - pose proof (add_meeting_cases s m rand) as H. rewrite Ho in H.
    destruct ((chosen_day (search s m) =? -1) || (chosen_time (search s m) =? -1));
      [exact H|].
    destruct (schedule_count s + 1 <=? MAX_MEETINGS * MAX_WEEKS); [|exact H].
    destruct H as [s' Hr].
    destruct (add_meeting_entries s s' m rand Hr) as (_ & ws & _ & Hs & Hlen & _ & Hv).
    rewrite Ho in Hlen. change (Z.to_nat 1) with 1%nat in Hlen.
    destruct ws as [|w [|w' ws]]; try discriminate.
    apply Forall_cons in Hv. destruct Hv as [[Hwr Hvalid] _].
    exists s', (entry_of m w (chosen_day (search s m)) (chosen_time (search s m))).
    cbn [entry_of e_week e_day e_start_time e_frequency].
    split; [exact Hr|]. split; [exact Hs|].
    do 3 (split; [reflexivity|]). split; assumption.
Qed.

Lemma C10_other_frequency_places_once_witness :
  exists s' e,
    add_meeting init_scheduler daily_example (fun _ => 0%nat) = Some (true, s') /\
    schedule s' = [e] /\ e_frequency e = "daily" /\
    e_day e = 0 /\ e_start_time e = 0 /\ 0 <= e_week e < MAX_WEEKS.
Proof.
  pose proof (C10_other_frequency_places_once init_scheduler daily_example
                (fun _ => 0%nat) ltac:(discriminate) ltac:(discriminate)) as H.
  cbv zeta in H. destruct H as (_ & _ & _ & _ & H).
  assert (Hd : chosen_day (search init_scheduler daily_example) = 0)
    by (vm_compute; reflexivity).
  assert (Ht : chosen_time (search init_scheduler daily_example) = 0)
    by (vm_compute; reflexivity).
  rewrite Hd, Ht in H.
  destruct H as (s' & e & Hr & Hs & Hq & Hd' & Ht' & Hw & _).
  exists s', e. repeat split; try assumption; apply Hw.
Defined.

(** * The load cap *)

(** C3, as the code has it.  The loop over the days passes over a day whose
    meeting hours divided by 4 exceed 2.5, for every request: the turn of
    that day leaves the choice of the search as it was; so the search never
    chooses such a day, and no entry is ever placed on one.  A fixed day is
    no exception: when the day that a request fixes is over the cap, the
    search chooses nothing, and [add_meeting] returns [false] and changes
    nothing. *)
Theorem C3_cap_applies_to_fixed_day (s : MeetingScheduler) (m : Meeting)
    (rand : nat -> nat) :
  (forall (assigned_weeks : list bool) (day_order : list Z) (p d : Z) (b : best),
     (5 # 2 < hours_at (meeting_hours s) (day_idx_of m day_order d) / 4)%Q ->
     try_day s m assigned_weeks day_order p b d = b) /\
  (chosen_day (search s m) = -1 \/
   (0 <= chosen_day (search s m) < MAX_DAYS /\
    (hours_at (meeting_hours s) (chosen_day (search s m)) / 4 <= 5 # 2)%Q)) /\
  (forall (s' : MeetingScheduler) (e : ScheduleEntry),
     add_meeting s m rand = Some (true, s') -> In e (new_entries s s') ->
     (hours_at (meeting_hours s) (e_day e) / 4 <= 5 # 2)%Q) /\
  (0 <= fixed_day_idx_of m ->
   (5 # 2 < hours_at (meeting_hours s) (fixed_day_idx_of m) / 4)%Q ->
   chosen_day (search s m) = -1 /\ chosen_time (search s m) = -1 /\
   add_meeting s m rand = Some (false, s)).
Proof.
  assert (Hcap : forall p,
            In (p, chosen_day (search s m), chosen_time (search s m))
              (candidates s m) ->
            0 <= chosen_day (search s m) < MAX_DAYS /\
            (hours_at (meeting_hours s) (chosen_day (search s m)) / 4 <= 5 # 2)%Q).
  { intros p Hin. apply in_candidates in Hin.
    destruct Hin as (_ & Hd & Ho & _). split; [exact (day_list_range s m _ Hd)|].
    unfold overloaded in Ho. now apply Qltb_ge in Ho. }
  split; [|split; [|split]].
  - intros assigned_weeks day_order p d b Hload.
    unfold try_day. cbv zeta. fold (day_idx_of m day_order d).
    apply Qltb_lt in Hload. now rewrite Hload.
  - destruct (search_chosen s m) as [[Hd _]|[p Hin]]; [now left|right].
    exact (Hcap p Hin).
  - intros s' e Hr He.
    destruct (add_meeting_entries s s' m rand Hr) as (p & ws & Hin & Hs & _).
    rewrite (new_entries_app s s' _ Hs) in He.
    apply in_map_iff in He. destruct He as (w & <- & _).
    cbn [entry_of e_day]. exact (proj2 (Hcap p Hin)).
  - intros Hfix Hload.
    destruct (overloaded_fixed_day s m rand Hfix Hload) as (_ & Hc & Hr).
    pose proof (search_selects s m) as Hsel. rewrite Hc in Hsel.
    apply selects_nil in Hsel. destruct Hsel as [Hd Ht].
    repeat split; assumption.
Qed.

Lemma C3_cap_applies_to_fixed_day_witness :
  fixed_day_idx_of monday_afternoon = 0 /\
  (hours_at (meeting_hours monday_loaded) 0 == 12)%Q /\
  chosen_day (search monday_loaded monday_afternoon) = -1 /\
  chosen_time (search monday_loaded monday_afternoon) = -1 /\
  add_meeting monday_loaded monday_afternoon (fun _ => 0%nat)
  = Some (false, monday_loaded).
Proof.
  split; [reflexivity|]. split; [vm_compute; reflexivity|].
  apply (proj2 (proj2 (proj2 (C3_cap_applies_to_fixed_day monday_loaded
                                monday_afternoon (fun _ => 0%nat))))).
  - vm_compute. discriminate.
  - vm_compute. reflexivity.
Defined.
